(** * whisper_lambda: the request handler of [main/app.py]

    A shallow embedding of [get_file_extension] and [handler] together with
    the Python and operating-system behaviour they rely on, followed by the
    properties of the design specification that were checked against it.
    The start of the process (the module body of [main/app.py]) and the
    download script [main/download_model.py] are embedded as well, with
    properties of their own at the end.

    Conventions.
    - A Python [str] is a Rocq [string] holding its UTF-8 bytes; every
      character the program inspects (['/'], ['.'], ['%']) is ASCII, so
      positions of these characters agree with Python's.
    - A Python [bytes] is a [list byte].
    - The event is what the Lambda runtime hands over: a JSON value.
    - The disk is a finite map from paths to contents; besides the disk the
      world holds the trace of what was done to it, so that statements can
      speak of files created and of calls of the model.
    - Code of the Python library that [app.py] calls is either transcribed
      (membership, subscripting, truthiness, [base64.b64decode],
      [os.path.splitext]) or, where it is a codec of its own ([json.loads],
      [json.dumps], percent-decoding), a field of the [Platform] record. *)

From Stdlib Require Import String Ascii List ZArith NArith Bool Lia.
From Stdlib.Strings Require Import Byte.
From Stdlib Require Import SpecFloat DecimalString.
From stdpp Require Import gmap strings.

Import ListNotations.
Set Warnings "-register-all".
Local Open Scope string_scope.
Local Open Scope list_scope.

(** ** Python values and exceptions *)

Module Py.

(** The values [json.loads] produces. *)
Inductive value : Type :=
| VNone
| VBool (b : bool)
| VInt (n : Z)
| VFloat (f : spec_float)
| VStr (s : string)
| VList (l : list value)
| VDict (d : list (string * value)).

(** The exceptions (all subclasses of [Exception]) that the handler can
    meet.  [Other] stands for whatever an external component raises. *)
Inductive exn : Type :=
| TypeError (msg : string)
| AttributeError (msg : string)
| KeyError (key : string)
| ValueError (msg : string)
| BinasciiError (msg : string)
| OSError (msg : string)
| FileExistsError (path : string)
| FileNotFoundError (path : string)
| Other (cls : string) (msg : string).

(** [str(e)] *)
Definition str_exn (e : exn) : string :=
  match e with
  | TypeError m | AttributeError m | ValueError m
  | BinasciiError m | OSError m | Other _ m => m
  | KeyError k => "'" +:+ k +:+ "'"
  | FileExistsError p => "[Errno 17] File exists: '" +:+ p +:+ "'"
  | FileNotFoundError p =>
      "[Errno 2] No such file or directory: '" +:+ p +:+ "'"
  end.

(** Outcome of evaluating an expression. *)
Inductive result (A : Type) : Type :=
| Return (a : A)
| Raise (e : exn).
Arguments Return {A} a.
Arguments Raise {A} e.

Definition type_name (v : value) : string :=
  match v with
  | VNone => "NoneType"
  | VBool _ => "bool"
  | VInt _ => "int"
  | VFloat _ => "float"
  | VStr _ => "str"
  | VList _ => "list"
  | VDict _ => "dict"
  end.

(** [bool(v)] *)
Definition truthy (v : value) : bool :=
  match v with
  | VNone => false
  | VBool b => b
  | VInt n => negb (n =? 0)%Z
  | VFloat (S754_zero _) => false
  | VFloat _ => true
  | VStr s => negb (String.eqb s "")
  | VList l => match l with [] => false | _ => true end
  | VDict d => match d with [] => false | _ => true end
  end.

(** Lookup in a dict, kept as the list of its items. *)
Fixpoint dict_lookup {A : Type} (k : string) (d : list (string * A))
  : option A :=
  match d with
  | [] => None
  | (k', v) :: d' => if String.eqb k k' then Some v else dict_lookup k d'
  end.

Definition is_str (k : string) (v : value) : bool :=
  match v with
  | VStr s => String.eqb k s
  | _ => false
  end.

Definition is_substring (k s : string) : bool :=
  match index 0 k s with
  | Some _ => true
  | None => false
  end.

(** [k in v] for a string literal [k]. *)
Definition contains (k : string) (v : value) : result bool :=
  match v with
  | VDict d => Return (match dict_lookup k d with Some _ => true | None => false end)
  | VList l => Return (existsb (is_str k) l)
  | VStr s => Return (is_substring k s)
  | _ => Raise (TypeError ("argument of type '" +:+ type_name v
                           +:+ "' is not iterable"))
  end.

(** [v.get(k, default)] *)
Definition get (v : value) (k : string) (default : value) : result value :=
  match v with
  | VDict d => Return (match dict_lookup k d with Some x => x | None => default end)
  | _ => Raise (AttributeError ("'" +:+ type_name v
                                +:+ "' object has no attribute 'get'"))
  end.

(** [v[k]] for a string literal [k]. *)
Definition getitem (v : value) (k : string) : result value :=
  match v with
  | VDict d =>
      match dict_lookup k d with
      | Some x => Return x
      | None => Raise (KeyError k)
      end
  | VList _ =>
      Raise (TypeError "list indices must be integers or slices, not str")
  | VStr _ => Raise (TypeError "string indices must be integers, not 'str'")
  | _ => Raise (TypeError ("'" +:+ type_name v
                           +:+ "' object is not subscriptable"))
  end.

(** [key in d] followed by [d[key]] for a dict [d] with string keys and an
    arbitrary value as key, as one probe: lists and dicts cannot be
    hashed, and no other non-string value equals a string. *)
Definition dict_find {A : Type} (d : list (string * A)) (key : value)
  : result (option A) :=
  match key with
  | VStr s => Return (dict_lookup s d)
  | VList _ | VDict _ =>
      Raise (TypeError ("unhashable type: '" +:+ type_name key +:+ "'"))
  | _ => Return None
  end.

End Py.
Export Py.

(** ** [base64.b64decode] *)

Module Base64.

(** [binascii]'s decoding table: the 6-bit value of a character of the
    standard alphabet, nothing for any other character. *)
Definition table_a2b_base64 (c : ascii) : option N :=
  let n := N_of_ascii c in
  if (65 <=? n)%N && (n <=? 90)%N then Some (n - 65)%N
  else if (97 <=? n)%N && (n <=? 122)%N then Some (n - 71)%N
  else if (48 <=? n)%N && (n <=? 57)%N then Some (n + 4)%N
  else if (n =? 43)%N then Some 62%N
  else if (n =? 47)%N then Some 63%N
  else None.

Definition BASE64_PAD : ascii := "="%char.

(** An [unsigned char] as a byte. *)
Definition uchar (n : N) : byte := byte_of_ascii (ascii_of_N (n mod 256)).

(** The decoding loop of [binascii.a2b_base64] with [strict_mode] off.
    [quad_pos] is the position inside the current group of four
    characters, [leftchar] the bits not yet written, [pads] the number of
    padding characters seen since the last data character, [out] the
    bytes written so far.  The loop is left early ([done]) at the padding
    that completes a group. *)
Fixpoint a2b_loop (data : string) (quad_pos : N) (leftchar : N) (pads : N)
    (out : list byte) : N * list byte :=
  match data with
  | EmptyString => (quad_pos, out)
  | String this_ch rest =>
      if Ascii.eqb this_ch BASE64_PAD then
        if (2 <=? quad_pos)%N && (4 <=? quad_pos + (pads + 1))%N
        then (0%N, out)
        else a2b_loop rest quad_pos leftchar
               (if (2 <=? quad_pos)%N then (pads + 1)%N else pads) out
      else
        match table_a2b_base64 this_ch with
        | None => a2b_loop rest quad_pos leftchar pads out
        | Some v =>
            match quad_pos with
            | 0%N => a2b_loop rest 1 v 0 out
            | 1%N =>
                a2b_loop rest 2 (N.land v 15) 0
                  (out ++ [uchar (N.lor (N.shiftl leftchar 2) (N.shiftr v 4))])
            | 2%N =>
                a2b_loop rest 3 (N.land v 3) 0
                  (out ++ [uchar (N.lor (N.shiftl leftchar 4) (N.shiftr v 2))])
            | _ =>
                a2b_loop rest 0 0 0
                  (out ++ [uchar (N.lor (N.shiftl leftchar 6) v)])
            end
        end
  end.

Definition decimal (n : N) : string := NilZero.string_of_uint (N.to_uint n).

Definition a2b_base64 (data : string) : result (list byte) :=
  let '(quad_pos, out) := a2b_loop data 0 0 0 [] in
  if (quad_pos =? 0)%N then Return out
  else if (quad_pos =? 1)%N then
    Raise (BinasciiError
             ("Invalid base64-encoded string: number of data characters ("
              +:+ decimal (N.of_nat (length out) / 3 * 4 + 1)
              +:+ ") cannot be 1 more than a multiple of 4"))
  else Raise (BinasciiError "Incorrect padding").

Fixpoint is_ascii (s : string) : bool :=
  match s with
  | EmptyString => true
  | String c s' => (N_of_ascii c <? 128)%N && is_ascii s'
  end.

(** [base64.b64decode(s)]: [s] is turned into bytes
    ([_bytes_from_decode_data]) and handed to [binascii.a2b_base64]. *)
Definition b64decode (s : value) : result (list byte) :=
  match s with
  | VStr t =>
      if is_ascii t then a2b_base64 t
      else Raise (ValueError
                    "string argument should contain only ASCII characters")
  | _ => Raise (TypeError
                  ("argument should be a bytes-like object or ASCII string, not '"
                   +:+ type_name s +:+ "'"))
  end.

(** [base64.b64encode], the inverse direction: three bytes become four
    characters, a last group of one or two bytes is padded. *)
Definition b2a_char (v : N) : ascii :=
  if (v <? 26)%N then ascii_of_N (v + 65)
  else if (v <? 52)%N then ascii_of_N (v + 71)
  else if (v <? 62)%N then ascii_of_N (v - 4)
  else if (v =? 62)%N then "+"%char
  else "/"%char.

Fixpoint b64encode (b : list byte) : string :=
  match b with
  | [] => EmptyString
  | [x] =>
      let x := Byte.to_N x in
      String (b2a_char (N.shiftr x 2))
        (String (b2a_char (N.shiftl (N.land x 3) 4))
           (String BASE64_PAD (String BASE64_PAD EmptyString)))
  | [x; y] =>
      let x := Byte.to_N x in
      let y := Byte.to_N y in
      String (b2a_char (N.shiftr x 2))
        (String (b2a_char (N.lor (N.shiftl (N.land x 3) 4) (N.shiftr y 4)))
           (String (b2a_char (N.shiftl (N.land y 15) 2))
              (String BASE64_PAD EmptyString)))
  | x :: y :: z :: rest =>
      let x := Byte.to_N x in
      let y := Byte.to_N y in
      let z := Byte.to_N z in
      String (b2a_char (N.shiftr x 2))
        (String (b2a_char (N.lor (N.shiftl (N.land x 3) 4) (N.shiftr y 4)))
           (String (b2a_char (N.lor (N.shiftl (N.land y 15) 2) (N.shiftr z 6)))
              (String (b2a_char (N.land z 63)) (b64encode rest))))
  end.

End Base64.

(** ** [os.path.splitext] (POSIX flavour) *)

Module PosixPath.

(** [s.rfind(c)] for a one-character [c]: the highest index of [c], or
    [-1]. *)
Fixpoint rfind_from (c : ascii) (s : string) (i last : Z) : Z :=
  match s with
  | EmptyString => last
  | String a s' => rfind_from c s' (i + 1) (if Ascii.eqb a c then i else last)
  end.

Definition rfind (c : ascii) (s : string) : Z := rfind_from c s 0 (-1).

(** [p[:i]] and [p[i:]] for [0 <= i]. *)
Fixpoint take (n : nat) (s : string) : string :=
  match n, s with
  | S n', String a s' => String a (take n' s')
  | _, _ => EmptyString
  end.

Fixpoint drop (n : nat) (s : string) : string :=
  match n, s with
  | S n', String _ s' => drop n' s'
  | _, _ => s
  end.

Definition sep : ascii := "/"%char.
Definition extsep : ascii := "."%char.

(** The [while] loop of [genericpath._splitext] that skips the leading
    dots of the last component; [n] bounds the iterations left
    ([dotIndex - filenameIndex]).  [None]: the loop ran to its end. *)
Fixpoint skip_leading_dots (p : string) (dotIndex : Z) (n : nat)
    (filenameIndex : Z) : option (string * string) :=
  match n with
  | O => None
  | S n' =>
      if negb (match String.get (Z.to_nat filenameIndex) p with
               | Some c => Ascii.eqb c extsep
               | None => false
               end)
      then Some (take (Z.to_nat dotIndex) p, drop (Z.to_nat dotIndex) p)
      else skip_leading_dots p dotIndex n' (filenameIndex + 1)
  end.

Definition splitext (p : string) : string * string :=
  let sepIndex := rfind sep p in
  let dotIndex := rfind extsep p in
  if (dotIndex >? sepIndex)%Z then
    match skip_leading_dots p dotIndex
            (Z.to_nat (dotIndex - (sepIndex + 1))) (sepIndex + 1) with
    | Some r => r
    | None => (p, EmptyString)
    end
  else (p, EmptyString).

End PosixPath.

(** ** The world the handler runs in *)

Record transcript : Type := { text : string }.

Inductive level : Type := INFO | ERROR.

(** What a log call reports (the message text itself is formatting). *)
Inductive log_record : Type :=
| Received_event (dumped : string)
| Could_not_determine (content_type filename : value)
| Transcribing (file_ext model_size : string)
| Transcription_complete (transcription : string)
| Error_processing (message : string).

(** What the handler does to its surroundings, in order. *)
Inductive effect : Type :=
| Log (lvl : level) (r : log_record)
| Created (path : string)
| Wrote (path : string) (data : list byte)
| WriteFailed (path : string) (e : exn)
| Transcribed (path : string) (content : option (list byte))
    (outcome : result transcript)
| Removed (path : string)
| RemoveFailed (path : string) (e : exn).

(** The disk, and the record of what has been done so far. *)
Record World : Type := {
  fs : gmap string (list byte);
  trace : list effect;
}.

(** What lies outside [app.py]: the process environment, the codecs of the
    Python library that are not transcribed here, the operating system's
    answers, and the loaded model. *)
Record Platform : Type := {
  (** [os.environ.get("MODEL_SIZE")] *)
  environ_MODEL_SIZE : option string;
  (** [json.loads] on a [str] and on [bytes] *)
  json_loads : string -> result value;
  json_loads_bytes : list byte -> result value;
  (** [json.dumps] *)
  json_dumps : value -> string;
  (** [urllib.parse.unquote] on a [str] that contains a ['%'] *)
  unquote_escapes : string -> string;
  (** the directory and random stem [tempfile] picks for a new file with
      the given suffix, or the error of the attempt (within one
      invocation: the random sequence that [tempfile] draws from is not
      followed from one invocation to the next) *)
  tmp_stem : gmap string (list byte) -> string -> result string;
  (** whether writing the data to the file (flushing included) fails, and
      if so with which error and what is left in the file *)
  write_fault :
    gmap string (list byte) -> string -> list byte -> option (exn * list byte);
  (** [model.transcribe] of the model loaded at start-up: it reads the
      disk and changes nothing *)
  transcribe : gmap string (list byte) -> string -> result transcript;
  (** whether unlinking the file fails, and if so with which error (the
      file then stays as it is) *)
  remove_fault : gmap string (list byte) -> string -> option exn;
}.

(** Computations: they change the world and return or raise. *)
Definition M (A : Type) : Type := World -> World * result A.

#[export] Instance M_ret : MRet M := fun A a w => (w, Return a).

#[export] Instance M_bind : MBind M := fun A B k m w =>
  match m w with
  | (w', Return a) => k a w'
  | (w', Raise e) => (w', Raise e)
  end.

Definition lift {A : Type} (r : result A) : M A := fun w => (w, r).

Definition emit (e : effect) : M unit := fun w =>
  ({| fs := fs w; trace := trace w ++ [e] |}, Return tt).

Definition log (lvl : level) (r : log_record) : M unit := emit (Log lvl r).

(** [try: body finally: fin]: [fin] runs whatever [body] did; an exception
    of [fin] replaces the outcome of [body]. *)
Definition try_finally {A : Type} (body : M A) (fin : M unit) : M A := fun w =>
  let '(w1, r) := body w in
  match fin w1 with
  | (w2, Return _) => (w2, r)
  | (w2, Raise e) => (w2, Raise e)
  end.

(** [try: body except Exception as e: h e] *)
Definition try_except {A : Type} (body : M A) (h : exn -> M A) : M A := fun w =>
  match body w with
  | (w1, Return a) => (w1, Return a)
  | (w1, Raise e) => h e w1
  end.

(** ** [urllib.parse.unquote] *)

Module UrlParse.

(** [unquote(string)]: a string without ['%'] comes back as it is (after
    the check that it has a [split] attribute); otherwise its escapes are
    decoded, which needs a [str]. *)
Definition unquote (P : Platform) (string : value) : result String.string :=
  match contains "%" string with
  | Raise e => Raise e
  | Return false =>
      match string with
      | VStr s => Return s
      | _ => Raise (AttributeError ("'" +:+ type_name string
                                    +:+ "' object has no attribute 'split'"))
      end
  | Return true =>
      match string with
      | VStr s => Return (unquote_escapes P s)
      | _ => Raise (TypeError
                      ("expected string or bytes-like object, got '"
                       +:+ type_name string +:+ "'"))
      end
  end.

End UrlParse.

(** ** Files *)

Module OS.

(** [tempfile.NamedTemporaryFile(suffix=suffix, delete=False)]: a new,
    empty file whose name ends in [suffix]; the name is not taken by an
    existing file ([O_EXCL]). *)
Definition NamedTemporaryFile (P : Platform) (suffix : string) : M string :=
  fun w =>
    match tmp_stem P (fs w) suffix with
    | Raise e => (w, Raise e)
    | Return stem =>
        let name := stem +:+ suffix in
        match fs w !! name with
        | Some _ => (w, Raise (FileExistsError name))
        | None =>
            ({| fs := <[name := []]> (fs w);
                trace := trace w ++ [Created name] |}, Return name)
        end
    end.

(** [f.write(data)] and the flush when the [with] block is left.  The
    file was opened with [delete=False]: leaving the block closes it and
    removes nothing, also when the write failed. *)
Definition write (P : Platform) (name : string) (data : list byte) : M unit :=
  fun w =>
    match write_fault P (fs w) name data with
    | None =>
        ({| fs := <[name := data]> (fs w);
            trace := trace w ++ [Wrote name data] |}, Return tt)
    | Some (e, partial) =>
        ({| fs := <[name := partial]> (fs w);
            trace := trace w ++ [WriteFailed name e] |}, Raise e)
    end.

(** [os.path.exists(path)] *)
Definition path_exists (path : string) : M bool := fun w =>
  (w, Return (bool_decide (is_Some (fs w !! path)))).

(** [os.remove(path)]: the file is unlinked, or the attempt raises and
    the file stays. *)
Definition remove (P : Platform) (path : string) : M unit := fun w =>
  match fs w !! path with
  | Some _ =>
      match remove_fault P (fs w) path with
      | None =>
          ({| fs := delete path (fs w);
              trace := trace w ++ [Removed path] |}, Return tt)
      | Some e =>
          ({| fs := fs w;
              trace := trace w ++ [RemoveFailed path e] |}, Raise e)
      end
  | None => (w, Raise (FileNotFoundError path))
  end.

End OS.

(** ** [main/app.py] *)

Record response : Type := {
  statusCode : Z;
  body : string;
}.

(** Map of common audio MIME types to file extensions *)
Definition MIME_TO_EXT : list (string * string) := [
  ("audio/wav", ".wav");
  ("audio/x-wav", ".wav");
  ("audio/wave", ".wav");
  ("audio/mp3", ".mp3");
  ("audio/mpeg", ".mp3");
  ("audio/ogg", ".ogg");
  ("audio/flac", ".flac");
  ("audio/x-flac", ".flac");
  ("audio/m4a", ".m4a");
  ("audio/x-m4a", ".m4a");
  ("audio/mp4", ".m4a");
  ("audio/x-mp4", ".m4a");
  ("audio/aac", ".aac");
  ("audio/webm", ".webm")
].

Section App.

Variable P : Platform.

(** [MODEL_SIZE = os.environ.get("MODEL_SIZE", "tiny.en")] *)
Definition MODEL_SIZE : string :=
  match environ_MODEL_SIZE P with
  | Some s => s
  | None => "tiny.en"
  end.

(** [model.transcribe(path)], recorded with what the file held. *)
Definition model_transcribe (path : string) : M transcript := fun w =>
  let r := transcribe P (fs w) path in
  ({| fs := fs w;
      trace := trace w ++ [Transcribed path (fs w !! path) r] |}, r).

(** [json.loads(s)] for a value [s] of the event. *)
Definition loads (s : value) : result value :=
  match s with
  | VStr t => json_loads P t
  | _ => Raise (TypeError
                  ("the JSON object must be str, bytes or bytearray, not "
                   +:+ type_name s))
  end.

(** Determine the appropriate file extension based on content type or
    filename. *)
Definition get_file_extension (content_type filename : value) : M string :=
  (* if content_type and content_type in MIME_TO_EXT:
         return MIME_TO_EXT[content_type] *)
  by_type ← (if truthy content_type
             then lift (dict_find MIME_TO_EXT content_type)
             else mret None);
  match by_type with
  | Some ext => mret ext
  | None =>
      (* if filename: ... if ext: return ext *)
      by_name ← (if truthy filename then
                   decoded_filename ← lift (UrlParse.unquote P filename);
                   let '(_, ext) := PosixPath.splitext decoded_filename in
                   mret (if truthy (VStr ext) then Some ext else None)
                 else mret None);
      match by_name with
      | Some ext => mret ext
      | None =>
          log INFO (Could_not_determine content_type filename);;
          mret ".wav"
      end
  end.

Definition no_audio : response :=
  {| statusCode := 400;
     body := json_dumps P (VDict [("error", VStr "No audio data provided")]) |}.

(** Lines 83-110: the audio bytes, content type and filename of the
    request, or the response returned at once. *)
Definition read_request (event : value)
  : M (response + (list byte * value * value)) :=
  in_event ← lift (contains "body" event);
  if in_event : bool then
    (* API Gateway request *)
    encoded ← lift (get event "isBase64Encoded" (VBool false));
    body ← (if truthy encoded then
              raw ← lift (getitem event "body");
              decoded ← lift (Base64.b64decode raw);
              lift (json_loads_bytes P decoded)
            else
              raw ← lift (getitem event "body");
              lift (loads raw));
    in_body ← lift (contains "audio" body);
    if in_body : bool then
      audio ← lift (getitem body "audio");
      audio_data ← lift (Base64.b64decode audio);
      content_type ← lift (get body "contentType" VNone);
      filename ← lift (get body "filename" VNone);
      mret (inr (audio_data, content_type, filename))
    else mret (inl no_audio)
  else
    (* Direct Lambda invocation *)
    in_body ← lift (contains "audio" event);
    if in_body : bool then
      audio ← lift (getitem event "audio");
      audio_data ← lift (Base64.b64decode audio);
      content_type ← lift (get event "contentType" VNone);
      filename ← lift (get event "filename" VNone);
      mret (inr (audio_data, content_type, filename))
    else mret (inl no_audio).

(** [file_ext[1:] if file_ext.startswith('.') else file_ext] *)
Definition file_type (file_ext : string) : string :=
  match file_ext with
  | String "."%char rest => rest
  | _ => file_ext
  end.

(** Lines 112-144. *)
Definition transcribe_request (audio_data : list byte)
    (content_type filename : value) : M response :=
  file_ext ← get_file_extension content_type filename;
  temp_audio_path ← (temp_audio ← OS.NamedTemporaryFile P file_ext;
                     OS.write P temp_audio audio_data;;
                     mret temp_audio);
  try_finally
    (log INFO (Transcribing file_ext MODEL_SIZE);;
     result ← model_transcribe temp_audio_path;
     let transcription := text result in
     let response :=
       {| statusCode := 200;
          body := json_dumps P
                    (VDict [("transcription", VStr transcription);
                            ("model", VStr MODEL_SIZE);
                            ("fileType", VStr (file_type file_ext))]) |} in
     log INFO (Transcription_complete transcription);;
     mret response)
    (present ← OS.path_exists temp_audio_path;
     if present : bool then OS.remove P temp_audio_path else mret tt).

(** The body of the [try] statement of [handler]. *)
Definition handler_try (event : value) : M response :=
  request ← read_request event;
  match request with
  | inl early => mret early
  | inr (audio_data, content_type, filename) =>
      transcribe_request audio_data content_type filename
  end.

Definition error_response (e : exn) : response :=
  {| statusCode := 500;
     body := json_dumps P (VDict [("error", VStr (str_exn e))]) |}.

(** Lambda handler for Whisper transcription service.  (Its second
    argument, the invocation context, is never looked at.) *)
Definition handler (event : value) : M response :=
  log INFO (Received_event (json_dumps P event));;
  try_except (handler_try event)
    (fun e =>
       log ERROR (Error_processing (str_exn e));;
       mret (error_response e)).

End App.

(** ** The specification's reading of the request

    The design specification describes the handler in steps; the
    definitions of this section follow its words, to be compared with
    [read_request] and [get_file_extension] above. *)

#[export] Instance result_ret : MRet result := fun A a => Return a.

#[export] Instance result_bind : MBind result := fun A B k r =>
  match r with
  | Return a => k a
  | Raise e => Raise e
  end.

Section Spec.

Variable P : Platform.

(** "If the event declares base64 encoding": the [isBase64Encoded] field,
    absent meaning false. *)
Definition spec_declares_base64 (event : list (string * value)) : bool :=
  match dict_lookup "isBase64Encoded" event with
  | Some flag => truthy flag
  | None => false
  end.

(** Steps 1-3: "if the event carries a [body] field, treat as
    gateway-wrapped; otherwise treat as direct invocation.  For
    gateway-wrapped: if the event declares base64 encoding, base64-decode
    [body] then parse as JSON; else parse [body] directly as JSON.  For
    direct invocation: the event itself is the logical body." *)
Definition spec_logical_body (event : list (string * value)) : result value :=
  match dict_lookup "body" event with
  | Some raw =>
      if spec_declares_base64 event
      then decoded ← Base64.b64decode raw; json_loads_bytes P decoded
      else loads P raw
  | None => Return (VDict event)
  end.

(** Steps 4-5: "from the logical body, require an [audio] field; its
    absence yields a 400 response.  Decode [audio] from base64 to raw
    bytes.  Extract optional [contentType] and [filename]." *)
Definition spec_audio_of (logical : value)
  : result (response + (list byte * value * value)) :=
  present ← contains "audio" logical;
  if present : bool then
    audio ← getitem logical "audio";
    audio_data ← Base64.b64decode audio;
    content_type ← get logical "contentType" VNone;
    filename ← get logical "filename" VNone;
    mret (inr (audio_data, content_type, filename))
  else mret (inl (no_audio P)).

(** Steps 4-9 on a logical body. *)
Definition spec_process (logical : value) : M response :=
  request ← lift (spec_audio_of logical);
  match request with
  | inl early => mret early
  | inr (audio_data, content_type, filename) =>
      transcribe_request P audio_data content_type filename
  end.

End Spec.

(** Section 4.1, step 2: the extension of a filename is the "substring
    after the last path separator's last dot", that is, the part of the
    last path component from its last dot on, empty when it has no dot. *)
Fixpoint spec_last_component (p acc : string) : string :=
  match p with
  | EmptyString => acc
  | String c p' =>
      if Ascii.eqb c "/" then spec_last_component p' EmptyString
      else spec_last_component p' (acc +:+ String c EmptyString)
  end.

Fixpoint spec_from_last_dot (s : string) (found : string) : string :=
  match s with
  | EmptyString => found
  | String c s' =>
      if Ascii.eqb c "." then spec_from_last_dot s' s
      else spec_from_last_dot s' found
  end.

Definition spec_extension (p : string) : string :=
  spec_from_last_dot (spec_last_component p EmptyString) EmptyString.

(** *** Notions used in the statements *)

(** A content type that is absent or not in the mapping. *)
Definition unknown_content_type (content_type : value) : Prop :=
  content_type = VNone \/
  exists s, content_type = VStr s /\ dict_lookup s MIME_TO_EXT = None.

(** The highest index of [c] in [s]. *)
Fixpoint last_index (c : ascii) (s : string) : option nat :=
  match s with
  | EmptyString => None
  | String a s' =>
      match last_index c s' with
      | Some n => Some (S n)
      | None => if Ascii.eqb a c then Some O else None
      end
  end.

Fixpoint all_dots (s : string) : bool :=
  match s with
  | EmptyString => true
  | String c s' => Ascii.eqb c "." && all_dots s'
  end.

(** A path component that consists of dots up to its last dot: a dotfile
    such as [.bashrc], or [...]. *)
Definition only_leading_dots (component : string) : bool :=
  match last_index "." component with
  | Some n => all_dots (PosixPath.take n component)
  | None => false
  end.

(** An optional string: [None] or a [str]. *)
Definition optional_str (v : value) : bool :=
  match v with
  | VNone | VStr _ => true
  | _ => false
  end.

(** The world once the handler has logged the event it received. *)
Definition received (P : Platform) (event : value) (w : World) : World :=
  {| fs := fs w;
     trace := trace w ++ [Log INFO (Received_event (json_dumps P event))] |}.

(** Step 9: the response to a transcript. *)
Definition ok_response (P : Platform) (t : transcript) (file_ext : string)
  : response :=
  {| statusCode := 200;
     body := json_dumps P
               (VDict [("transcription", VStr (text t));
                       ("model", VStr (MODEL_SIZE P));
                       ("fileType", VStr (file_type file_ext))]) |}.

(** The world once [get_file_extension] has logged its fallback. *)
Definition could_not_determine (content_type filename : value) (w : World)
  : World :=
  {| fs := fs w;
     trace := trace w ++ [Log INFO (Could_not_determine content_type filename)] |}.

(** The world once the handler has logged the exception it caught. *)
Definition failed (e : exn) (w : World) : World :=
  {| fs := fs w;
     trace := trace w ++ [Log ERROR (Error_processing (str_exn e))] |}.

(** The ways lines 112-144 can go, with the world and the outcome each
    leaves behind. *)
Inductive staging (P : Platform) (audio_data : list byte)
    (content_type filename : value) (w : World)
  : World -> result response -> Prop :=
| nothing_staged (w1 : World) (e : exn) :
    w1 = w \/ w1 = could_not_determine content_type filename w ->
    staging P audio_data content_type filename w w1 (Raise e)
| write_failed (w1 : World) (file_ext stem : string) (e : exn)
    (partial : list byte) :
    get_file_extension P content_type filename w = (w1, Return file_ext) ->
    fs w1 !! (stem +:+ file_ext) = None ->
    staging P audio_data content_type filename w
      {| fs := <[stem +:+ file_ext := partial]>
                 (<[stem +:+ file_ext := []]> (fs w1));
         trace := trace w1 ++ [Created (stem +:+ file_ext);
                               WriteFailed (stem +:+ file_ext) e] |}
      (Raise e)
| transcribed (w1 : World) (file_ext stem : string) (t : transcript) :
    get_file_extension P content_type filename w = (w1, Return file_ext) ->
    fs w1 !! (stem +:+ file_ext) = None ->
    transcribe P (<[stem +:+ file_ext := audio_data]>
                    (<[stem +:+ file_ext := []]> (fs w1)))
      (stem +:+ file_ext) = Return t ->
    staging P audio_data content_type filename w
      {| fs := delete (stem +:+ file_ext)
                 (<[stem +:+ file_ext := audio_data]>
                    (<[stem +:+ file_ext := []]> (fs w1)));
         trace := trace w1 ++
           [Created (stem +:+ file_ext);
            Wrote (stem +:+ file_ext) audio_data;
            Log INFO (Transcribing file_ext (MODEL_SIZE P));
            Transcribed (stem +:+ file_ext) (Some audio_data) (Return t);
            Log INFO (Transcription_complete (text t));
            Removed (stem +:+ file_ext)] |}
      (Return (ok_response P t file_ext))
| model_failed (w1 : World) (file_ext stem : string) (e : exn) :
    get_file_extension P content_type filename w = (w1, Return file_ext) ->
    fs w1 !! (stem +:+ file_ext) = None ->
    transcribe P (<[stem +:+ file_ext := audio_data]>
                    (<[stem +:+ file_ext := []]> (fs w1)))
      (stem +:+ file_ext) = Raise e ->
    staging P audio_data content_type filename w
      {| fs := delete (stem +:+ file_ext)
                 (<[stem +:+ file_ext := audio_data]>
                    (<[stem +:+ file_ext := []]> (fs w1)));
         trace := trace w1 ++
           [Created (stem +:+ file_ext);
            Wrote (stem +:+ file_ext) audio_data;
            Log INFO (Transcribing file_ext (MODEL_SIZE P));
            Transcribed (stem +:+ file_ext) (Some audio_data) (Raise e);
            Removed (stem +:+ file_ext)] |}
      (Raise e)
| transcribed_not_removed (w1 : World) (file_ext stem : string)
    (t : transcript) (e : exn) :
    get_file_extension P content_type filename w = (w1, Return file_ext) ->
    fs w1 !! (stem +:+ file_ext) = None ->
    transcribe P (<[stem +:+ file_ext := audio_data]>
                    (<[stem +:+ file_ext := []]> (fs w1)))
      (stem +:+ file_ext) = Return t ->
    staging P audio_data content_type filename w
      {| fs := <[stem +:+ file_ext := audio_data]>
                 (<[stem +:+ file_ext := []]> (fs w1));
         trace := trace w1 ++
           [Created (stem +:+ file_ext);
            Wrote (stem +:+ file_ext) audio_data;
            Log INFO (Transcribing file_ext (MODEL_SIZE P));
            Transcribed (stem +:+ file_ext) (Some audio_data) (Return t);
            Log INFO (Transcription_complete (text t));
            RemoveFailed (stem +:+ file_ext) e] |}
      (Raise e)
| model_failed_not_removed (w1 : World) (file_ext stem : string)
    (e' e : exn) :
    get_file_extension P content_type filename w = (w1, Return file_ext) ->
    fs w1 !! (stem +:+ file_ext) = None ->
    transcribe P (<[stem +:+ file_ext := audio_data]>
                    (<[stem +:+ file_ext := []]> (fs w1)))
      (stem +:+ file_ext) = Raise e' ->
    staging P audio_data content_type filename w
      {| fs := <[stem +:+ file_ext := audio_data]>
                 (<[stem +:+ file_ext := []]> (fs w1));
         trace := trace w1 ++
           [Created (stem +:+ file_ext);
            Wrote (stem +:+ file_ext) audio_data;
            Log INFO (Transcribing file_ext (MODEL_SIZE P));
            Transcribed (stem +:+ file_ext) (Some audio_data) (Raise e');
            RemoveFailed (stem +:+ file_ext) e] |}
      (Raise e).

(** The request of the object event [d] is accepted: its logical body
    carries audio that decodes to [audio_data], and the extension
    resolves to [file_ext]. *)
Definition accepted (P : Platform) (d : list (string * value)) (w : World)
    (audio_data : list byte) (file_ext : string) : Prop :=
  exists b audio content_type filename w1,
    spec_logical_body P d = Return (VDict b) /\
    dict_lookup "audio" b = Some audio /\
    Base64.b64decode audio = Return audio_data /\
    get (VDict b) "contentType" VNone = Return content_type /\
    get (VDict b) "filename" VNone = Return filename /\
    get_file_extension P content_type filename (received P (VDict d) w)
    = (w1, Return file_ext).

(** The failures that step 10 of section 4.3 names, each where it arises
    when [handler] runs on the object event [d] on the disk of [w]: the
    body is no JSON text (as it is, or once decoded), the body or the
    audio is no base64 text, the extension cannot be resolved, no
    temporary file can be made, writing the audio fails, the model
    fails, the temporary file cannot be removed. *)
Inductive failure (P : Platform) (d : list (string * value)) (w : World)
  : exn -> Prop :=
| json_malformed (s : string) (e : exn) :
    dict_lookup "body" d = Some (VStr s) ->
    spec_declares_base64 d = false ->
    json_loads P s = Raise e ->
    failure P d w e
| body_undecodable (raw : value) (e : exn) :
    dict_lookup "body" d = Some raw ->
    spec_declares_base64 d = true ->
    Base64.b64decode raw = Raise e ->
    failure P d w e
| decoded_json_malformed (raw : value) (decoded : list byte) (e : exn) :
    dict_lookup "body" d = Some raw ->
    spec_declares_base64 d = true ->
    Base64.b64decode raw = Return decoded ->
    json_loads_bytes P decoded = Raise e ->
    failure P d w e
| audio_undecodable (b : list (string * value)) (audio : value) (e : exn) :
    spec_logical_body P d = Return (VDict b) ->
    dict_lookup "audio" b = Some audio ->
    Base64.b64decode audio = Raise e ->
    failure P d w e
| extension_raises (b : list (string * value))
    (audio content_type filename : value) (audio_data : list byte)
    (w1 : World) (e : exn) :
    spec_logical_body P d = Return (VDict b) ->
    dict_lookup "audio" b = Some audio ->
    Base64.b64decode audio = Return audio_data ->
    get (VDict b) "contentType" VNone = Return content_type ->
    get (VDict b) "filename" VNone = Return filename ->
    get_file_extension P content_type filename (received P (VDict d) w)
    = (w1, Raise e) ->
    failure P d w e
| no_temporary_file (audio_data : list byte) (file_ext : string) (e : exn) :
    accepted P d w audio_data file_ext ->
    tmp_stem P (fs w) file_ext = Raise e ->
    failure P d w e
| writing_raises (audio_data : list byte) (file_ext stem : string) (e : exn)
    (partial : list byte) :
    accepted P d w audio_data file_ext ->
    tmp_stem P (fs w) file_ext = Return stem ->
    fs w !! (stem +:+ file_ext) = None ->
    write_fault P (<[stem +:+ file_ext := []]> (fs w)) (stem +:+ file_ext)
      audio_data = Some (e, partial) ->
    failure P d w e
| transcribing_raises (audio_data : list byte) (file_ext stem : string)
    (e : exn) :
    accepted P d w audio_data file_ext ->
    tmp_stem P (fs w) file_ext = Return stem ->
    fs w !! (stem +:+ file_ext) = None ->
    write_fault P (<[stem +:+ file_ext := []]> (fs w)) (stem +:+ file_ext)
      audio_data = None ->
    transcribe P (<[stem +:+ file_ext := audio_data]> (fs w))
      (stem +:+ file_ext) = Raise e ->
    remove_fault P (<[stem +:+ file_ext := audio_data]> (fs w))
      (stem +:+ file_ext) = None ->
    failure P d w e
| removing_raises (audio_data : list byte) (file_ext stem : string)
    (e : exn) :
    accepted P d w audio_data file_ext ->
    tmp_stem P (fs w) file_ext = Return stem ->
    fs w !! (stem +:+ file_ext) = None ->
    write_fault P (<[stem +:+ file_ext := []]> (fs w)) (stem +:+ file_ext)
      audio_data = None ->
    remove_fault P (<[stem +:+ file_ext := audio_data]> (fs w))
      (stem +:+ file_ext) = Some e ->
    failure P d w e.

(** *** Notions used in the proofs about base64 *)

(** The numbers below [n], for checks that run through all bytes. *)
Definition below (n : nat) : list N := map N.of_nat (seq 0 n).

(** The four sextets of three bytes, as [b64encode] forms them. *)
Definition sextet1 (x : N) : N := N.shiftr x 2.
Definition sextet2 (x y : N) : N :=
  N.lor (N.shiftl (N.land x 3) 4) (N.shiftr y 4).
Definition sextet3 (y z : N) : N :=
  N.lor (N.shiftl (N.land y 15) 2) (N.shiftr z 6).
Definition sextet4 (z : N) : N := N.land z 63.

(** ** A platform to run the handler on

    A stand-in for the surroundings: a parser that knows a few documents,
    a printer for values without floats and without characters to escape,
    a percent-decoder for ASCII, and a model that answers [hello world]. *)

Module Demo.

Definition quote : string := String (ascii_of_nat 34) EmptyString.

(** The JSON text of an object whose one field, [audio], holds the empty
    string. *)
Definition empty_audio_text : string :=
  "{" +:+ quote +:+ "audio" +:+ quote +:+ ": " +:+ quote +:+ quote +:+ "}".

Definition documents : list (string * value) := [
  ("{}", VDict []);
  ("[]", VList []);
  ("5", VInt 5);
  ("null", VNone);
  (empty_audio_text, VDict [("audio", VStr "")])
].

(** A stand-in for [json.loads] that knows the texts above; on any other
    text it raises with the message [json.loads] has for a text that does
    not begin with a JSON value. *)
Definition parse (s : string) : result value :=
  match dict_lookup s documents with
  | Some v => Return v
  | None => Raise (ValueError "Expecting value: line 1 column 1 (char 0)")
  end.

Definition parse_bytes (b : list byte) : result value :=
  parse (string_of_list_byte b).

Definition print_int (n : Z) : string :=
  match n with
  | Z0 => "0"
  | Zpos p => Base64.decimal (Npos p)
  | Zneg p => "-" +:+ Base64.decimal (Npos p)
  end.

Fixpoint print (v : value) : string :=
  match v with
  | VNone => "null"
  | VBool true => "true"
  | VBool false => "false"
  | VInt n => print_int n
  | VFloat _ => "NaN"
  | VStr s => quote +:+ s +:+ quote
  | VList l =>
      "[" +:+ (fix items (l : list value) : string :=
                 match l with
                 | [] => EmptyString
                 | [x] => print x
                 | x :: l' => print x +:+ ", " +:+ items l'
                 end) l +:+ "]"
  | VDict d =>
      "{" +:+ (fix items (d : list (string * value)) : string :=
                 match d with
                 | [] => EmptyString
                 | [(k, x)] => quote +:+ k +:+ quote +:+ ": " +:+ print x
                 | (k, x) :: d' =>
                     quote +:+ k +:+ quote +:+ ": " +:+ print x
                     +:+ ", " +:+ items d'
                 end) d +:+ "}"
  end.

Definition hex (c : ascii) : option N :=
  let n := N_of_ascii c in
  if (48 <=? n)%N && (n <=? 57)%N then Some (n - 48)%N
  else if (65 <=? n)%N && (n <=? 70)%N then Some (n - 55)%N
  else if (97 <=? n)%N && (n <=? 102)%N then Some (n - 87)%N
  else None.

Fixpoint percent_decode (s : string) : string :=
  match s with
  | EmptyString => EmptyString
  | String c s' =>
      match s' with
      | String h (String l rest) =>
          match Ascii.eqb c "%", hex h, hex l with
          | true, Some a, Some b =>
              String (ascii_of_N (16 * a + b)) (percent_decode rest)
          | _, _, _ => String c (percent_decode s')
          end
      | _ => String c (percent_decode s')
      end
  end.

Definition stem : string := "/tmp/tmpq0f3k6zd".

Definition hello (disk : gmap string (list byte)) (path : string)
  : result transcript :=
  match disk !! path with
  | Some _ => Return {| text := "hello world" |}
  | None => Raise (Other "RuntimeError" "Failed to load audio")
  end.

(** Everything works. *)
Definition platform : Platform := {|
  environ_MODEL_SIZE := None;
  json_loads := parse;
  json_loads_bytes := parse_bytes;
  json_dumps := print;
  unquote_escapes := percent_decode;
  tmp_stem := fun _ _ => Return stem;
  write_fault := fun _ _ _ => None;
  transcribe := hello;
  remove_fault := fun _ _ => None;
|}.

(** The disk is full: the file can be created, writing to it fails. *)
Definition disk_full : Platform := {|
  environ_MODEL_SIZE := None;
  json_loads := parse;
  json_loads_bytes := parse_bytes;
  json_dumps := print;
  unquote_escapes := percent_decode;
  tmp_stem := fun _ _ => Return stem;
  write_fault := fun _ _ _ =>
    Some (OSError "[Errno 28] No space left on device", []);
  transcribe := hello;
  remove_fault := fun _ _ => None;
|}.

(** The model fails on every file. *)
Definition broken_model : Platform := {|
  environ_MODEL_SIZE := None;
  json_loads := parse;
  json_loads_bytes := parse_bytes;
  json_dumps := print;
  unquote_escapes := percent_decode;
  tmp_stem := fun _ _ => Return stem;
  write_fault := fun _ _ _ => None;
  transcribe := fun _ _ => Raise (Other "RuntimeError" "Failed to load audio");
  remove_fault := fun _ _ => None;
|}.

(** The temporary file cannot be unlinked. *)
Definition no_unlink : Platform := {|
  environ_MODEL_SIZE := None;
  json_loads := parse;
  json_loads_bytes := parse_bytes;
  json_dumps := print;
  unquote_escapes := percent_decode;
  tmp_stem := fun _ _ => Return stem;
  write_fault := fun _ _ _ => None;
  transcribe := hello;
  remove_fault := fun _ path =>
    Some (OSError ("[Errno 1] Operation not permitted: '" +:+ path +:+ "'"));
|}.

(** No temporary file can be created. *)
Definition no_temp_dir : Platform := {|
  environ_MODEL_SIZE := None;
  json_loads := parse;
  json_loads_bytes := parse_bytes;
  json_dumps := print;
  unquote_escapes := percent_decode;
  tmp_stem := fun _ _ =>
    Raise (Other "FileNotFoundError"
             "[Errno 2] No usable temporary directory found in ['/tmp', '/var/tmp', '/usr/tmp', '/']");
  write_fault := fun _ _ _ => None;
  transcribe := hello;
  remove_fault := fun _ _ => None;
|}.

(** An empty disk, nothing done yet. *)
Definition start : World := {| fs := ∅; trace := [] |}.

(** The status of the response, [0] for an exception that escapes. *)
Definition status (run : World * result response) : Z :=
  match snd run with
  | Return r => statusCode r
  | Raise _ => 0
  end.

(** [base64.b64encode(b"RIFF")] *)
Definition riff : string := "UklGRg==".

End Demo.

(** ** More of [os.path] *)

Module OsPath.

Definition startswith_sep (s : string) : bool :=
  match s with
  | String c _ => Ascii.eqb c PosixPath.sep
  | EmptyString => false
  end.

Fixpoint endswith_sep (s : string) : bool :=
  match s with
  | EmptyString => false
  | String c EmptyString => Ascii.eqb c PosixPath.sep
  | String _ s' => endswith_sep s'
  end.

(** [os.path.join(a, b)] *)
Definition join (a b : string) : string :=
  if startswith_sep b then b
  else if String.eqb a EmptyString || endswith_sep a then a +:+ b
  else a +:+ String PosixPath.sep b.

(** [s.rstrip('/')] *)
Fixpoint rstrip_sep (s : string) : string :=
  match s with
  | EmptyString => EmptyString
  | String c s' =>
      match rstrip_sep s' with
      | EmptyString =>
          if Ascii.eqb c PosixPath.sep then EmptyString
          else String c EmptyString
      | r => String c r
      end
  end.

(** [path[1:i]] and [path[i:]] for [i = path.find('/', 1)], or the length
    of the path when it has no separator from index 1 on; [tail] is
    [path[1:]]. *)
Fixpoint split_at_sep (tail : string) : string * string :=
  match tail with
  | EmptyString => (EmptyString, EmptyString)
  | String c tail' =>
      if Ascii.eqb c PosixPath.sep then (EmptyString, tail)
      else let '(name, rest) := split_at_sep tail' in (String c name, rest)
  end.

(** [os.path.expanduser(path)].  [environ] is [os.environ], [pw_dir] the
    home directory the password database has for the user of the
    process, [pw_name_dir] the one it has for a user name; [None] stands
    for the [KeyError] of the lookup. *)
Definition expanduser (environ : gmap string string) (pw_dir : option string)
    (pw_name_dir : string -> option string) (path : string) : string :=
  match path with
  | String "~"%char tail =>
      let '(name, rest) := split_at_sep tail in
      let userhome :=
        if String.eqb name EmptyString then
          match environ !! "HOME" with
          | Some home => Some home
          | None => pw_dir
          end
        else pw_name_dir name in
      match userhome with
      | None => path
      | Some home =>
          match rstrip_sep home +:+ rest with
          | EmptyString => "/"
          | expanded => expanded
          end
      end
  | _ => path
  end.

End OsPath.

(** ** The start of the process: lines 10-30 of [main/app.py] *)

Module AppModule.

(** The process and what it finds: its environment, the password
    database, and [whisper.load_model], which may fetch the model and so
    change the disk, and returns the model (its [transcribe]) or raises. *)
Record Process : Type := {
  environ : gmap string string;
  pw_dir : option string;
  pw_name_dir : string -> option string;
  load_model :
    gmap string (list byte) -> string ->
    gmap string (list byte)
    * result (gmap string (list byte) -> string -> result transcript);
}.

Inductive log_level : Type := info | warning.

Inductive log_line : Type :=
| Loading_model (model_size : string)
| Using_cache_directory (whisper_cache : string)
| Found_model (path : string)
| Model_not_found (whisper_cache : string).

Section Init.

Variable proc : Process.

(** [os.getenv(key, default)] *)
Definition getenv (key default : string) : string :=
  match environ proc !! key with
  | Some v => v
  | None => default
  end.

Definition MODEL_SIZE : string := getenv "MODEL_SIZE" "tiny.en".

Definition cache_dir : string :=
  getenv "XDG_CACHE_HOME"
    (OsPath.join
       (OsPath.expanduser (environ proc) (pw_dir proc) (pw_name_dir proc) "~")
       ".cache").

Definition whisper_cache : string := OsPath.join cache_dir "whisper".

(** The file whose existence line 27 tests. *)
Definition model_file : string :=
  OsPath.join whisper_cache (MODEL_SIZE +:+ ".pt").

(** The module body from line 15 on: the disk it leaves, what it logged,
    and the loaded model or the exception that ends the import.  The disk
    holds files only, so [os.path.exists] is a lookup of the file. *)
Definition init (disk : gmap string (list byte))
  : gmap string (list byte) * list (log_level * log_line)
    * result (gmap string (list byte) -> string -> result transcript) :=
  let log1 := [(info, Loading_model MODEL_SIZE)] in
  match load_model proc disk MODEL_SIZE with
  | (disk', Raise e) => (disk', log1, Raise e)
  | (disk', Return model) =>
      let log2 := log1 ++ [(info, Using_cache_directory whisper_cache)] in
      if bool_decide (is_Some (disk' !! model_file))
      then (disk', log2 ++ [(info, Found_model model_file)], Return model)
      else (disk', log2 ++ [(warning, Model_not_found whisper_cache)],
            Return model)
  end.

End Init.

End AppModule.

(** ** [main/download_model.py] *)

Module DownloadModel.

(** The build machine: its environment and password database, what
    [torch.cuda] reports, whether [os.makedirs] fails, [whisper.load_model]
    (which leaves the model on the disk) and [whisper.available_models]. *)
Record Build : Type := {
  environ : gmap string string;
  pw_dir : option string;
  pw_name_dir : string -> option string;
  cuda_is_available : bool;
  cuda_device_count : N;
  cuda_get_device_name : result string;
  makedirs_fault : gmap string (list byte) -> string -> option exn;
  load_model :
    gmap string (list byte) -> string -> gmap string (list byte) * result unit;
  available_models : list string;
}.

Inductive line : Type :=
| CUDA_available (b : bool)
| CUDA_device_count (n : N)
| CUDA_device_name (name : string)
| Download_root (path : string)
| Downloading (name : string)
| Loaded (name : string)
| Available_models (names : list string)
| Model_file_size (bytes : nat).

Definition MODEL_NAME : string := "tiny.en".

Section Script.

Variable b : Build.

Definition getenv (key default : string) : string :=
  match environ b !! key with
  | Some v => v
  | None => default
  end.

Definition default_cache : string :=
  OsPath.join
    (OsPath.expanduser (environ b) (pw_dir b) (pw_name_dir b) "~") ".cache".

Definition download_root : string :=
  OsPath.join (getenv "XDG_CACHE_HOME" default_cache) "whisper".

(** The file whose size line 37 asks for. *)
Definition model_file : string :=
  OsPath.join download_root (MODEL_NAME +:+ ".pt").

(** The script: the disk it leaves, what it printed, and whether it ran
    to its end. *)
Definition main (disk : gmap string (list byte))
  : gmap string (list byte) * list line * result unit :=
  let out1 := [CUDA_available (cuda_is_available b)] in
  let cuda :=
    if cuda_is_available b then
      match cuda_get_device_name b with
      | Return name =>
          Return [CUDA_device_count (cuda_device_count b);
                  CUDA_device_name name]
      | Raise e => Raise e
      end
    else Return [] in
  match cuda with
  | Raise e => (disk, out1 ++ [CUDA_device_count (cuda_device_count b)], Raise e)
  | Return lines =>
      let out2 := out1 ++ lines ++ [Download_root download_root] in
      match makedirs_fault b disk download_root with
      | Some e => (disk, out2, Raise e)
      | None =>
          let out3 := out2 ++ [Downloading MODEL_NAME] in
          match load_model b disk MODEL_NAME with
          | (disk', Raise e) => (disk', out3, Raise e)
          | (disk', Return _) =>
              let out4 := out3 ++ [Loaded MODEL_NAME;
                                   Available_models (available_models b)] in
              match disk' !! model_file with
              | None => (disk', out4, Raise (FileNotFoundError model_file))
              | Some content =>
                  (disk', out4 ++ [Model_file_size (length content)],
                   Return tt)
              end
          end
      end
  end.

End Script.

End DownloadModel.

(** ** Notions for the properties of whole invocations *)

(** The effects of a run that starts in [w] and ends in [w']. *)
Definition added (w w' : World) : list effect :=
  drop (length (trace w)) (trace w').

(** What [get_file_extension] may have logged. *)
Definition fallback_log (l : list effect) : Prop :=
  l = [] \/
  exists content_type filename,
    l = [Log INFO (Could_not_determine content_type filename)].

(** An extension that [get_file_extension] returns on some arguments. *)
Definition resolved (P : Platform) (file_ext : string) : Prop :=
  exists content_type filename w w1,
    get_file_extension P content_type filename w = (w1, Return file_ext).

(** The shapes of an invocation of [handler] on a disk: the effects after
    the log of the event, the disk left behind, and the response. *)
Inductive invocation (P : Platform) (disk : gmap string (list byte))
  : list effect -> gmap string (list byte) -> response -> Prop :=
| answered_at_once :
    invocation P disk [] disk (no_audio P)
| failed_before_staging (logged : list effect) (e : exn) :
    fallback_log logged ->
    invocation P disk
      (logged ++ [Log ERROR (Error_processing (str_exn e))])
      disk (error_response P e)
| failed_writing (logged : list effect) (file_ext stem : string) (e : exn)
    (partial : list byte) :
    fallback_log logged ->
    resolved P file_ext ->
    tmp_stem P disk file_ext = Return stem ->
    disk !! (stem +:+ file_ext) = None ->
    invocation P disk
      (logged ++ [Created (stem +:+ file_ext);
                  WriteFailed (stem +:+ file_ext) e;
                  Log ERROR (Error_processing (str_exn e))])
      (<[stem +:+ file_ext := partial]> disk) (error_response P e)
| answered (logged : list effect) (file_ext stem : string)
    (audio_data : list byte) (t : transcript) :
    fallback_log logged ->
    resolved P file_ext ->
    tmp_stem P disk file_ext = Return stem ->
    disk !! (stem +:+ file_ext) = None ->
    invocation P disk
      (logged ++ [Created (stem +:+ file_ext);
                  Wrote (stem +:+ file_ext) audio_data;
                  Log INFO (Transcribing file_ext (MODEL_SIZE P));
                  Transcribed (stem +:+ file_ext) (Some audio_data) (Return t);
                  Log INFO (Transcription_complete (text t));
                  Removed (stem +:+ file_ext)])
      disk (ok_response P t file_ext)
| failed_transcribing (logged : list effect) (file_ext stem : string)
    (audio_data : list byte) (e : exn) :
    fallback_log logged ->
    resolved P file_ext ->
    tmp_stem P disk file_ext = Return stem ->
    disk !! (stem +:+ file_ext) = None ->
    invocation P disk
      (logged ++ [Created (stem +:+ file_ext);
                  Wrote (stem +:+ file_ext) audio_data;
                  Log INFO (Transcribing file_ext (MODEL_SIZE P));
                  Transcribed (stem +:+ file_ext) (Some audio_data) (Raise e);
                  Removed (stem +:+ file_ext);
                  Log ERROR (Error_processing (str_exn e))])
      disk (error_response P e)
| failed_removing (logged : list effect) (file_ext stem : string)
    (audio_data : list byte) (t : transcript) (e : exn) :
    fallback_log logged ->
    resolved P file_ext ->
    tmp_stem P disk file_ext = Return stem ->
    disk !! (stem +:+ file_ext) = None ->
    invocation P disk
      (logged ++ [Created (stem +:+ file_ext);
                  Wrote (stem +:+ file_ext) audio_data;
                  Log INFO (Transcribing file_ext (MODEL_SIZE P));
                  Transcribed (stem +:+ file_ext) (Some audio_data) (Return t);
                  Log INFO (Transcription_complete (text t));
                  RemoveFailed (stem +:+ file_ext) e;
                  Log ERROR (Error_processing (str_exn e))])
      (<[stem +:+ file_ext := audio_data]> disk) (error_response P e)
| failed_transcribing_and_removing (logged : list effect)
    (file_ext stem : string) (audio_data : list byte) (e' e : exn) :
    fallback_log logged ->
    resolved P file_ext ->
    tmp_stem P disk file_ext = Return stem ->
    disk !! (stem +:+ file_ext) = None ->
    invocation P disk
      (logged ++ [Created (stem +:+ file_ext);
                  Wrote (stem +:+ file_ext) audio_data;
                  Log INFO (Transcribing file_ext (MODEL_SIZE P));
                  Transcribed (stem +:+ file_ext) (Some audio_data) (Raise e');
                  RemoveFailed (stem +:+ file_ext) e;
                  Log ERROR (Error_processing (str_exn e))])
      (<[stem +:+ file_ext := audio_data]> disk) (error_response P e).

(** Whether a character occurs in a string. *)
Fixpoint occurs (c : ascii) (s : string) : bool :=
  match s with
  | EmptyString => false
  | String a s' => Ascii.eqb a c || occurs c s'
  end.

Definition is_created (e : effect) : bool :=
  match e with Created _ => true | _ => false end.

Definition is_transcribed (e : effect) : bool :=
  match e with Transcribed _ _ _ => true | _ => false end.

Definition is_error_log (e : effect) : bool :=
  match e with Log ERROR _ => true | _ => false end.

Definition is_write_failure (e : effect) : bool :=
  match e with WriteFailed _ _ => true | _ => false end.

Definition is_remove_failure (e : effect) : bool :=
  match e with RemoveFailed _ _ => true | _ => false end.

(** [None], a boolean or a number. *)
Definition is_scalar (v : value) : bool :=
  match v with
  | VNone | VBool _ | VInt _ | VFloat _ => true
  | _ => false
  end.

(** A [str] or a list. *)
Definition is_sequence (v : value) : bool :=
  match v with
  | VStr _ | VList _ => true
  | _ => false
  end.

Definition is_str_value (v : value) : bool :=
  match v with
  | VStr _ => true
  | _ => false
  end.

(** A content type that line 55 passes over without an error: a falsy
    value, a number or boolean, or a string that is no key of the
    mapping. *)
Definition passed_over (content_type : value) : bool :=
  match content_type with
  | VStr s =>
      match dict_lookup s MIME_TO_EXT with
      | Some _ => false
      | None => true
      end
  | VList (_ :: _) | VDict (_ :: _) => false
  | _ => true
  end.

(** A truthy list or dict. *)
Definition unhashable (v : value) : bool :=
  match v with
  | VList (_ :: _) | VDict (_ :: _) => true
  | _ => false
  end.

(** A character that [binascii.a2b_base64] skips: an ASCII character that
    is neither of the alphabet nor the padding. *)
Definition skipped_char (c : ascii) : bool :=
  (N_of_ascii c <? 128)%N
  && negb (Ascii.eqb c Base64.BASE64_PAD)
  && match Base64.table_a2b_base64 c with
     | Some _ => false
     | None => true
     end.

(** What the decoder has in hand in the middle of a group of four
    characters: three times the characters taken minus four times the
    bytes given. *)
Definition in_hand (quad_pos : N) : nat :=
  match quad_pos with
  | 0%N => 0
  | 1%N => 3
  | 2%N => 2
  | _ => 1
  end.

(** ** A build and a process to run the start-up on *)

Module Deploy.

Definition environ : gmap string string :=
  {[ "XDG_CACHE_HOME" := "/opt/whisper-cache" ]}.

(** [whisper.load_model] as it works with this environment: the model
    is kept under the cache directory. *)
Definition fetch (disk : gmap string (list byte)) (name : string)
  : gmap string (list byte) :=
  match disk !! ("/opt/whisper-cache/whisper/" +:+ name +:+ ".pt") with
  | Some _ => disk
  | None =>
      <["/opt/whisper-cache/whisper/" +:+ name +:+ ".pt"
        := ["P"%byte; "K"%byte]]> disk
  end.

Definition build : DownloadModel.Build := {|
  DownloadModel.environ := environ;
  DownloadModel.pw_dir := Some "/root";
  DownloadModel.pw_name_dir := fun _ => None;
  DownloadModel.cuda_is_available := false;
  DownloadModel.cuda_device_count := 0;
  DownloadModel.cuda_get_device_name :=
    Raise (Other "RuntimeError" "Found no NVIDIA driver on your system");
  DownloadModel.makedirs_fault := fun _ _ => None;
  DownloadModel.load_model := fun disk name => (fetch disk name, Return tt);
  DownloadModel.available_models := ["tiny.en"; "tiny"; "base.en"; "base"];
|}.

Definition process : AppModule.Process := {|
  AppModule.environ := environ;
  AppModule.pw_dir := Some "/root";
  AppModule.pw_name_dir := fun _ => None;
  AppModule.load_model := fun disk name => (fetch disk name, Return Demo.hello);
|}.

(** The same process, configured for another model. *)
Definition base_size : AppModule.Process := {|
  AppModule.environ :=
    {[ "XDG_CACHE_HOME" := "/opt/whisper-cache"; "MODEL_SIZE" := "base" ]};
  AppModule.pw_dir := Some "/root";
  AppModule.pw_name_dir := fun _ => None;
  AppModule.load_model := fun disk name => (fetch disk name, Return Demo.hello);
|}.

(** A process whose home directory has a trailing slash and which has no
    cache directory configured. *)
Definition at_home : AppModule.Process := {|
  AppModule.environ := {[ "HOME" := "/home/sbx_user/" ]};
  AppModule.pw_dir := None;
  AppModule.pw_name_dir := fun _ => None;
  AppModule.load_model := fun disk name => (disk, Return Demo.hello);
|}.

(** A disk with a file on it. *)
Definition busy : World :=
  {| fs := {[ "/tmp/notes.txt" := ["h"%byte; "i"%byte] ]}; trace := [] |}.

End Deploy.

(** * Properties *)

(** ** Running computations *)

Lemma run_lift_bind {A B : Type} (r : result A) (k : A -> M B) (w : World) :
  (lift r ≫= k) w =
  match r with
  | Return a => k a w
  | Raise e => (w, Raise e)
  end.
Proof. destruct r; reflexivity. Qed.

Lemma run_bind {A B : Type} (m : M A) (k : A -> M B) (w : World) :
  (m ≫= k) w =
  match m w with
  | (w', Return a) => k a w'
  | (w', Raise e) => (w', Raise e)
  end.
Proof. reflexivity. Qed.

Lemma run_ret {A : Type} (a : A) (w : World) :
  (mret a : M A) w = (w, Return a).
Proof. reflexivity. Qed.

Lemma bind_Return {A B : Type} (a : A) (k : A -> result B) :
  (Return a ≫= k) = k a.
Proof. reflexivity. Qed.

Lemma bind_Raise {A B : Type} (e : exn) (k : A -> result B) :
  (Raise e ≫= k) = Raise e.
Proof. reflexivity. Qed.

Lemma run_ret_bind {A B : Type} (a : A) (k : A -> M B) (w : World) :
  (mret a ≫= k) w = k a w.
Proof. reflexivity. Qed.

Lemma run_bind_assoc {A B C : Type} (m : M A) (f : A -> M B) (g : B -> M C)
    (w : World) :
  ((m ≫= f) ≫= g) w = (m ≫= (fun a => f a ≫= g)) w.
Proof.
  unfold mbind, M_bind. destruct (m w) as [w1 [a|e]]; reflexivity.
Qed.

(** One step of a computation, then a case on the outcome in sight. *)
Ltac run_step :=
  first [ rewrite run_bind_assoc | rewrite run_lift_bind | rewrite run_ret
        | rewrite bind_Return | rewrite bind_Raise ].

Ltac run_cases :=
  repeat first
    [ run_step
    | progress cbn [contains get getitem]
    | match goal with
      | |- context [match ?r with Return _ => _ | Raise _ => _ end] =>
          destruct r eqn:?
      | |- context [if ?b then _ else _] => destruct b eqn:?
      end ];
  try reflexivity.

Section Reading.

Variable P : Platform.

(** Reading the request changes nothing, and on an object it is the
    specification's steps 1-5. *)
Lemma read_request_dict (d : list (string * value)) (w : World) :
  read_request P (VDict d) w =
  (w, logical ← spec_logical_body P d; spec_audio_of P logical).
Proof.
  unfold read_request, spec_logical_body, spec_declares_base64, spec_audio_of.
  rewrite run_lift_bind. cbn [contains get getitem].
  destruct (dict_lookup "body" d) as [raw|] eqn:Hbody.
  - rewrite run_lift_bind.
    destruct (dict_lookup "isBase64Encoded" d) as [flag|]; cbn [truthy];
      run_cases.
  - run_cases.
Qed.
End Reading.

(** ** The staged file *)

Section Staging.

Variable P : Platform.

Variables (audio_data : list byte) (content_type filename : value).
Variables (w w1 : World).

Lemma staging_no_extension (e : exn) :
  get_file_extension P content_type filename w = (w1, Raise e) ->
  transcribe_request P audio_data content_type filename w = (w1, Raise e).
Proof.
  intros H. unfold transcribe_request. rewrite run_bind, H. reflexivity.
Qed.

Variable file_ext : string.
Hypothesis Hext :
  get_file_extension P content_type filename w = (w1, Return file_ext).

Lemma staging_no_name (e : exn) :
  tmp_stem P (fs w1) file_ext = Raise e ->
  transcribe_request P audio_data content_type filename w = (w1, Raise e).
Proof.
  intros H. unfold transcribe_request. rewrite run_bind, Hext.
  rewrite run_bind_assoc, run_bind. unfold OS.NamedTemporaryFile.
  rewrite H. reflexivity.
Qed.

Variable stem : string.
Hypothesis Hstem : tmp_stem P (fs w1) file_ext = Return stem.

Lemma staging_name_taken (old : list byte) :
  fs w1 !! (stem +:+ file_ext) = Some old ->
  transcribe_request P audio_data content_type filename w =
  (w1, Raise (FileExistsError (stem +:+ file_ext))).
Proof.
  intros H. unfold transcribe_request. rewrite run_bind, Hext.
  rewrite run_bind_assoc, run_bind. unfold OS.NamedTemporaryFile.
  rewrite Hstem. cbv zeta. rewrite H. reflexivity.
Qed.

Hypothesis Hfresh : fs w1 !! (stem +:+ file_ext) = None.

Lemma staging_write_fails (e : exn) (partial : list byte) :
  write_fault P (<[stem +:+ file_ext := []]> (fs w1)) (stem +:+ file_ext)
    audio_data = Some (e, partial) ->
  transcribe_request P audio_data content_type filename w =
  ({| fs := <[stem +:+ file_ext := partial]>
              (<[stem +:+ file_ext := []]> (fs w1));
      trace := trace w1 ++ [Created (stem +:+ file_ext);
                            WriteFailed (stem +:+ file_ext) e] |},
   Raise e).
Proof.
  intros H. unfold transcribe_request. rewrite run_bind, Hext.
  rewrite run_bind_assoc, run_bind. unfold OS.NamedTemporaryFile.
  rewrite Hstem. cbv zeta. rewrite Hfresh.
  rewrite run_bind_assoc, run_bind. unfold OS.write. cbn [fs trace].
  rewrite H. rewrite <- app_assoc. reflexivity.
Qed.

Lemma staging_written :
  write_fault P (<[stem +:+ file_ext := []]> (fs w1)) (stem +:+ file_ext)
    audio_data = None ->
  let name := stem +:+ file_ext in
  let disk := <[name := audio_data]> (<[name := []]> (fs w1)) in
  transcribe_request P audio_data content_type filename w =
  match transcribe P disk name, remove_fault P disk name with
  | Return t, None =>
      ({| fs := delete name disk;
          trace := trace w1 ++
            [Created name; Wrote name audio_data;
             Log INFO (Transcribing file_ext (MODEL_SIZE P));
             Transcribed name (Some audio_data) (Return t);
             Log INFO (Transcription_complete (text t));
             Removed name] |},
       Return (ok_response P t file_ext))
  | Raise e, None =>
      ({| fs := delete name disk;
          trace := trace w1 ++
            [Created name; Wrote name audio_data;
             Log INFO (Transcribing file_ext (MODEL_SIZE P));
             Transcribed name (Some audio_data) (Raise e);
             Removed name] |},
       Raise e)
  | Return t, Some e =>
      ({| fs := disk;
          trace := trace w1 ++
            [Created name; Wrote name audio_data;
             Log INFO (Transcribing file_ext (MODEL_SIZE P));
             Transcribed name (Some audio_data) (Return t);
             Log INFO (Transcription_complete (text t));
             RemoveFailed name e] |},
       Raise e)
  | Raise e', Some e =>
      ({| fs := disk;
          trace := trace w1 ++
            [Created name; Wrote name audio_data;
             Log INFO (Transcribing file_ext (MODEL_SIZE P));
             Transcribed name (Some audio_data) (Raise e');
             RemoveFailed name e] |},
       Raise e)
  end.
Proof.
  intros H name disk. unfold transcribe_request. rewrite run_bind, Hext.
  rewrite run_bind_assoc, run_bind. unfold OS.NamedTemporaryFile.
  rewrite Hstem. cbv zeta. rewrite Hfresh.
  rewrite run_bind_assoc, run_bind. unfold OS.write. cbn [fs trace].
  fold name. fold name in H. rewrite H. rewrite run_ret_bind.
  unfold try_finally.
  rewrite run_bind. unfold log at 1, emit at 1. cbn [fs trace].
  assert (Hd : disk !! name = Some audio_data) by apply lookup_insert_eq.
  rewrite run_bind. unfold model_transcribe at 1. cbn [fs trace]. fold disk.
  rewrite Hd.
  assert (Hfin : forall tr,
    (OS.path_exists name ≫=
       (fun present : bool => if present then OS.remove P name else mret tt))
      {| fs := disk; trace := tr |} =
    match remove_fault P disk name with
    | None =>
        ({| fs := delete name disk; trace := tr ++ [Removed name] |},
         Return tt)
    | Some e =>
        ({| fs := disk; trace := tr ++ [RemoveFailed name e] |}, Raise e)
    end).
  { intros tr. rewrite run_bind. unfold OS.path_exists, OS.remove.
    cbn [fs trace].
    rewrite Hd, bool_decide_eq_true_2 by eauto.
    cbn [fs trace]. rewrite Hd. reflexivity. }
  destruct (transcribe P disk name) as [t|e'].
  - rewrite run_bind. unfold log at 1, emit at 1. cbn [fs trace].
    rewrite run_ret, Hfin. unfold ok_response.
    destruct (remove_fault P disk name); rewrite <- !app_assoc; reflexivity.
  - rewrite Hfin.
    destruct (remove_fault P disk name); rewrite <- !app_assoc; reflexivity.
Qed.
End Staging.

(** ** Extensions *)

Lemma rfind_from_spec (c : ascii) (s : string) (i last : Z) :
  PosixPath.rfind_from c s i last = last \/
  (i <= PosixPath.rfind_from c s i last /\
   String.get (Z.to_nat (PosixPath.rfind_from c s i last - i)) s = Some c)%Z.
Proof.
  revert i last. induction s as [|a s IH]; intros i last; cbn.
  - left. reflexivity.
  - destruct (IH (i + 1)%Z (if Ascii.eqb a c then i else last)) as [H | [Hle Hget]].
    + rewrite H. destruct (Ascii.eqb a c) eqn:E.
      * right. split; [lia|]. rewrite Z.sub_diag.
        apply Ascii.eqb_eq in E. subst a. reflexivity.
      * left. reflexivity.
    + right. split; [lia|].
      set (r := PosixPath.rfind_from c s (i + 1) _) in *.
      replace (Z.to_nat (r - i)) with (S (Z.to_nat (r - (i + 1)))) by lia.
      exact Hget.
Qed.

Lemma drop_get (n : nat) (s : string) (c : ascii) :
  String.get n s = Some c -> exists rest, PosixPath.drop n s = String c rest.
Proof.
  revert n. induction s as [|a s IH]; intros [|n] H; cbn in *; try discriminate.
  - injection H as ->. eauto.
  - apply IH. exact H.
Qed.

Lemma skip_leading_dots_ext (p : string) (dotIndex : Z) (n : nat)
    (filenameIndex : Z) (root ext : string) :
  PosixPath.skip_leading_dots p dotIndex n filenameIndex = Some (root, ext) ->
  ext = PosixPath.drop (Z.to_nat dotIndex) p.
Proof.
  revert filenameIndex. induction n as [|n IH]; intros i; cbn; [discriminate|].
  destruct (negb _).
  - intros [= _ <-]. reflexivity.
  - apply IH.
Qed.

(** What [splitext] returns as extension is empty or begins with a dot. *)
Lemma splitext_ext (p root ext : string) :
  PosixPath.splitext p = (root, ext) ->
  ext = EmptyString \/ exists rest, ext = String "." rest.
Proof.
  unfold PosixPath.splitext.
  destruct (Z.gtb_spec (PosixPath.rfind PosixPath.extsep p)
              (PosixPath.rfind PosixPath.sep p)) as [Hgt|_].
  - destruct (PosixPath.skip_leading_dots _ _ _ _) as [[root' ext']|] eqn:E.
    + intros [= <- <-]. right. apply skip_leading_dots_ext in E. subst ext'.
      unfold PosixPath.rfind in *.
      destruct (rfind_from_spec PosixPath.extsep p 0 (-1)) as [H | [_ H]].
      * destruct (rfind_from_spec PosixPath.sep p 0 (-1)) as [H' | [H' _]]; lia.
      * rewrite Z.sub_0_r in H. apply drop_get in H. exact H.
    + intros [= _ <-]. left. reflexivity.
  - intros [= _ <-]. left. reflexivity.
Qed.

(** ** [os.path.splitext] and the specification's extension *)

Lemma rfind_from_last_index (c : ascii) (s : string) (i last : Z) :
  PosixPath.rfind_from c s i last =
  match last_index c s with
  | Some n => (i + Z.of_nat n)%Z
  | None => last
  end.
Proof.
  revert i last. induction s as [|a s IH]; intros i last; cbn; [reflexivity|].
  rewrite IH. destruct (last_index c s) as [n|]; [lia|].
  destruct (Ascii.eqb a c); [lia | reflexivity].
Qed.

Lemma spec_from_last_dot_last_index (s found : string) :
  spec_from_last_dot s found =
  match last_index "." s with
  | Some n => PosixPath.drop n s
  | None => found
  end.
Proof.
  revert found. induction s as [|a s IH]; intros found; cbn; [reflexivity|].
  destruct (Ascii.eqb a "."); rewrite IH;
    destruct (last_index "." s); reflexivity.
Qed.

Lemma append_assoc (a b c : string) : (a +:+ b) +:+ c = a +:+ (b +:+ c).
Proof.
  induction a as [|x a IH]; [reflexivity|].
  change (String x ((a +:+ b) +:+ c) = String x (a +:+ (b +:+ c))).
  now rewrite IH.
Qed.

Lemma spec_last_component_last_index (p acc : string) :
  spec_last_component p acc =
  match last_index "/" p with
  | Some n => PosixPath.drop (S n) p
  | None => acc +:+ p
  end.
Proof.
  revert acc. induction p as [|a p IH]; intros acc; cbn [spec_last_component last_index].
  - induction acc as [|x acc IHa]; [reflexivity|].
    change (String x acc = String x (acc +:+ EmptyString)). now rewrite <- IHa.
  - destruct (Ascii.eqb a "/"); rewrite IH;
      destruct (last_index "/" p) as [n|]; try reflexivity.
    apply append_assoc.
Qed.

Lemma drop_drop (k n : nat) (s : string) :
  PosixPath.drop n (PosixPath.drop k s) = PosixPath.drop (k + n) s.
Proof.
  revert s. induction k as [|k IH]; intros s; [reflexivity|].
  destruct s as [|a s]; cbn; [destruct n; reflexivity | apply IH].
Qed.

Lemma last_index_drop (c : ascii) (s : string) (n k : nat) :
  last_index c s = Some n -> k <= n ->
  last_index c (PosixPath.drop k s) = Some (n - k).
Proof.
  revert s n. induction k as [|k IH]; intros s n H Hk.
  - rewrite Nat.sub_0_r. destruct s; exact H.
  - destruct s as [|a s]; [discriminate H|]. cbn in H |- *.
    destruct (last_index c s) as [m|] eqn:E.
    + injection H as <-. apply IH; [exact E | lia].
    + destruct (Ascii.eqb a c); [injection H as <-; lia | discriminate H].
Qed.

(** Whenever [splitext] finds an extension, it is the one the
    specification describes: the part of the last path component from its
    last dot on.  (Not the other way round: a dotfile has none.) *)
Lemma splitext_ext_is_spec_extension (p root ext : string) :
  PosixPath.splitext p = (root, ext) ->
  ext <> EmptyString ->
  ext = spec_extension p.
Proof.
  unfold PosixPath.splitext, PosixPath.rfind, spec_extension.
  rewrite !rfind_from_last_index, spec_from_last_dot_last_index,
    spec_last_component_last_index.
  unfold PosixPath.sep, PosixPath.extsep.
  destruct (last_index "." p) as [n|] eqn:Hdot.
  - destruct (last_index "/" p) as [m|] eqn:Hsep.
    + destruct (Z.gtb_spec (0 + Z.of_nat n) (0 + Z.of_nat m)) as [Hgt|Hle].
      * destruct (PosixPath.skip_leading_dots _ _ _ _) as [[r e]|] eqn:E.
        -- intros [= <- <-] _. apply skip_leading_dots_ext in E.
           rewrite (last_index_drop _ _ _ (S m) Hdot) by lia.
           rewrite drop_drop, E. f_equal. lia.
        -- intros [= <- <-] H. contradiction.
      * intros [= <- <-] H. contradiction.
    + destruct (Z.gtb_spec (0 + Z.of_nat n) (-1)) as [Hgt|Hle]; [|lia].
      destruct (PosixPath.skip_leading_dots _ _ _ _) as [[r e]|] eqn:E.
      * intros [= <- <-] _. apply skip_leading_dots_ext in E.
        change (EmptyString +:+ p) with p. rewrite Hdot, E. f_equal. lia.
      * intros [= <- <-] H. contradiction.
  - destruct (last_index "/" p) as [m|].
    + destruct (Z.gtb_spec (-1) (0 + Z.of_nat m)) as [Hgt|Hle]; [lia|].
      intros [= <- <-] H. contradiction.
    + cbn. intros [= <- <-] H. contradiction.
Qed.

Lemma drop_S_get (n : nat) (s : string) (c : ascii) :
  String.get n s = Some c ->
  PosixPath.drop n s = String c (PosixPath.drop (S n) s).
Proof.
  revert n. induction s as [|a s IH]; intros [|n] H; cbn in *; try discriminate.
  - injection H as ->. destruct s; reflexivity.
  - rewrite (IH n H). destruct s; [destruct n; discriminate H | reflexivity].
Qed.

Lemma get_below_last_index (c : ascii) (s : string) (n j : nat) :
  last_index c s = Some n -> j <= n -> exists x, String.get j s = Some x.
Proof.
  revert n j. induction s as [|a s IH]; intros n j H Hj; [discriminate H|].
  destruct j as [|j]; [eexists; reflexivity|]. cbn in H |- *.
  destruct (last_index c s) as [m|] eqn:E.
  - injection H as <-. apply (IH m); [reflexivity | lia].
  - destruct (Ascii.eqb a c); [injection H as <-; lia | discriminate H].
Qed.

Lemma skip_leading_dots_all_dots (p : string) (dotIndex : Z) (k i : nat) :
  (forall j, j < i + k -> exists x, String.get j p = Some x) ->
  PosixPath.skip_leading_dots p dotIndex k (Z.of_nat i) =
  if all_dots (PosixPath.take k (PosixPath.drop i p)) then None
  else Some (PosixPath.take (Z.to_nat dotIndex) p,
             PosixPath.drop (Z.to_nat dotIndex) p).
Proof.
  revert i. induction k as [|k IH]; intros i Hget; [reflexivity|].
  cbn [PosixPath.skip_leading_dots]. rewrite Nat2Z.id.
  destruct (Hget i ltac:(lia)) as [x Hx]. rewrite Hx.
  rewrite (drop_S_get _ _ _ Hx). cbn [PosixPath.take all_dots].
  unfold PosixPath.extsep.
  destruct (Ascii.eqb x "."); [|reflexivity]. cbn [negb andb].
  replace (Z.of_nat i + 1)%Z with (Z.of_nat (S i)) by lia.
  apply IH. intros j Hj. apply Hget. lia.
Qed.

Lemma last_index_drop_none (c : ascii) (s : string) (k : nat) :
  (forall n, last_index c s = Some n -> n < k) ->
  last_index c (PosixPath.drop k s) = None.
Proof.
  revert s. induction k as [|k IH]; intros s H.
  - destruct (last_index c s) as [n|] eqn:E.
    + specialize (H n eq_refl). lia.
    + destruct s; exact E.
  - destruct s as [|a s]; [reflexivity|]. cbn [PosixPath.drop].
    apply IH. intros n Hn. cbn in H. rewrite Hn in H.
    specialize (H (S n) eq_refl). lia.
Qed.

(** What [splitext] returns as extension: the specification's extension,
    except that a last component with nothing but dots before its last dot
    has none. *)
Lemma splitext_ext_characterised (p : string) :
  snd (PosixPath.splitext p) =
  if only_leading_dots (spec_last_component p EmptyString) then EmptyString
  else spec_extension p.
Proof.
  unfold PosixPath.splitext, PosixPath.rfind, spec_extension, only_leading_dots.
  rewrite !rfind_from_last_index, spec_from_last_dot_last_index,
    spec_last_component_last_index.
  unfold PosixPath.sep, PosixPath.extsep.
  change (EmptyString +:+ p) with p.
  destruct (last_index "." p) as [n|] eqn:Hdot.
  - destruct (last_index "/" p) as [m|] eqn:Hsep.
    + destruct (Z.gtb_spec (0 + Z.of_nat n) (0 + Z.of_nat m)) as [Hgt|Hle].
      * rewrite (last_index_drop _ _ _ (S m) Hdot) by lia.
        replace (0 + Z.of_nat m + 1)%Z with (Z.of_nat (S m)) by lia.
        rewrite skip_leading_dots_all_dots.
        -- replace (Z.to_nat (0 + Z.of_nat n - Z.of_nat (S m))) with (n - S m)
             by lia.
           destruct (all_dots _); [reflexivity|].
           cbn [snd]. rewrite drop_drop. f_equal. lia.
        -- intros j Hj. apply (get_below_last_index _ _ _ _ Hdot). lia.
      * rewrite last_index_drop_none; [reflexivity|].
        intros n' Hn'. rewrite Hdot in Hn'. injection Hn' as <-. lia.
    + destruct (Z.gtb_spec (0 + Z.of_nat n) (-1)) as [Hgt|Hle]; [|lia].
      rewrite Hdot. change (-1 + 1)%Z with (Z.of_nat 0).
      rewrite skip_leading_dots_all_dots.
      * replace (Z.to_nat (0 + Z.of_nat n - Z.of_nat 0)) with n by lia.
        change (PosixPath.drop 0 p) with p.
        destruct (all_dots _); [reflexivity|].
        cbn [snd]. f_equal. lia.
      * intros j Hj. apply (get_below_last_index _ _ _ _ Hdot). lia.
  - destruct (last_index "/" p) as [m|] eqn:Hsep.
    + destruct (Z.gtb_spec (-1) (0 + Z.of_nat m)) as [Hgt|Hle]; [lia|].
      rewrite last_index_drop_none; [reflexivity|].
      intros n' Hn'. rewrite Hdot in Hn'. discriminate Hn'.
    + rewrite Hdot. reflexivity.
Qed.

Section Extension.

Variable P : Platform.

Lemma MIME_TO_EXT_dots (content_type ext : string) :
  dict_lookup content_type MIME_TO_EXT = Some ext ->
  exists rest, ext = String "." rest.
Proof.
  unfold MIME_TO_EXT. cbn [dict_lookup].
  repeat (destruct (String.eqb content_type _);
          [intros [= <-]; eauto|]).
  discriminate.
Qed.

(** The part of [get_file_extension] that looks at the filename. *)
Lemma by_name_run (filename : value) (w w1 : World)
    (r : result (option string)) :
  (if truthy filename then
     decoded_filename ← lift (UrlParse.unquote P filename);
     let '(_, ext) := PosixPath.splitext decoded_filename in
     mret (if truthy (VStr ext) then Some ext else None)
   else mret None) w = (w1, r) ->
  w1 = w /\
  (forall ext, r = Return (Some ext) -> exists rest, ext = String "." rest).
Proof.
  destruct (truthy filename).
  - rewrite run_lift_bind.
    destruct (UrlParse.unquote P filename) as [decoded|e].
    + destruct (PosixPath.splitext decoded) as [root ext] eqn:Hsplit.
      rewrite run_ret. intros [= <- <-]. split; [reflexivity|].
      intros ext' H. apply splitext_ext in Hsplit.
      destruct Hsplit as [-> | [rest ->]]; cbn in H.
      * discriminate H.
      * injection H as <-. eauto.
    + intros [= <- <-]. split; [reflexivity | discriminate].
  - rewrite run_ret. intros [= <- <-]. split; [reflexivity | discriminate].
Qed.

(** [get_file_extension] leaves the disk alone, logs at most its
    fallback, and what it returns begins with a dot. *)
Lemma get_file_extension_run (content_type filename : value) (w w1 : World)
    (r : result string) :
  get_file_extension P content_type filename w = (w1, r) ->
  (w1 = w \/ w1 = could_not_determine content_type filename w) /\
  (forall ext, r = Return ext -> exists rest, ext = String "." rest).
Proof.
  unfold get_file_extension. rewrite run_bind.
  destruct (truthy content_type);
    [ unfold lift at 1;
      destruct (dict_find MIME_TO_EXT content_type) as [[ext|]|e] eqn:Hfind
    | rewrite run_ret ].
  1: { rewrite run_ret. intros [= <- <-]. split; [auto|].
       intros ? [= <-].
       destruct content_type as [| | | |s| |]; cbn [dict_find] in Hfind;
         try discriminate Hfind.
       apply (MIME_TO_EXT_dots s). congruence. }
  2: { intros [= <- <-]. split; [auto | discriminate]. }
  all: rewrite run_bind;
    match goal with
    | |- match ?m with _ => _ end = _ -> _ =>
        destruct m as [w2 r2] eqn:Hn
    end;
    apply by_name_run in Hn; destruct Hn as [-> Hdot];
    destruct r2 as [[ext|]|e].
  all: try (rewrite run_ret; intros [= <- <-]; split; [auto|];
            intros ? [= <-]; eauto).
  all: try (intros [= <- <-]; split; [right; reflexivity|];
            intros ? [= <-]; eauto).
  all: intros [= <- <-]; split; [auto | discriminate].
Qed.

End Extension.

(** ** The extension resolver *)

(** C6. For every content type of the MIME-to-extension mapping and every
    filename argument, [get_file_extension] returns the extension mapped to
    the content type, whatever the filename is. *)
Theorem known_content_type_decides (P : Platform) (content_type ext : string)
    (filename : value) (w : World) :
  dict_lookup content_type MIME_TO_EXT = Some ext ->
  get_file_extension P (VStr content_type) filename w = (w, Return ext).
Proof.
  intros H. unfold get_file_extension. rewrite run_bind.
  destruct content_type as [|c s]; [discriminate H|].
  cbn [truthy String.eqb negb lift dict_find]. rewrite H. reflexivity.
Qed.

Lemma known_content_type_decides_witness :
  get_file_extension Demo.platform (VStr "audio/mpeg") (VStr "take1.wav")
    Demo.start = (Demo.start, Return ".mp3").
Proof. apply known_content_type_decides. reflexivity. Defined.

(** The filename decides when the content type does not and
    [os.path.splitext] finds an extension. *)
Lemma splitext_extension_passes (P : Platform) (content_type : value)
    (filename decoded root ext : string) (w : World) :
  unknown_content_type content_type ->
  UrlParse.unquote P (VStr filename) = Return decoded ->
  PosixPath.splitext decoded = (root, ext) ->
  ext <> EmptyString ->
  get_file_extension P content_type (VStr filename) w = (w, Return ext).
Proof.
  intros Hct Hdec Hsplit Hext.
  assert (Hname : truthy (VStr filename) = true).
  { destruct filename; [|reflexivity].
    cbn in Hdec. injection Hdec as <-. cbn in Hsplit.
    injection Hsplit as _ <-. contradiction. }
  assert (Hty : (if truthy content_type
                 then lift (dict_find MIME_TO_EXT content_type)
                 else mret None) w = (w, Return None)).
  { destruct Hct as [-> | (s & -> & Hs)]; [reflexivity|].
    cbn [truthy dict_find]. rewrite Hs. destruct (negb _); reflexivity. }
  unfold get_file_extension. rewrite run_bind, Hty.
  rewrite Hname, run_bind, run_lift_bind, Hdec, Hsplit, run_ret.
  destruct ext; [contradiction | reflexivity].
Qed.

(** C7, as amended.  For every filename whose URL-decoded form has a
    non-empty extension (the part from the last dot of its last path
    component) and, in that component, some character other than a dot
    before that last dot, and for every content type that is absent or not
    in the mapping, [get_file_extension] returns that extension as it is;
    it is checked against no set of known extensions. *)
Theorem filename_extension_passes (P : Platform) (content_type : value)
    (filename decoded : string) (w : World) :
  unknown_content_type content_type ->
  UrlParse.unquote P (VStr filename) = Return decoded ->
  spec_extension decoded <> EmptyString ->
  only_leading_dots (spec_last_component decoded EmptyString) = false ->
  get_file_extension P content_type (VStr filename) w
  = (w, Return (spec_extension decoded)).
Proof.
  intros Hct Hdec Hext Hstem.
  pose proof (splitext_ext_characterised decoded) as Hsplit.
  rewrite Hstem in Hsplit.
  destruct (PosixPath.splitext decoded) as [root ext] eqn:E.
  cbn [snd] in Hsplit. subst ext.
  eapply splitext_extension_passes; eassumption.
Qed.

Lemma filename_extension_passes_witness :
  get_file_extension Demo.platform (VStr "application/octet-stream")
    (VStr "voice%20memo.final.OPUS") Demo.start = (Demo.start, Return ".OPUS").
Proof.
  apply (filename_extension_passes Demo.platform _ _ "voice memo.final.OPUS").
  - right. exists "application/octet-stream". split; reflexivity.
  - reflexivity.
  - discriminate.
  - reflexivity.
Defined.

(** C7, as stated, fails on a file whose name begins with its only dot.
    The URL-decoded form of [.mp3] is [.mp3]; the part from the last dot
    of its last component is [.mp3], which is not empty; the content type
    is absent; yet [get_file_extension] does not return [.mp3]: it logs
    that it found nothing and falls back to [.wav]. *)
Lemma dotfile_extension_ignored :
  unknown_content_type VNone /\
  UrlParse.unquote Demo.platform (VStr ".mp3") = Return ".mp3" /\
  spec_extension ".mp3" = ".mp3" /\
  spec_extension ".mp3" <> EmptyString /\
  get_file_extension Demo.platform VNone (VStr ".mp3") Demo.start
  = (could_not_determine VNone (VStr ".mp3") Demo.start, Return ".wav") /\
  snd (get_file_extension Demo.platform VNone (VStr ".mp3") Demo.start)
  <> Return (spec_extension ".mp3").
Proof.
  split; [left; reflexivity|].
  repeat split; discriminate.
Qed.

Lemma by_type_optional (content_type : value) :
  optional_str content_type = true ->
  exists found, forall w : World,
    (if truthy content_type
     then lift (dict_find MIME_TO_EXT content_type)
     else mret None) w = (w, Return found).
Proof.
  destruct content_type as [| | | |s| |]; try discriminate; intros _.
  - exists None. reflexivity.
  - cbn [dict_find]. destruct (truthy (VStr s)); eauto.
Qed.

Lemma by_name_optional (P : Platform) (filename : value) :
  optional_str filename = true ->
  exists found, forall w : World,
    (if truthy filename then
       decoded_filename ← lift (UrlParse.unquote P filename);
       let '(_, ext) := PosixPath.splitext decoded_filename in
       mret (if truthy (VStr ext) then Some ext else None)
     else mret None) w = (w, Return found).
Proof.
  destruct filename as [| | | |f| |]; try discriminate; intros _.
  - exists None. reflexivity.
  - destruct (truthy (VStr f)); [|exists None; reflexivity].
    cbn [UrlParse.unquote contains].
    destruct (is_substring "%" f);
      match goal with
      | |- context [lift (Return ?s)] =>
          destruct (PosixPath.splitext s) as [root ext] eqn:Hsplit;
          exists (if truthy (VStr ext) then Some ext else None);
          intros w; rewrite run_lift_bind, Hsplit; reflexivity
      end.
Qed.

(** C8. For optional strings as arguments [get_file_extension] raises
    nothing and returns a string that begins with a dot; without a usable
    argument that string is [.wav]. *)
Theorem get_file_extension_total (P : Platform) (w : World) :
  (forall content_type filename,
     optional_str content_type = true -> optional_str filename = true ->
     exists w' rest,
       get_file_extension P content_type filename w
       = (w', Return (String "." rest))) /\
  get_file_extension P VNone VNone w
  = (could_not_determine VNone VNone w, Return ".wav") /\
  get_file_extension P (VStr "unknown/type") VNone w
  = (could_not_determine (VStr "unknown/type") VNone w, Return ".wav").
Proof.
  split; [|split; reflexivity].
  intros content_type filename Hct Hfn.
  destruct (get_file_extension P content_type filename w) as [w' r] eqn:Hrun.
  destruct (get_file_extension_run P _ _ _ _ _ Hrun) as [_ Hdot].
  destruct r as [ext|e].
  - destruct (Hdot ext eq_refl) as [rest ->]. eauto.
  - exfalso. revert Hrun. unfold get_file_extension.
    destruct (by_type_optional _ Hct) as [by_type Htype].
    destruct (by_name_optional P _ Hfn) as [by_name Hname].
    rewrite run_bind, Htype.
    destruct by_type; [discriminate|].
    rewrite run_bind, Hname.
    destruct by_name; discriminate.
Qed.

Lemma get_file_extension_total_witness :
  exists w' rest,
    get_file_extension Demo.platform VNone (VStr "clip.ogg") Demo.start
    = (w', Return (String "." rest)).
Proof.
  apply (proj1 (get_file_extension_total Demo.platform Demo.start));
    reflexivity.
Defined.

(** ** The handler *)

Section Handling.

Variable P : Platform.

(** Reading the request changes nothing, and the only response it
    returns at once is the 400 one. *)
Lemma read_request_run (event : value) (w w1 : World)
    (r : result (response + (list byte * value * value))) :
  read_request P event w = (w1, r) ->
  w1 = w /\ (forall early, r = Return (inl early) -> early = no_audio P).
Proof.
  unfold read_request. run_cases.
  all: intros [= <- <-]; split; [reflexivity|]; intros ? [= <-]; reflexivity.
Qed.

(** Every run of lines 112-144 is one of the four above. *)
Lemma transcribe_request_staging (audio_data : list byte)
    (content_type filename : value) (w w' : World) (r : result response) :
  transcribe_request P audio_data content_type filename w = (w', r) ->
  staging P audio_data content_type filename w w' r.
Proof.
  destruct (get_file_extension P content_type filename w)
    as [w1 [file_ext|e]] eqn:Hext.
  - destruct (tmp_stem P (fs w1) file_ext) as [stem|e] eqn:Hstem.
    + destruct (fs w1 !! (stem +:+ file_ext)) as [old|] eqn:Hfresh.
      * erewrite staging_name_taken by eassumption. intros [= <- <-].
        apply nothing_staged.
        eapply get_file_extension_run; eassumption.
      * destruct (write_fault P (<[stem +:+ file_ext := []]> (fs w1))
                    (stem +:+ file_ext) audio_data)
          as [[e partial]|] eqn:Hwrite.
        -- erewrite staging_write_fails by eassumption. intros [= <- <-].
           apply write_failed; assumption.
        -- erewrite staging_written by eassumption. cbv zeta.
           destruct (transcribe P _ _) as [t|e] eqn:Hmodel;
             destruct (remove_fault P _ _) as [e2|];
             intros [= <- <-].
           ++ apply transcribed_not_removed; assumption.
           ++ apply transcribed; assumption.
           ++ apply model_failed_not_removed; assumption.
           ++ apply model_failed; assumption.
    + erewrite staging_no_name by eassumption. intros [= <- <-].
      apply nothing_staged.
      eapply get_file_extension_run; eassumption.
  - erewrite staging_no_extension by eassumption. intros [= <- <-].
    apply nothing_staged.
    eapply get_file_extension_run; eassumption.
Qed.

(** [handler] is its [try] body with exceptions turned into responses. *)
Lemma handler_unfold (event : value) (w : World) :
  handler P event w =
  match handler_try P event (received P event w) with
  | (w1, Return r) => (w1, Return r)
  | (w1, Raise e) => (failed e w1, Return (error_response P e))
  end.
Proof. reflexivity. Qed.

(** The [try] body either answers at once or stages the audio. *)
Lemma handler_try_run (event : value) (w w' : World) (r : result response) :
  handler_try P event w = (w', r) ->
  (w' = w /\ (r = Return (no_audio P) \/ exists e, r = Raise e)) \/
  (exists audio_data content_type filename,
      read_request P event w
      = (w, Return (inr (audio_data, content_type, filename))) /\
      staging P audio_data content_type filename w w' r).
Proof.
  unfold handler_try. rewrite run_bind.
  destruct (read_request P event w) as [w1 req] eqn:Hread.
  destruct (read_request_run _ _ _ _ Hread) as [-> Hearly].
  destruct req as [[early | [[audio_data content_type] filename]] | e].
  - rewrite run_ret. intros [= <- <-]. left. split; [reflexivity|].
    left. f_equal. apply Hearly. reflexivity.
  - intros H. right. exists audio_data, content_type, filename.
    split; [reflexivity|]. apply transcribe_request_staging. exact H.
  - intros [= <- <-]. left. split; [reflexivity|]. right. eauto.
Qed.

(** On an object the [try] body is the specification's steps. *)
Lemma handler_try_dict (d : list (string * value)) (w : World) :
  handler_try P (VDict d) w =
  (logical ← lift (spec_logical_body P d); spec_process P logical) w.
Proof.
  unfold handler_try, spec_process.
  rewrite run_bind, read_request_dict, run_lift_bind.
  destruct (spec_logical_body P d) as [logical|e]; [|reflexivity].
  rewrite bind_Return, run_lift_bind.
  destruct (spec_audio_of P logical) as [[early | [[a c] f]] | e];
    reflexivity.
Qed.

End Handling.

Section Requests.

Variable P : Platform.

(** The answer to a logical body without audio. *)
Lemma no_audio_run (d b : list (string * value)) (w : World) :
  spec_logical_body P d = Return (VDict b) ->
  dict_lookup "audio" b = None ->
  handler P (VDict d) w = (received P (VDict d) w, Return (no_audio P)).
Proof.
  intros Hbody Haudio.
  rewrite handler_unfold, handler_try_dict, run_lift_bind, Hbody.
  unfold spec_process, spec_audio_of. rewrite run_lift_bind.
  cbn [contains]. rewrite Haudio. reflexivity.
Qed.

(** C3. For an event that is a JSON object and whose logical body is an
    object without an [audio] key, in either shape, [handler] returns
    the 400 response with the fixed body; in the world it leaves, only
    the log of the event has been added: no file was created and the
    model was not called. *)
Theorem missing_audio_is_400 (d b : list (string * value)) (w : World) :
  spec_logical_body P d = Return (VDict b) ->
  dict_lookup "audio" b = None ->
  handler P (VDict d) w = (received P (VDict d) w, Return (no_audio P)) /\
  statusCode (no_audio P) = 400%Z /\
  body (no_audio P)
  = json_dumps P (VDict [("error", VStr "No audio data provided")]).
Proof.
  intros Hbody Haudio. split; [|split; reflexivity].
  apply no_audio_run with b; assumption.
Qed.

(** C5. On an event that is a JSON object, reading the request is: find
    the logical body, then take the audio from it.  The event counts as
    gateway-wrapped exactly when it has a [body] field: without one the
    event itself is the logical body; with one, the logical body is the
    JSON parsed from the base64-decoded [body] when [isBase64Encoded] is
    true, and the JSON parsed from [body] itself when it is false or
    absent. *)
Theorem logical_body_by_shape (d : list (string * value)) (w : World) :
  read_request P (VDict d) w
  = (w, logical ← spec_logical_body P d; spec_audio_of P logical) /\
  (dict_lookup "body" d = None ->
   read_request P (VDict d) w = (w, spec_audio_of P (VDict d))) /\
  (forall raw,
      dict_lookup "body" d = Some raw ->
      dict_lookup "isBase64Encoded" d = Some (VBool true) ->
      read_request P (VDict d) w
      = (w, decoded ← Base64.b64decode raw;
            logical ← json_loads_bytes P decoded;
            spec_audio_of P logical)) /\
  (forall raw,
      dict_lookup "body" d = Some raw ->
      dict_lookup "isBase64Encoded" d = None \/
      dict_lookup "isBase64Encoded" d = Some (VBool false) ->
      read_request P (VDict d) w
      = (w, logical ← loads P raw; spec_audio_of P logical)).
Proof.
  split; [apply read_request_dict|].
  rewrite read_request_dict.
  unfold spec_logical_body, spec_declares_base64.
  split; [|split].
  - intros ->. reflexivity.
  - intros raw -> ->. cbn [truthy].
    destruct (Base64.b64decode raw); reflexivity.
  - intros raw -> [-> | ->]; reflexivity.
Qed.

(** C9. When the event has a [body] field, the fields [audio],
    [contentType] and [filename] of the event itself play no part: two
    events with the same [body] and [isBase64Encoded] are handled alike,
    and an event whose [body] parses to an object without [audio] gets
    the 400 response although it has an [audio] field of its own. *)
Theorem top_level_fields_ignored (d : list (string * value)) (raw : value)
    (w : World) :
  dict_lookup "body" d = Some raw ->
  (forall d',
      dict_lookup "body" d' = Some raw ->
      dict_lookup "isBase64Encoded" d' = dict_lookup "isBase64Encoded" d ->
      handler_try P (VDict d') w = handler_try P (VDict d) w) /\
  (forall top b,
      dict_lookup "audio" d = Some top ->
      spec_logical_body P d = Return (VDict b) ->
      dict_lookup "audio" b = None ->
      handler P (VDict d) w = (received P (VDict d) w, Return (no_audio P))).
Proof.
  intros Hraw. split.
  - intros d' Hraw' Hflag. rewrite !handler_try_dict.
    unfold spec_logical_body, spec_declares_base64.
    rewrite Hraw, Hraw', Hflag. reflexivity.
  - intros top b _ Hbody Haudio. apply no_audio_run with b; assumption.
Qed.

End Requests.

Lemma missing_audio_is_400_witness :
  handler Demo.platform (VDict []) Demo.start
  = (received Demo.platform (VDict []) Demo.start,
     Return (no_audio Demo.platform)) /\
  handler Demo.platform
    (VDict [("body", VStr "e30="); ("isBase64Encoded", VBool true)])
    Demo.start
  = (received Demo.platform
       (VDict [("body", VStr "e30="); ("isBase64Encoded", VBool true)])
       Demo.start,
     Return (no_audio Demo.platform)).
Proof.
  split.
  - apply (missing_audio_is_400 Demo.platform [] []); reflexivity.
  - apply (missing_audio_is_400 Demo.platform
             [("body", VStr "e30="); ("isBase64Encoded", VBool true)] []);
      reflexivity.
Defined.

Lemma logical_body_by_shape_witness :
  read_request Demo.platform (VDict [("audio", VStr Demo.riff)]) Demo.start
  = (Demo.start,
     spec_audio_of Demo.platform (VDict [("audio", VStr Demo.riff)])) /\
  read_request Demo.platform
    (VDict [("body", VStr "e30="); ("isBase64Encoded", VBool true)]) Demo.start
  = (Demo.start,
     decoded ← Base64.b64decode (VStr "e30=");
     logical ← json_loads_bytes Demo.platform decoded;
     spec_audio_of Demo.platform logical) /\
  read_request Demo.platform (VDict [("body", VStr "{}")]) Demo.start
  = (Demo.start,
     logical ← loads Demo.platform (VStr "{}");
     spec_audio_of Demo.platform logical).
Proof.
  split; [|split].
  - apply (proj1 (proj2 (logical_body_by_shape Demo.platform
             [("audio", VStr Demo.riff)] Demo.start))); reflexivity.
  - apply (proj1 (proj2 (proj2 (logical_body_by_shape Demo.platform
             [("body", VStr "e30="); ("isBase64Encoded", VBool true)]
             Demo.start)))); reflexivity.
  - apply (proj2 (proj2 (proj2 (logical_body_by_shape Demo.platform
             [("body", VStr "{}")] Demo.start)))); [reflexivity|].
    left. reflexivity.
Defined.

Lemma top_level_fields_ignored_witness :
  handler_try Demo.platform (VDict [("body", VStr "{}")]) Demo.start
  = handler_try Demo.platform
      (VDict [("body", VStr "{}"); ("audio", VStr Demo.riff)]) Demo.start /\
  handler Demo.platform
    (VDict [("body", VStr "{}"); ("audio", VStr Demo.riff)]) Demo.start
  = (received Demo.platform
       (VDict [("body", VStr "{}"); ("audio", VStr Demo.riff)]) Demo.start,
     Return (no_audio Demo.platform)).
Proof.
  split.
  - apply (proj1 (top_level_fields_ignored Demo.platform
                    [("body", VStr "{}"); ("audio", VStr Demo.riff)]
                    (VStr "{}") Demo.start eq_refl)); reflexivity.
  - apply (proj2 (top_level_fields_ignored Demo.platform
                    [("body", VStr "{}"); ("audio", VStr Demo.riff)]
                    (VStr "{}") Demo.start eq_refl)
             (VStr Demo.riff) []); reflexivity.
Defined.

(** ** Base64: decoding undoes encoding *)

Lemma below_In (n : nat) (v : N) : (v < N.of_nat n)%N -> In v (below n).
Proof.
  intros H. unfold below. apply in_map_iff. exists (N.to_nat v).
  split; [lia|]. apply in_seq. lia.
Qed.

Lemma byte_below (x : byte) : In (Byte.to_N x) (below 256).
Proof. apply below_In. pose proof (Byte.to_N_bounded x). lia. Qed.

Lemma for_all_sextets (f : N -> bool) :
  forallb f (below 64) = true -> forall v, (v < 64)%N -> f v = true.
Proof.
  intros H v Hv. rewrite forallb_forall in H. apply H, below_In. exact Hv.
Qed.

Lemma for_all_bytes2 (f : N -> N -> bool) :
  forallb (fun a => forallb (f a) (below 256)) (below 256) = true ->
  forall x y : byte, f (Byte.to_N x) (Byte.to_N y) = true.
Proof.
  intros H x y. rewrite forallb_forall in H.
  specialize (H _ (byte_below x)). rewrite forallb_forall in H.
  apply H, byte_below.
Qed.

Lemma uchar_to_N (x : byte) : Base64.uchar (Byte.to_N x) = x.
Proof. destruct x; reflexivity. Qed.

Lemma sextet_char (v : N) :
  (v < 64)%N ->
  Ascii.eqb (Base64.b2a_char v) Base64.BASE64_PAD = false /\
  Base64.table_a2b_base64 (Base64.b2a_char v) = Some v /\
  (N_of_ascii (Base64.b2a_char v) <? 128)%N = true.
Proof.
  intros Hv.
  pose proof (for_all_sextets
    (fun v => negb (Ascii.eqb (Base64.b2a_char v) Base64.BASE64_PAD)
              && match Base64.table_a2b_base64 (Base64.b2a_char v) with
                 | Some v' => (v' =? v)%N
                 | None => false
                 end
              && (N_of_ascii (Base64.b2a_char v) <? 128)%N)
    ltac:(vm_compute; reflexivity) v Hv) as H.
  apply andb_prop in H. destruct H as [H H3].
  apply andb_prop in H. destruct H as [H1 H2].
  apply negb_true_iff in H1.
  destruct (Base64.table_a2b_base64 (Base64.b2a_char v)) as [v'|];
    [|discriminate H2].
  apply N.eqb_eq in H2. subst v'. auto.
Qed.

Lemma sextets_small (x y z : byte) :
  (sextet1 (Byte.to_N x) < 64 /\
   sextet2 (Byte.to_N x) (Byte.to_N y) < 64 /\
   sextet3 (Byte.to_N y) (Byte.to_N z) < 64 /\
   sextet4 (Byte.to_N z) < 64)%N.
Proof.
  pose proof (for_all_bytes2
    (fun a b => (sextet1 a <? 64)%N && (sextet2 a b <? 64)%N
                && (sextet3 a b <? 64)%N && (sextet4 a <? 64)%N)
    ltac:(vm_compute; reflexivity)) as H.
  pose proof (H x y) as Hxy. pose proof (H y z) as Hyz. pose proof (H z z) as Hz.
  repeat (apply andb_prop in Hxy; destruct Hxy as [Hxy ?]).
  repeat (apply andb_prop in Hyz; destruct Hyz as [Hyz ?]).
  repeat (apply andb_prop in Hz; destruct Hz as [Hz ?]).
  repeat split; apply N.ltb_lt; assumption.
Qed.

(** The three bytes the decoder forms from the four sextets. *)
Lemma sextets_bytes (x y z : byte) :
  let a := Byte.to_N x in
  let b := Byte.to_N y in
  let c := Byte.to_N z in
  N.lor (N.shiftl (sextet1 a) 2) (N.shiftr (sextet2 a b) 4) = a /\
  N.lor (N.shiftl (N.land (sextet2 a b) 15) 4) (N.shiftr (sextet3 b c) 2) = b /\
  N.lor (N.shiftl (N.land (sextet3 b c) 3) 6) (sextet4 c) = c.
Proof.
  cbv zeta.
  pose proof (for_all_bytes2
    (fun a b => (N.lor (N.shiftl (sextet1 a) 2) (N.shiftr (sextet2 a b) 4) =? a)%N
                && (N.land (sextet2 a b) 15 =? N.shiftr b 4)%N)
    ltac:(vm_compute; reflexivity) x y) as Hxy.
  pose proof (for_all_bytes2
    (fun b c => (N.lor (N.shiftl (N.shiftr b 4) 4) (N.shiftr (sextet3 b c) 2) =? b)%N
                && (N.land (sextet3 b c) 3 =? N.shiftr c 6)%N
                && (N.lor (N.shiftl (N.shiftr c 6) 6) (sextet4 c) =? c)%N)
    ltac:(vm_compute; reflexivity) y z) as Hyz.
  apply andb_prop in Hxy. destruct Hxy as [H1 H2].
  apply andb_prop in Hyz. destruct Hyz as [Hyz H5].
  apply andb_prop in Hyz. destruct Hyz as [H3 H4].
  apply N.eqb_eq in H1, H2, H3, H4, H5.
  rewrite H2, H4. auto.
Qed.

(** One data character in the decoding loop. *)
Lemma a2b_loop_data (v : N) (rest : string) (quad_pos leftchar pads : N)
    (out : list byte) :
  (v < 64)%N ->
  Base64.a2b_loop (String (Base64.b2a_char v) rest) quad_pos leftchar pads out =
  match quad_pos with
  | 0%N => Base64.a2b_loop rest 1 v 0 out
  | 1%N =>
      Base64.a2b_loop rest 2 (N.land v 15) 0
        (out ++ [Base64.uchar (N.lor (N.shiftl leftchar 2) (N.shiftr v 4))])
  | 2%N =>
      Base64.a2b_loop rest 3 (N.land v 3) 0
        (out ++ [Base64.uchar (N.lor (N.shiftl leftchar 4) (N.shiftr v 2))])
  | _ =>
      Base64.a2b_loop rest 0 0 0
        (out ++ [Base64.uchar (N.lor (N.shiftl leftchar 6) v)])
  end.
Proof.
  intros Hv. destruct (sextet_char v Hv) as (Hpad & Htable & _).
  cbn [Base64.a2b_loop]. rewrite Hpad, Htable. reflexivity.
Qed.

Lemma list_ind3 {A : Type} (Q : list A -> Prop) :
  Q [] -> (forall x, Q [x]) -> (forall x y, Q [x; y]) ->
  (forall x y z l, Q l -> Q (x :: y :: z :: l)) ->
  forall l, Q l.
Proof.
  intros H0 H1 H2 H3.
  assert (H : forall l, Q l /\ (forall x, Q (x :: l)) /\
                        (forall x y, Q (x :: y :: l))).
  { induction l as [|a l (IH0 & IH1 & IH2)]; [auto|].
    repeat split; auto. }
  intros l. apply H.
Qed.

Lemma a2b_loop_b64encode (B out : list byte) :
  Base64.a2b_loop (Base64.b64encode B) 0 0 0 out = (0%N, out ++ B).
Proof.
  revert out. induction B as [|x|x y|x y z B IH] using list_ind3; intros out.
  - cbn. rewrite app_nil_r. reflexivity.
  - destruct (sextets_small x x x) as (H1 & _).
    destruct (sextets_small x x00 x00) as (_ & H2 & _).
    destruct (sextets_bytes x x00 x00) as (E1 & _).
    cbv zeta in E1. unfold sextet1, sextet2 in *.
    change (N.shiftr (Byte.to_N x00) 4) with 0%N in *.
    rewrite N.lor_0_r in *.
    cbn [Base64.b64encode].
    rewrite a2b_loop_data by assumption.
    rewrite a2b_loop_data by assumption.
    cbn [Base64.a2b_loop Ascii.eqb Base64.BASE64_PAD].
    cbn -[N.shiftl N.shiftr N.land N.lor Base64.uchar].
    rewrite E1, uchar_to_N. reflexivity.
  - destruct (sextets_small x y x00) as (H1 & H2 & H3 & _).
    destruct (sextets_bytes x y x00) as (E1 & E2 & _).
    cbv zeta in E1, E2. unfold sextet1, sextet2, sextet3 in *.
    change (N.shiftr (Byte.to_N x00) 6) with 0%N in *.
    rewrite N.lor_0_r in *.
    cbn [Base64.b64encode].
    rewrite !a2b_loop_data by assumption.
    cbn -[N.shiftl N.shiftr N.land N.lor Base64.uchar].
    rewrite E1, E2, !uchar_to_N, <- app_assoc. reflexivity.
  - destruct (sextets_small x y z) as (H1 & H2 & H3 & H4).
    destruct (sextets_bytes x y z) as (E1 & E2 & E3).
    cbv zeta in E1, E2, E3. unfold sextet1, sextet2, sextet3, sextet4 in *.
    cbn [Base64.b64encode].
    rewrite !a2b_loop_data by assumption.
    rewrite E1, E2, E3, !uchar_to_N, IH, <- !app_assoc. reflexivity.
Qed.

Lemma is_ascii_b64encode (B : list byte) :
  Base64.is_ascii (Base64.b64encode B) = true.
Proof.
  induction B as [|x|x y|x y z B IH] using list_ind3.
  - reflexivity.
  - destruct (sextets_small x x x) as (H1 & _).
    destruct (sextets_small x x00 x00) as (_ & H2 & _).
    unfold sextet1, sextet2 in *.
    change (N.shiftr (Byte.to_N x00) 4) with 0%N in *.
    rewrite N.lor_0_r in *.
    cbn [Base64.b64encode Base64.is_ascii].
    rewrite (proj2 (proj2 (sextet_char _ H1))),
      (proj2 (proj2 (sextet_char _ H2))). reflexivity.
  - destruct (sextets_small x y x00) as (H1 & H2 & H3 & _).
    unfold sextet1, sextet2, sextet3 in *.
    change (N.shiftr (Byte.to_N x00) 6) with 0%N in *.
    rewrite N.lor_0_r in *.
    cbn [Base64.b64encode Base64.is_ascii].
    rewrite (proj2 (proj2 (sextet_char _ H1))),
      (proj2 (proj2 (sextet_char _ H2))),
      (proj2 (proj2 (sextet_char _ H3))). reflexivity.
  - destruct (sextets_small x y z) as (H1 & H2 & H3 & H4).
    unfold sextet1, sextet2, sextet3, sextet4 in *.
    cbn [Base64.b64encode Base64.is_ascii].
    rewrite (proj2 (proj2 (sextet_char _ H1))),
      (proj2 (proj2 (sextet_char _ H2))),
      (proj2 (proj2 (sextet_char _ H3))),
      (proj2 (proj2 (sextet_char _ H4))), IH. reflexivity.
Qed.

(** [base64.b64decode] gives back the bytes that [base64.b64encode] was
    given. *)
Lemma b64decode_b64encode (B : list byte) :
  Base64.b64decode (VStr (Base64.b64encode B)) = Return B.
Proof.
  unfold Base64.b64decode, Base64.a2b_base64.
  rewrite is_ascii_b64encode, a2b_loop_b64encode. reflexivity.
Qed.

(** ** Transcription *)

(** The effects a run adds are what follows the effects that were there;
    this brings an equation between traces into that form. *)
Lemma same_suffix (before added suffix : list effect) :
  before ++ added = before ++ suffix -> suffix = added.
Proof. intros H. apply app_inv_head in H. congruence. Qed.

(** From [Htrace : trace w' = trace w ++ suffix], with [w'] known, to the
    effects in [suffix], and through them for [Hin : In _ suffix]. *)
Ltac added_effects Htrace Hin suffix :=
  cbn [trace failed received could_not_determine] in Htrace;
  repeat rewrite <- app_assoc in Htrace;
  apply same_suffix in Htrace; subst suffix;
  cbn [app In] in Hin;
  repeat (destruct Hin as [Hin | Hin]; try discriminate Hin);
  try contradiction.

Lemma fresh_insert_insert (disk : gmap string (list byte)) (name : string)
    (x y : list byte) :
  <[name := x]> (<[name := y]> disk) = <[name := x]> disk.
Proof. apply insert_insert_eq. Qed.

Lemma fresh_delete_insert (disk : gmap string (list byte)) (name : string)
    (x y : list byte) :
  disk !! name = None ->
  delete name (<[name := x]> (<[name := y]> disk)) = disk.
Proof.
  intros H. rewrite insert_insert_eq. apply delete_insert_id. exact H.
Qed.

Section Transcribing.

Variable P : Platform.

(** Taking the audio from a logical body that has it. *)
Lemma spec_audio_of_present (b : list (string * value)) (audio : value)
    (B : list byte) :
  dict_lookup "audio" b = Some audio ->
  Base64.b64decode audio = Return B ->
  spec_audio_of P (VDict b)
  = Return (inr (B,
                 match dict_lookup "contentType" b with
                 | Some x => x
                 | None => VNone
                 end,
                 match dict_lookup "filename" b with
                 | Some x => x
                 | None => VNone
                 end)).
Proof.
  intros Ha HB. unfold spec_audio_of. cbn [contains getitem get].
  rewrite Ha. rewrite !bind_Return, HB. reflexivity.
Qed.

(** With audio that decodes, the [try] body is lines 112-144. *)
Lemma handler_try_audio (d b : list (string * value))
    (audio content_type filename : value) (B : list byte) (w0 : World) :
  spec_logical_body P d = Return (VDict b) ->
  dict_lookup "audio" b = Some audio ->
  Base64.b64decode audio = Return B ->
  get (VDict b) "contentType" VNone = Return content_type ->
  get (VDict b) "filename" VNone = Return filename ->
  handler_try P (VDict d) w0
  = transcribe_request P B content_type filename w0.
Proof.
  intros Hbody Haudio HB [= <-] [= <-].
  rewrite handler_try_dict, run_lift_bind, Hbody.
  unfold spec_process.
  rewrite run_lift_bind, (spec_audio_of_present _ _ _ Haudio HB).
  reflexivity.
Qed.

(** [get_file_extension] leaves the disk alone. *)
Lemma get_file_extension_disk (content_type filename : value) (w w1 : World)
    (r : result string) :
  get_file_extension P content_type filename w = (w1, r) -> fs w1 = fs w.
Proof.
  intros H. apply get_file_extension_run in H.
  destruct H as [[-> | ->] _]; reflexivity.
Qed.

(** Lines 116-144 once the file has been created and written, on the
    disk the handler found. *)
Lemma transcribe_request_written (audio_data : list byte)
    (content_type filename : value) (w w1 : World) (file_ext stem : string) :
  get_file_extension P content_type filename w = (w1, Return file_ext) ->
  tmp_stem P (fs w) file_ext = Return stem ->
  fs w !! (stem +:+ file_ext) = None ->
  write_fault P (<[stem +:+ file_ext := []]> (fs w)) (stem +:+ file_ext)
    audio_data = None ->
  let name := stem +:+ file_ext in
  let disk := <[name := audio_data]> (fs w) in
  transcribe_request P audio_data content_type filename w =
  match transcribe P disk name, remove_fault P disk name with
  | Return t, None =>
      ({| fs := fs w;
          trace := trace w1 ++
            [Created name; Wrote name audio_data;
             Log INFO (Transcribing file_ext (MODEL_SIZE P));
             Transcribed name (Some audio_data) (Return t);
             Log INFO (Transcription_complete (text t));
             Removed name] |},
       Return (ok_response P t file_ext))
  | Raise e, None =>
      ({| fs := fs w;
          trace := trace w1 ++
            [Created name; Wrote name audio_data;
             Log INFO (Transcribing file_ext (MODEL_SIZE P));
             Transcribed name (Some audio_data) (Raise e);
             Removed name] |},
       Raise e)
  | Return t, Some e =>
      ({| fs := disk;
          trace := trace w1 ++
            [Created name; Wrote name audio_data;
             Log INFO (Transcribing file_ext (MODEL_SIZE P));
             Transcribed name (Some audio_data) (Return t);
             Log INFO (Transcription_complete (text t));
             RemoveFailed name e] |},
       Raise e)
  | Raise e', Some e =>
      ({| fs := disk;
          trace := trace w1 ++
            [Created name; Wrote name audio_data;
             Log INFO (Transcribing file_ext (MODEL_SIZE P));
             Transcribed name (Some audio_data) (Raise e');
             RemoveFailed name e] |},
       Raise e)
  end.
Proof.
  intros Hext Hstem Hfresh Hwrite name disk.
  pose proof (get_file_extension_disk _ _ _ _ _ Hext) as Hdisk.
  rewrite <- Hdisk in Hstem, Hfresh, Hwrite.
  rewrite (staging_written P _ _ _ _ _ _ Hext _ Hstem Hfresh Hwrite).
  cbv zeta. rewrite fresh_insert_insert, (delete_insert_id _ _ _ Hfresh).
  rewrite Hdisk. reflexivity.
Qed.

(** C2. Whatever the event, [handler] returns a response and raises
    nothing, and the response is one of three: status 200 with the
    transcription, the model and the file type; status 400 with the
    fixed error; status 500 with an error text.  An exception raised
    anywhere in the [try] body comes back, after it has been logged, as
    the response with status 500 whose body is the object with the one
    field [error] holding [str(e)].  So does each of the failures the
    specification names: a body that is no JSON text, a body or audio
    that is no base64 text, an extension that cannot be resolved, a
    temporary file that cannot be made or written, a model that fails, a
    temporary file that cannot be removed. *)
Theorem handler_catches_everything (event : value) (w : World) :
  (exists w' r,
      handler P event w = (w', Return r) /\
      ((statusCode r = 200%Z /\
        exists transcription file_type,
          body r = json_dumps P
                     (VDict [("transcription", VStr transcription);
                             ("model", VStr (MODEL_SIZE P));
                             ("fileType", VStr file_type)])) \/
       (statusCode r = 400%Z /\
        body r = json_dumps P (VDict [("error", VStr "No audio data provided")])) \/
       (statusCode r = 500%Z /\
        exists e, body r = json_dumps P (VDict [("error", VStr (str_exn e))])))) /\
  (forall w1 e,
      handler_try P event (received P event w) = (w1, Raise e) ->
      handler P event w
      = ({| fs := fs w1;
            trace := trace w1 ++ [Log ERROR (Error_processing (str_exn e))] |},
         Return {| statusCode := 500;
                   body := json_dumps P (VDict [("error", VStr (str_exn e))]) |})) /\
  (forall d e,
      event = VDict d ->
      failure P d w e ->
      exists w1,
        handler P event w
        = ({| fs := fs w1;
              trace := trace w1 ++ [Log ERROR (Error_processing (str_exn e))] |},
           Return {| statusCode := 500;
                     body := json_dumps P
                               (VDict [("error", VStr (str_exn e))]) |})).
Proof.
  assert (Hcaught : forall w1 e,
    handler_try P event (received P event w) = (w1, Raise e) ->
    handler P event w
    = ({| fs := fs w1;
          trace := trace w1 ++ [Log ERROR (Error_processing (str_exn e))] |},
       Return {| statusCode := 500;
                 body := json_dumps P (VDict [("error", VStr (str_exn e))]) |})).
  { intros w1 e H. rewrite handler_unfold, H. reflexivity. }
  split; [|split; [exact Hcaught|]].
  - rewrite handler_unfold.
    destruct (handler_try P event (received P event w)) as [w1 [r|e]] eqn:H.
    + exists w1, r. split; [reflexivity|].
      apply handler_try_run in H.
      destruct H as [[_ [[= ->] | [e [=]]]] | (a & c & f & _ & H)].
      * right. left. split; reflexivity.
      * inversion H; subst. left. split; [reflexivity|].
        eexists _, _. reflexivity.
    + eexists _, _. split; [reflexivity|].
      right. right. split; [reflexivity|]. exists e. reflexivity.
  - intros d e -> Hfail.
    assert (Hstaged : forall B ext,
      accepted P d w B ext ->
      exists ct fn w1,
        get_file_extension P ct fn (received P (VDict d) w)
        = (w1, Return ext) /\
        handler_try P (VDict d) (received P (VDict d) w)
        = transcribe_request P B ct fn (received P (VDict d) w)).
    { intros B ext (b & audio & ct & fn & w1 & Hb & Ha & HB & Hct & Hfn & Hext).
      exists ct, fn, w1. split; [exact Hext|].
      exact (handler_try_audio _ _ _ _ _ _ _ Hb Ha HB Hct Hfn). }
    destruct Hfail as
      [ s e Hraw Hdecl Hjson
      | raw e Hraw Hdecl HB
      | raw decoded e Hraw Hdecl HB Hjson
      | b audio e Hb Ha HB
      | b audio ct fn B w1 e Hb Ha HB Hct Hfn Hext
      | B ext e Hacc Hstem
      | B ext stem e partial Hacc Hstem Hfresh Hwrite
      | B ext stem e Hacc Hstem Hfresh Hwrite Hmodel Hremove
      | B ext stem e Hacc Hstem Hfresh Hwrite Hremove ].
    + eexists. apply Hcaught.
      rewrite handler_try_dict, run_lift_bind.
      unfold spec_logical_body. rewrite Hraw, Hdecl. cbn [loads].
      rewrite Hjson. reflexivity.
    + eexists. apply Hcaught.
      rewrite handler_try_dict, run_lift_bind.
      unfold spec_logical_body. rewrite Hraw, Hdecl, HB, bind_Raise.
      reflexivity.
    + eexists. apply Hcaught.
      rewrite handler_try_dict, run_lift_bind.
      unfold spec_logical_body. rewrite Hraw, Hdecl, HB, bind_Return, Hjson.
      reflexivity.
    + eexists. apply Hcaught.
      rewrite handler_try_dict, run_lift_bind, Hb.
      unfold spec_process, spec_audio_of. rewrite run_lift_bind.
      cbn [contains getitem get]. rewrite Ha, !bind_Return, HB, bind_Raise.
      reflexivity.
    + eexists. apply Hcaught.
      rewrite (handler_try_audio _ _ _ _ _ _ _ Hb Ha HB Hct Hfn).
      apply staging_no_extension. exact Hext.
    + destruct (Hstaged _ _ Hacc) as (ct & fn & w1 & Hext & Hrun).
      eexists. apply Hcaught. rewrite Hrun.
      apply (staging_no_name P _ _ _ _ _ _ Hext).
      rewrite (get_file_extension_disk _ _ _ _ _ Hext). exact Hstem.
    + destruct (Hstaged _ _ Hacc) as (ct & fn & w1 & Hext & Hrun).
      pose proof (get_file_extension_disk _ _ _ _ _ Hext) as Hdisk.
      cbn [fs received] in Hdisk.
      eexists. apply Hcaught. rewrite Hrun.
      apply (staging_write_fails P _ _ _ _ _ _ Hext stem);
        rewrite Hdisk; eassumption.
    + destruct (Hstaged _ _ Hacc) as (ct & fn & w1 & Hext & Hrun).
      eexists. apply Hcaught. rewrite Hrun.
      rewrite (transcribe_request_written _ _ _ _ _ _ _ Hext Hstem Hfresh Hwrite).
      cbv zeta. cbn [fs received]. rewrite Hmodel, Hremove. reflexivity.
    + destruct (Hstaged _ _ Hacc) as (ct & fn & w1 & Hext & Hrun).
      pose proof (transcribe_request_written _ _ _ _ _ _ _
                    Hext Hstem Hfresh Hwrite) as Hwritten.
      cbv zeta in Hwritten. cbn [fs received] in Hwritten.
      rewrite Hremove in Hwritten. rewrite <- Hrun in Hwritten.
      destruct (transcribe P _ _); eexists; apply Hcaught; exact Hwritten.
Qed.

(** C4, as amended.  Take an event whose logical body carries the
    base64 text of the bytes [B], for which the extension resolves and
    the temporary file is created and written.  When the model, called
    on that file, which then holds exactly [B], raises no exception and
    the file is removed afterwards without error, the handler returns
    the response with status 200 and the body made of the text the model
    returned, the configured model size and the resolved extension
    without its leading dot; it has created the file, written [B] to it,
    called the model on it and removed it, and the disk is as before. *)
Theorem transcription_round_trip (d b : list (string * value))
    (audio content_type filename : value) (B : list byte)
    (w w1 : World) (file_ext stem : string) (t : transcript) :
  spec_logical_body P d = Return (VDict b) ->
  dict_lookup "audio" b = Some audio ->
  Base64.b64decode audio = Return B ->
  get (VDict b) "contentType" VNone = Return content_type ->
  get (VDict b) "filename" VNone = Return filename ->
  get_file_extension P content_type filename (received P (VDict d) w)
  = (w1, Return file_ext) ->
  tmp_stem P (fs w) file_ext = Return stem ->
  let name := stem +:+ file_ext in
  let staged := <[name := B]> (fs w) in
  fs w !! name = None ->
  write_fault P (<[name := []]> (fs w)) name B = None ->
  transcribe P staged name = Return t ->
  remove_fault P staged name = None ->
  staged !! name = Some B /\
  exists rest,
    file_ext = String "." rest /\
    handler P (VDict d) w
    = ({| fs := fs w;
          trace := trace w1 ++
            [Created name; Wrote name B;
             Log INFO (Transcribing file_ext (MODEL_SIZE P));
             Transcribed name (Some B) (Return t);
             Log INFO (Transcription_complete (text t));
             Removed name] |},
       Return {| statusCode := 200;
                 body := json_dumps P
                           (VDict [("transcription", VStr (text t));
                                   ("model", VStr (MODEL_SIZE P));
                                   ("fileType", VStr rest)]) |}).
Proof.
  intros Hbody Haudio HB Hct Hfn Hext Hstem name staged Hfresh Hwrite
    Hmodel Hremove.
  split; [apply lookup_insert_eq|].
  destruct (get_file_extension_run P _ _ _ _ _ Hext) as [_ Hdot].
  destruct (Hdot file_ext eq_refl) as [rest ->].
  exists rest. split; [reflexivity|].
  rewrite handler_unfold.
  rewrite (handler_try_audio _ _ _ _ _ _ _ Hbody Haudio HB Hct Hfn).
  rewrite (transcribe_request_written _ _ _ _ _ _ _ Hext Hstem Hfresh Hwrite).
  cbv zeta. cbn [fs received]. fold name. fold staged.
  rewrite Hmodel, Hremove. reflexivity.
Qed.

(** C10. The check for the audio looks at the key only.  For an event
    whose logical body maps [audio] to the empty string, the handler
    does not answer 400; the bytes it decodes are none; and when the
    extension resolves and the temporary file can be created and
    written, the file it writes is empty and the model is called on
    it. *)
Theorem empty_audio_is_transcribed (d b : list (string * value))
    (content_type filename : value) (w : World) :
  spec_logical_body P d = Return (VDict b) ->
  dict_lookup "audio" b = Some (VStr "") ->
  get (VDict b) "contentType" VNone = Return content_type ->
  get (VDict b) "filename" VNone = Return filename ->
  Base64.b64decode (VStr "") = Return [] /\
  (exists w' r,
      handler P (VDict d) w = (w', Return r) /\ statusCode r <> 400%Z) /\
  (forall w1 file_ext stem,
      get_file_extension P content_type filename (received P (VDict d) w)
      = (w1, Return file_ext) ->
      tmp_stem P (fs w1) file_ext = Return stem ->
      fs w1 !! (stem +:+ file_ext) = None ->
      write_fault P (<[stem +:+ file_ext := []]> (fs w1))
        (stem +:+ file_ext) [] = None ->
      exists w' r outcome rest,
        handler P (VDict d) w = (w', r) /\
        trace w' = trace w1 ++
                   [Created (stem +:+ file_ext);
                    Wrote (stem +:+ file_ext) [];
                    Log INFO (Transcribing file_ext (MODEL_SIZE P));
                    Transcribed (stem +:+ file_ext) (Some []) outcome]
                   ++ rest).
Proof.
  intros Hbody Haudio Hct Hfn.
  split; [reflexivity|].
  assert (Hrun : forall w0,
    handler_try P (VDict d) w0
    = transcribe_request P [] content_type filename w0).
  { intros w0.
    exact (handler_try_audio _ _ _ _ _ _ _ Hbody Haudio eq_refl Hct Hfn). }
  split.
  - rewrite handler_unfold, Hrun.
    destruct (transcribe_request P [] _ _ _) as [w2 [r2|e]] eqn:Hstaged.
    + exists w2, r2. split; [reflexivity|].
      apply transcribe_request_staging in Hstaged.
      inversion Hstaged; subst. discriminate.
    + eexists _, _. split; [reflexivity | discriminate].
  - intros w1 file_ext stem Hext Hstem Hfresh Hwrite.
    rewrite handler_unfold, Hrun.
    rewrite (staging_written P _ _ _ _ _ _ Hext _ Hstem Hfresh Hwrite).
    cbv zeta.
    destruct (transcribe P _ _) as [t|e]; destruct (remove_fault P _ _).
    all: eexists _, _, _, _; split; [reflexivity|];
      cbn [trace failed]; rewrite <- ?app_assoc; reflexivity.
Qed.

(** Once the audio has been written, the file is gone when the handler
    returns, whether the model answered or failed, unless removing it
    failed: then it is still there, with the audio in it, and the
    response is the one for that failure. *)
Lemma temp_file_removed_once_written (event : value) (w w' : World)
    (r : result response) (suffix : list effect) (name : string)
    (data : list byte) :
  handler P event w = (w', r) ->
  trace w' = trace w ++ suffix ->
  In (Wrote name data) suffix ->
  (fs w' !! name = None /\ In (Removed name) suffix) \/
  (exists e, fs w' !! name = Some data /\ In (RemoveFailed name e) suffix /\
             r = Return (error_response P e)).
Proof.
  rewrite handler_unfold.
  destruct (handler_try P event (received P event w)) as [w2 r2] eqn:Hrun.
  apply handler_try_run in Hrun.
  destruct Hrun as [[-> Hr] | (a & c & f & _ & Hrun)].
  - destruct Hr as [-> | [e ->]]; intros [= <- <-] Htrace Hin;
      added_effects Htrace Hin suffix.
  - inversion Hrun as
      [ w1 e Hw1
      | w1 ext stem e partial Hext Hfresh
      | w1 ext stem t' Hext Hfresh Hmodel
      | w1 ext stem e Hext Hfresh Hmodel
      | w1 ext stem t' e Hext Hfresh Hmodel
      | w1 ext stem e' e Hext Hfresh Hmodel ]; subst w2 r2;
      try (destruct (get_file_extension_run P _ _ _ _ _ Hext) as [Hw1 _]);
      intros [= <- <-] Htrace Hin;
      (destruct Hw1 as [-> | ->]);
      added_effects Htrace Hin suffix.
    all: injection Hin as <- <-; cbn [fs failed];
      first
        [ left; split; [apply lookup_delete_eq | cbn [app In]; tauto]
        | right; exists e; split; [apply lookup_insert_eq|];
          split; [cbn [app In]; tauto | reflexivity] ].
Qed.

(** When writing the audio fails, the file created for it is still there
    when the handler returns. *)
Lemma temp_file_left_after_failed_write (event : value) (w w' : World)
    (r : result response) (suffix : list effect) (name : string) (e : exn) :
  handler P event w = (w', r) ->
  trace w' = trace w ++ suffix ->
  In (WriteFailed name e) suffix ->
  is_Some (fs w' !! name) /\ In (Created name) suffix /\
  ~ In (Removed name) suffix /\ r = Return (error_response P e).
Proof.
  rewrite handler_unfold.
  destruct (handler_try P event (received P event w)) as [w2 r2] eqn:Hrun.
  apply handler_try_run in Hrun.
  destruct Hrun as [[-> Hr] | (a & c & f & _ & Hrun)].
  - destruct Hr as [-> | [e' ->]]; intros [= <- <-] Htrace Hin;
      added_effects Htrace Hin suffix.
  - inversion Hrun as
      [ w1 e' Hw1
      | w1 ext stem e' partial Hext Hfresh
      | w1 ext stem t' Hext Hfresh Hmodel
      | w1 ext stem e' Hext Hfresh Hmodel
      | w1 ext stem t' e' Hext Hfresh Hmodel
      | w1 ext stem e'' e' Hext Hfresh Hmodel ]; subst w2 r2;
      try (destruct (get_file_extension_run P _ _ _ _ _ Hext) as [Hw1 _]);
      intros [= <- <-] Htrace Hin;
      (destruct Hw1 as [-> | ->]);
      added_effects Htrace Hin suffix.
    all: injection Hin as <- <-; cbn [fs failed app In];
      rewrite lookup_insert_eq;
      repeat split; eauto;
      intros Hrem;
      repeat (destruct Hrem as [Hrem | Hrem]; try discriminate Hrem);
      contradiction.
Qed.

End Transcribing.

Lemma handler_catches_everything_witness :
  let malformed := [("body", VStr "not json")] in
  let spoken := [("audio", VStr Demo.riff)] in
  (exists w1,
      handler Demo.platform (VDict malformed) Demo.start
      = ({| fs := fs w1;
            trace := trace w1 ++
              [Log ERROR (Error_processing
                            "Expecting value: line 1 column 1 (char 0)")] |},
         Return {| statusCode := 500;
                   body := Demo.print
                             (VDict [("error",
                                      VStr "Expecting value: line 1 column 1 (char 0)")]) |})) /\
  (exists w1,
      handler Demo.broken_model (VDict spoken) Demo.start
      = ({| fs := fs w1;
            trace := trace w1 ++
              [Log ERROR (Error_processing "Failed to load audio")] |},
         Return {| statusCode := 500;
                   body := Demo.print
                             (VDict [("error", VStr "Failed to load audio")]) |})) /\
  (exists w1,
      handler Demo.no_unlink (VDict spoken) Demo.start
      = ({| fs := fs w1;
            trace := trace w1 ++
              [Log ERROR
                 (Error_processing
                    "[Errno 1] Operation not permitted: '/tmp/tmpq0f3k6zd.wav'")] |},
         Return {| statusCode := 500;
                   body := Demo.print
                             (VDict [("error",
                                      VStr "[Errno 1] Operation not permitted: '/tmp/tmpq0f3k6zd.wav'")]) |})).
Proof.
  intros malformed spoken.
  pose (B := ["R"%byte; "I"%byte; "F"%byte; "F"%byte]).
  assert (Haccepted : forall P : Platform,
    accepted P spoken Demo.start B ".wav").
  { intros P. exists spoken, (VStr Demo.riff), VNone, VNone.
    eexists. repeat split; reflexivity. }
  split; [|split].
  - apply (proj2 (proj2 (handler_catches_everything Demo.platform
                           (VDict malformed) Demo.start))
             malformed
             (ValueError "Expecting value: line 1 column 1 (char 0)")
             eq_refl).
    apply (json_malformed _ _ _ "not json"); reflexivity.
  - apply (proj2 (proj2 (handler_catches_everything Demo.broken_model
                           (VDict spoken) Demo.start))
             spoken (Other "RuntimeError" "Failed to load audio") eq_refl).
    apply (transcribing_raises _ _ _ B ".wav" Demo.stem);
      [apply Haccepted | reflexivity ..].
  - apply (proj2 (proj2 (handler_catches_everything Demo.no_unlink
                           (VDict spoken) Demo.start))
             spoken
             (OSError "[Errno 1] Operation not permitted: '/tmp/tmpq0f3k6zd.wav'")
             eq_refl).
    apply (removing_raises _ _ _ B ".wav" Demo.stem);
      [apply Haccepted | reflexivity ..].
Defined.

Lemma transcription_round_trip_witness :
  let event := [("audio", VStr Demo.riff); ("contentType", VStr "audio/wav")] in
  let B := ["R"%byte; "I"%byte; "F"%byte; "F"%byte] in
  let name := Demo.stem +:+ ".wav" in
  let w0 := received Demo.platform (VDict event) Demo.start in
  (<[name := B]> (fs Demo.start) : gmap string (list byte)) !! name = Some B /\
  exists rest,
    ".wav" = String "." rest /\
    handler Demo.platform (VDict event) Demo.start
    = ({| fs := fs Demo.start;
          trace := trace w0 ++
            [Created name; Wrote name B;
             Log INFO (Transcribing ".wav" (MODEL_SIZE Demo.platform));
             Transcribed name (Some B) (Return {| text := "hello world" |});
             Log INFO (Transcription_complete "hello world");
             Removed name] |},
       Return {| statusCode := 200;
                 body := json_dumps Demo.platform
                           (VDict [("transcription", VStr "hello world");
                                   ("model", VStr (MODEL_SIZE Demo.platform));
                                   ("fileType", VStr rest)]) |}).
Proof.
  intros event B name w0.
  apply (transcription_round_trip Demo.platform event event
           (VStr Demo.riff) (VStr "audio/wav") VNone B Demo.start w0
           ".wav" Demo.stem {| text := "hello world" |});
    reflexivity.
Defined.

(** C4, as stated, fails when the temporary file cannot be removed.  The
    event carries the base64 text of the bytes [RIFF]; the file is
    created and written; the model is called on it, raises nothing and
    returns its text; then unlinking the file raises.  The handler does
    not return status 200 with the transcription: it returns status 500
    with the text of that error, and the file, holding the audio, is
    still on the disk. *)
Lemma transcription_lost_when_removal_fails :
  let event := VDict [("audio", VStr Demo.riff);
                      ("contentType", VStr "audio/wav")] in
  let B := ["R"%byte; "I"%byte; "F"%byte; "F"%byte] in
  let name := "/tmp/tmpq0f3k6zd.wav" in
  let run := handler Demo.no_unlink event Demo.start in
  Base64.b64decode (VStr Demo.riff) = Return B /\
  transcribe Demo.no_unlink (<[name := B]> (fs Demo.start)) name
  = Return {| text := "hello world" |} /\
  In (Transcribed name (Some B) (Return {| text := "hello world" |}))
    (trace (fst run)) /\
  snd run
  = Return {| statusCode := 500;
              body := Demo.print
                        (VDict [("error",
                                 VStr "[Errno 1] Operation not permitted: '/tmp/tmpq0f3k6zd.wav'")]) |} /\
  (forall r, snd run = Return r -> statusCode r <> 200%Z) /\
  fs (fst run) !! name = Some B.
Proof.
  vm_compute. repeat split; try tauto.
  intros r [= <-]. discriminate.
Qed.

Lemma empty_audio_is_transcribed_witness :
  let event := VDict [("body", VStr Demo.empty_audio_text)] in
  let name := Demo.stem +:+ ".wav" in
  (exists w' r,
      handler Demo.platform event Demo.start = (w', Return r) /\
      statusCode r <> 400%Z) /\
  (exists w' r outcome rest,
      handler Demo.platform event Demo.start = (w', r) /\
      trace w'
      = trace (could_not_determine VNone VNone
                 (received Demo.platform event Demo.start)) ++
        [Created name; Wrote name [];
         Log INFO (Transcribing ".wav" (MODEL_SIZE Demo.platform));
         Transcribed name (Some []) outcome] ++ rest).
Proof.
  intros event name.
  pose proof (empty_audio_is_transcribed Demo.platform
                [("body", VStr Demo.empty_audio_text)] [("audio", VStr "")]
                VNone VNone Demo.start eq_refl eq_refl eq_refl eq_refl)
    as (_ & Hstatus & Hcalled).
  split; [exact Hstatus|].
  apply (Hcalled _ ".wav" Demo.stem); reflexivity.
Defined.

(** C1, at a write that fails.  The disk is full: the temporary file is
    created, writing the audio to it raises, and the handler answers 500.
    The file it created is still on the disk after it has returned. *)
Theorem temp_file_left_when_write_fails :
  let event := VDict [("audio", VStr Demo.riff);
                      ("contentType", VStr "audio/wav")] in
  let name := "/tmp/tmpq0f3k6zd.wav" in
  let w' := fst (handler Demo.disk_full event Demo.start) in
  snd (handler Demo.disk_full event Demo.start)
  = Return (error_response Demo.disk_full
              (OSError "[Errno 28] No space left on device")) /\
  Demo.start.(fs) !! name = None /\
  In (Created name) (trace w') /\
  fs w' !! name = Some [].
Proof. vm_compute. tauto. Qed.


(** ** The scenarios of the specification, run on the stand-in platform *)

(** A direct invocation with a WAV content type and a model that answers
    [hello world]: status 200, file type [wav], and an empty disk
    afterwards. *)
Example scenario_direct_invocation :
  let run := handler Demo.platform
               (VDict [("audio", VStr Demo.riff);
                       ("contentType", VStr "audio/wav")]) Demo.start in
  snd run
  = Return {| statusCode := 200;
              body := Demo.print
                        (VDict [("transcription", VStr "hello world");
                                ("model", VStr "tiny.en");
                                ("fileType", VStr "wav")]) |} /\
  fs (fst run) = ∅.
Proof. vm_compute. split; reflexivity. Qed.

(** A gateway-wrapped invocation, base64-encoded, whose body has an
    [audio] field and nothing else: the extension defaults to [.wav]. *)
Example scenario_gateway_invocation :
  let run := handler Demo.platform
               (VDict [("body", VStr "eyJhdWRpbyI6ICIifQ==");
                       ("isBase64Encoded", VBool true)]) Demo.start in
  snd run
  = Return {| statusCode := 200;
              body := Demo.print
                        (VDict [("transcription", VStr "hello world");
                                ("model", VStr "tiny.en");
                                ("fileType", VStr "wav")]) |} /\
  In (Created "/tmp/tmpq0f3k6zd.wav") (trace (fst run)).
Proof. vm_compute. split; [reflexivity | tauto]. Qed.

(** The empty event: status 400 with the fixed body. *)
Example scenario_empty_event :
  snd (handler Demo.platform (VDict []) Demo.start)
  = Return {| statusCode := 400;
              body := Demo.print
                        (VDict [("error", VStr "No audio data provided")]) |}.
Proof. reflexivity. Qed.

(** The model raises: status 500 with the message of the exception, and
    the temporary file is removed all the same. *)
Example scenario_model_raises :
  let run := handler Demo.broken_model
               (VDict [("audio", VStr Demo.riff)]) Demo.start in
  snd run
  = Return {| statusCode := 500;
              body := Demo.print
                        (VDict [("error", VStr "Failed to load audio")]) |} /\
  In (Removed "/tmp/tmpq0f3k6zd.wav") (trace (fst run)) /\
  fs (fst run) = ∅.
Proof. vm_compute. repeat split; tauto. Qed.

(** Failures of every kind end as status 500: a body that is not JSON, a
    body that is not a string, a body that is not base64, audio that is not
    base64, audio that is not a string, a content type that cannot be
    hashed, a filename that is not a string, an event that is not an
    object, no temporary directory, a full disk, a failing model. *)
Example failures_are_500 :
  map Demo.status
    [ handler Demo.platform (VDict [("body", VStr "not json")]) Demo.start;
      handler Demo.platform (VDict [("body", VNone)]) Demo.start;
      handler Demo.platform
        (VDict [("body", VStr "e30"); ("isBase64Encoded", VBool true)])
        Demo.start;
      handler Demo.platform (VDict [("audio", VStr "A")]) Demo.start;
      handler Demo.platform (VDict [("audio", VInt 7)]) Demo.start;
      handler Demo.platform
        (VDict [("audio", VStr Demo.riff); ("contentType", VList [VStr "x"])])
        Demo.start;
      handler Demo.platform
        (VDict [("audio", VStr Demo.riff); ("filename", VInt 5)]) Demo.start;
      handler Demo.platform (VList [VStr "body"]) Demo.start;
      handler Demo.platform (VInt 5) Demo.start;
      handler Demo.no_temp_dir (VDict [("audio", VStr Demo.riff)]) Demo.start;
      handler Demo.disk_full (VDict [("audio", VStr Demo.riff)]) Demo.start;
      handler Demo.broken_model (VDict [("audio", VStr Demo.riff)]) Demo.start ]
  = repeat 500%Z 12.
Proof. vm_compute. reflexivity. Qed.

(** * More properties *)

(** ** Whole invocations *)

Lemma added_app (w : World) (disk : gmap string (list byte))
    (l : list effect) :
  added w {| fs := disk; trace := trace w ++ l |} = l.
Proof. unfold added. cbn [trace]. apply drop_app_length. Qed.

Section Invocations.

Variable P : Platform.

Lemma fallback_log_run (content_type filename : value) (w w1 : World)
    (r : result string) :
  get_file_extension P content_type filename w = (w1, r) ->
  exists logged,
    fallback_log logged /\
    w1 = {| fs := fs w; trace := trace w ++ logged |}.
Proof.
  intros H. apply get_file_extension_run in H. destruct H as [[-> | ->] _].
  - exists []. split; [left; reflexivity|].
    rewrite app_nil_r. destruct w; reflexivity.
  - eexists. split; [right; eauto|]. reflexivity.
Qed.

(** Every invocation logs the event and then takes one of the seven
    shapes. *)
Lemma handler_invocation (event : value) (w : World) :
  exists effects disk' r,
    handler P event w
    = ({| fs := disk';
          trace := trace w
                   ++ Log INFO (Received_event (json_dumps P event)) :: effects |},
       Return r) /\
    invocation P (fs w) effects disk' r.
Proof.
  rewrite handler_unfold. unfold handler_try. rewrite run_bind.
  destruct (read_request P event (received P event w)) as [w0 req] eqn:Hread.
  destruct (read_request_run _ _ _ _ _ Hread) as [-> Hearly].
  destruct req as [[early | [[audio_data content_type] filename]] | e].
  - rewrite run_ret, (Hearly early eq_refl).
    eexists [], _, _. split; [reflexivity | constructor].
  - destruct (get_file_extension P content_type filename
                (received P event w)) as [w1 [file_ext|e]] eqn:Hext.
    + destruct (fallback_log_run _ _ _ _ _ Hext) as (logged & Hlogged & Hw1).
      assert (Hfs : fs w1 = fs w) by (rewrite Hw1; reflexivity).
      assert (Hres : resolved P file_ext) by (do 4 eexists; exact Hext).
      assert (Htr : trace w1
                    = trace w
                      ++ Log INFO (Received_event (json_dumps P event)) :: logged).
      { rewrite Hw1. cbn [trace received]. rewrite <- app_assoc. reflexivity. }
      destruct (tmp_stem P (fs w1) file_ext) as [stem|e] eqn:Hstem.
      * destruct (fs w1 !! (stem +:+ file_ext)) as [old|] eqn:Hfresh.
        -- erewrite staging_name_taken by eassumption.
           eexists (logged ++ [_]), _, _. split; [|constructor; exact Hlogged].
           unfold failed. cbn [fs trace]. rewrite Hfs, Htr, <- app_assoc.
           reflexivity.
        -- destruct (write_fault P (<[stem +:+ file_ext := []]> (fs w1))
                       (stem +:+ file_ext) audio_data)
             as [[e partial]|] eqn:Hwrite.
           ++ erewrite staging_write_fails by eassumption.
              eexists (logged ++ [_; _; _]), _, _.
              split; [|apply failed_writing with (partial := partial);
                       [exact Hlogged | exact Hres | rewrite <- Hfs; exact Hstem
                       | rewrite <- Hfs; exact Hfresh]].
              unfold failed. cbn [fs trace].
              rewrite fresh_insert_insert, Hfs, Htr, <- !app_assoc.
              reflexivity.
           ++ erewrite staging_written by eassumption. cbv zeta.
              destruct (transcribe P _ _) as [t|e];
                destruct (remove_fault P _ _) as [e2|].
              ** eexists (logged ++ [_; _; _; _; _; _; _]), _, _.
                 split; [|apply failed_removing;
                          [exact Hlogged | exact Hres | rewrite <- Hfs; exact Hstem
                          | rewrite <- Hfs; exact Hfresh]].
                 unfold failed. cbn [fs trace].
                 rewrite fresh_insert_insert, Hfs, Htr, <- !app_assoc.
                 reflexivity.
              ** eexists (logged ++ [_; _; _; _; _; _]), _, _.
                 split; [|apply answered;
                          [exact Hlogged | exact Hres | rewrite <- Hfs; exact Hstem
                          | rewrite <- Hfs; exact Hfresh]].
                 rewrite (fresh_delete_insert _ _ _ _ Hfresh), Hfs, Htr,
                   <- !app_assoc.
                 reflexivity.
              ** eexists (logged ++ [_; _; _; _; _; _]), _, _.
                 split; [|apply failed_transcribing_and_removing;
                          [exact Hlogged | exact Hres | rewrite <- Hfs; exact Hstem
                          | rewrite <- Hfs; exact Hfresh]].
                 unfold failed. cbn [fs trace].
                 rewrite fresh_insert_insert, Hfs, Htr, <- !app_assoc.
                 reflexivity.
              ** eexists (logged ++ [_; _; _; _; _; _]), _, _.
                 split; [|apply failed_transcribing;
                          [exact Hlogged | exact Hres | rewrite <- Hfs; exact Hstem
                          | rewrite <- Hfs; exact Hfresh]].
                 unfold failed. cbn [fs trace].
                 rewrite (fresh_delete_insert _ _ _ _ Hfresh), Hfs, Htr,
                   <- !app_assoc.
                 reflexivity.
      * erewrite staging_no_name by eassumption.
        eexists (logged ++ [_]), _, _. split; [|constructor; exact Hlogged].
        unfold failed. cbn [fs trace]. rewrite Hfs, Htr, <- app_assoc.
        reflexivity.
    + destruct (fallback_log_run _ _ _ _ _ Hext) as (logged & Hlogged & Hw1).
      erewrite staging_no_extension by eassumption.
      eexists (logged ++ [_]), _, _. split; [|constructor; exact Hlogged].
      rewrite Hw1. unfold failed. cbn [fs trace received].
      rewrite <- !app_assoc. reflexivity.
  - eexists ([] ++ [_]), _, _. split; [|constructor; left; reflexivity].
    unfold failed. cbn [fs trace received app]. rewrite <- app_assoc.
    reflexivity.
Qed.

End Invocations.

Section WholeInvocations.

Variable P : Platform.

(** X1. On every invocation, whatever the event and whatever fails, the
    first thing added to the log is the JSON dump of the whole event. *)
Theorem event_is_logged_first (event : value) (w : World) :
  exists rest,
    added w (fst (handler P event w))
    = Log INFO (Received_event (json_dumps P event)) :: rest.
Proof.
  destruct (handler_invocation P event w) as (effects & disk' & r & -> & _).
  exists effects. cbn [fst]. apply added_app.
Qed.

(** X2. No invocation changes or removes a file that was on the disk
    before it. *)
Theorem existing_files_untouched (event : value) (w : World) (path : string)
    (content : list byte) :
  fs w !! path = Some content ->
  fs (fst (handler P event w)) !! path = Some content.
Proof.
  intros Hpath.
  destruct (handler_invocation P event w) as (effects & disk' & r & -> & Hinv).
  cbn [fst fs]. inversion Hinv; subst; try exact Hpath.
  all: rewrite lookup_insert_ne; [exact Hpath | congruence].
Qed.

(** X3. An invocation leaves the disk exactly as it found it, except when
    writing the audio or removing the temporary file failed: then, and
    only then, the disk has changed (by the file that was created). *)
Theorem disk_restored_unless_file_operation_fails (event : value) (w : World) :
  fs (fst (handler P event w)) = fs w <->
  existsb is_write_failure (added w (fst (handler P event w))) = false /\
  existsb is_remove_failure (added w (fst (handler P event w))) = false.
Proof.
  destruct (handler_invocation P event w) as (effects & disk' & r & -> & Hinv).
  cbn [fst fs]. rewrite added_app.
  cbn [existsb is_write_failure is_remove_failure orb].
  assert (Hchanged : forall name content,
    fs w !! name = None -> <[name := content]> (fs w) <> fs w).
  { intros name content Hfresh Heq.
    assert (H : <[name := content]> (fs w) !! name = Some content)
      by apply lookup_insert_eq.
    rewrite Heq in H. congruence. }
  inversion Hinv as
    [ | logged e Hl | logged ext stem e partial Hl Hres Hstem Hfresh
      | logged ext stem B t Hl Hres Hstem Hfresh
      | logged ext stem B e Hl Hres Hstem Hfresh
      | logged ext stem B t e Hl Hres Hstem Hfresh
      | logged ext stem B e' e Hl Hres Hstem Hfresh ]; subst.
  - tauto.
  - destruct Hl as [-> | (c & f & ->)]; cbn; tauto.
  - split; [intros Heq; exfalso; exact (Hchanged _ _ Hfresh Heq)|].
    destruct Hl as [-> | (c & f & ->)]; cbn; intros [H _]; discriminate H.
  - destruct Hl as [-> | (c & f & ->)]; cbn; tauto.
  - destruct Hl as [-> | (c & f & ->)]; cbn; tauto.
  - split; [intros Heq; exfalso; exact (Hchanged _ _ Hfresh Heq)|].
    destruct Hl as [-> | (c & f & ->)]; cbn; intros [_ H]; discriminate H.
  - split; [intros Heq; exfalso; exact (Hchanged _ _ Hfresh Heq)|].
    destruct Hl as [-> | (c & f & ->)]; cbn; intros [_ H]; discriminate H.
Qed.

(** X4. A response with status 200 is returned only after the audio has
    been written to a new file, the model has been called on that file and
    has returned, and the file has been removed; the disk is then as
    before. *)
Theorem status_200_means_transcribed (event : value) (w w' : World)
    (r : response) :
  handler P event w = (w', Return r) ->
  statusCode r = 200%Z ->
  fs w' = fs w /\
  exists logged name file_ext audio_data t,
    fallback_log logged /\
    fs w !! name = None /\
    r = ok_response P t file_ext /\
    added w w'
    = Log INFO (Received_event (json_dumps P event)) :: logged ++
      [Created name; Wrote name audio_data;
       Log INFO (Transcribing file_ext (MODEL_SIZE P));
       Transcribed name (Some audio_data) (Return t);
       Log INFO (Transcription_complete (text t));
       Removed name].
Proof.
  destruct (handler_invocation P event w) as (effects & disk' & r' & -> & Hinv).
  intros [= <- <-] Hstatus. cbn [fs]. rewrite added_app.
  inversion Hinv; subst; try discriminate Hstatus.
  split; [reflexivity|]. eexists _, _, _, _, _. eauto.
Qed.

(** X5. A response with status 400 is only ever the answer to missing
    audio: its body is the fixed one, and the invocation has done nothing
    but log the event. *)
Theorem status_400_means_nothing_done (event : value) (w w' : World)
    (r : response) :
  handler P event w = (w', Return r) ->
  statusCode r = 400%Z ->
  r = no_audio P /\
  fs w' = fs w /\
  added w w' = [Log INFO (Received_event (json_dumps P event))].
Proof.
  destruct (handler_invocation P event w) as (effects & disk' & r' & -> & Hinv).
  intros [= <- <-] Hstatus. cbn [fs]. rewrite added_app.
  inversion Hinv; subst; try discriminate Hstatus. auto.
Qed.

(** X6. In one invocation at most one file is created and the model is
    called at most once, and then on the file created in that invocation,
    after the audio has been written to it: nothing is retried. *)
Theorem nothing_is_retried (event : value) (w : World) :
  let effects := added w (fst (handler P event w)) in
  length (List.filter is_created effects) <= 1 /\
  length (List.filter is_transcribed effects) <= 1 /\
  forall name content outcome,
    In (Transcribed name content outcome) effects ->
    fs w !! name = None /\
    exists audio_data before after,
      content = Some audio_data /\
      effects = before ++ [Created name; Wrote name audio_data] ++ after.
Proof.
  destruct (handler_invocation P event w) as (effects & disk' & r & -> & Hinv).
  cbn [fst]. rewrite added_app. cbv zeta.
  inversion Hinv as
    [ | logged e Hl | logged ext stem e partial Hl Hres Hstem Hfresh
      | logged ext stem B t Hl Hres Hstem Hfresh
      | logged ext stem B e Hl Hres Hstem Hfresh
      | logged ext stem B t e Hl Hres Hstem Hfresh
      | logged ext stem B e' e Hl Hres Hstem Hfresh ]; subst;
    try (destruct Hl as [-> | (c & f & ->)]);
    cbn [List.filter is_created is_transcribed app length];
    (split; [lia|]); (split; [lia|]);
    intros name content outcome Hin;
    cbn [In app] in Hin;
    repeat (destruct Hin as [Hin | Hin]; try discriminate Hin);
    try contradiction;
    injection Hin as <- <- <-;
    (split; [exact Hfresh|]).
  all: first [ eexists B, [_], _; split; reflexivity
             | eexists B, [_; _], _; split; reflexivity ].
Qed.

(** X7. An error is logged exactly when the response has status 500, and
    what is logged is the text that the response carries as its error. *)
Theorem error_logged_iff_500 (event : value) (w w' : World) (r : response) :
  handler P event w = (w', Return r) ->
  (existsb is_error_log (added w w') = true <-> statusCode r = 500%Z) /\
  forall message,
    In (Log ERROR (Error_processing message)) (added w w') ->
    r = {| statusCode := 500;
           body := json_dumps P (VDict [("error", VStr message)]) |}.
Proof.
  destruct (handler_invocation P event w) as (effects & disk' & r' & -> & Hinv).
  intros [= <- <-]. rewrite added_app.
  inversion Hinv as
    [ | logged e Hl | logged ext stem e partial Hl Hres Hstem Hfresh
      | logged ext stem B t Hl Hres Hstem Hfresh
      | logged ext stem B e Hl Hres Hstem Hfresh
      | logged ext stem B t e Hl Hres Hstem Hfresh
      | logged ext stem B e' e Hl Hres Hstem Hfresh ]; subst;
    try (destruct Hl as [-> | (c & f & ->)]);
    cbn [existsb is_error_log app orb statusCode error_response ok_response
           no_audio];
    (split; [split; first [reflexivity | discriminate | tauto]|]);
    intros message Hin; cbn [In app] in Hin;
    repeat (destruct Hin as [Hin | Hin]; try discriminate Hin);
    try contradiction;
    injection Hin as <-; reflexivity.
Qed.

End WholeInvocations.

Lemma existing_files_untouched_witness :
  let event := VDict [("audio", VStr Demo.riff)] in
  fs (fst (handler Demo.disk_full event Deploy.busy)) !! "/tmp/notes.txt"
  = Some ["h"%byte; "i"%byte].
Proof.
  intros event.
  apply (existing_files_untouched Demo.disk_full event Deploy.busy).
  reflexivity.
Defined.

Lemma disk_restored_unless_file_operation_fails_witness :
  let event := VDict [("audio", VStr Demo.riff)] in
  fs (fst (handler Demo.platform event Deploy.busy)) = fs Deploy.busy /\
  fs (fst (handler Demo.disk_full event Deploy.busy)) <> fs Deploy.busy /\
  fs (fst (handler Demo.no_unlink event Deploy.busy)) <> fs Deploy.busy.
Proof.
  intros event. split; [|split].
  - apply (proj2 (disk_restored_unless_file_operation_fails Demo.platform
                    event Deploy.busy)).
    vm_compute. split; reflexivity.
  - intros Hsame.
    apply (proj1 (disk_restored_unless_file_operation_fails Demo.disk_full
                    event Deploy.busy)) in Hsame.
    vm_compute in Hsame. destruct Hsame as [Hwrite _]. discriminate Hwrite.
  - intros Hsame.
    apply (proj1 (disk_restored_unless_file_operation_fails Demo.no_unlink
                    event Deploy.busy)) in Hsame.
    vm_compute in Hsame. destruct Hsame as [_ Hremove]. discriminate Hremove.
Defined.

Lemma status_200_means_transcribed_witness :
  let event := VDict [("audio", VStr Demo.riff);
                      ("contentType", VStr "audio/wav")] in
  let w' := fst (handler Demo.platform event Deploy.busy) in
  let r := ok_response Demo.platform {| text := "hello world" |} ".wav" in
  fs w' = fs Deploy.busy /\
  exists logged name file_ext audio_data t,
    fallback_log logged /\
    fs Deploy.busy !! name = None /\
    r = ok_response Demo.platform t file_ext /\
    added Deploy.busy w'
    = Log INFO (Received_event (json_dumps Demo.platform event)) :: logged ++
      [Created name; Wrote name audio_data;
       Log INFO (Transcribing file_ext (MODEL_SIZE Demo.platform));
       Transcribed name (Some audio_data) (Return t);
       Log INFO (Transcription_complete (text t));
       Removed name].
Proof.
  intros event w' r.
  apply (status_200_means_transcribed Demo.platform event Deploy.busy w' r).
  - vm_compute. reflexivity.
  - reflexivity.
Defined.

Lemma status_400_means_nothing_done_witness :
  let event := VDict [("contentType", VStr "audio/wav")] in
  let w' := fst (handler Demo.platform event Deploy.busy) in
  let r := {| statusCode := 400;
              body := Demo.print
                        (VDict [("error", VStr "No audio data provided")]) |} in
  r = no_audio Demo.platform /\
  fs w' = fs Deploy.busy /\
  added Deploy.busy w'
  = [Log INFO (Received_event (json_dumps Demo.platform event))].
Proof.
  intros event w' r.
  apply (status_400_means_nothing_done Demo.platform event Deploy.busy w' r).
  - vm_compute. reflexivity.
  - reflexivity.
Defined.

Lemma nothing_is_retried_witness :
  let event := VDict [("audio", VStr Demo.riff)] in
  let name := Demo.stem +:+ ".wav" in
  let B := ["R"%byte; "I"%byte; "F"%byte; "F"%byte] in
  fs Demo.start !! name = None /\
  exists audio_data before after,
    Some B = Some audio_data /\
    added Demo.start (fst (handler Demo.broken_model event Demo.start))
    = before ++ [Created name; Wrote name audio_data] ++ after.
Proof.
  intros event name B.
  apply (proj2 (proj2 (nothing_is_retried Demo.broken_model event Demo.start))
           name (Some B) (Raise (Other "RuntimeError" "Failed to load audio"))).
  vm_compute. tauto.
Defined.

Lemma error_logged_iff_500_witness :
  let event := VDict [("audio", VStr Demo.riff)] in
  let w' := fst (handler Demo.broken_model event Demo.start) in
  let r := error_response Demo.broken_model
             (Other "RuntimeError" "Failed to load audio") in
  statusCode r = 500%Z /\
  r = {| statusCode := 500;
         body := json_dumps Demo.broken_model
                   (VDict [("error", VStr "Failed to load audio")]) |}.
Proof.
  intros event w' r.
  assert (Hrun : handler Demo.broken_model event Demo.start = (w', Return r))
    by (vm_compute; reflexivity).
  destruct (error_logged_iff_500 Demo.broken_model event Demo.start w' r Hrun)
    as [Hstatus Hmessage].
  split.
  - apply (proj1 Hstatus). vm_compute. reflexivity.
  - apply (Hmessage "Failed to load audio"). vm_compute. tauto.
Defined.

(** ** Events and bodies of the wrong type *)

Section WrongTypes.

Variable P : Platform.

(** X9. An event that is not a JSON object never reaches the model.  If
    it is null, a boolean or a number, the membership test raises and the
    answer is 500.  If it is an array or a string, it is answered like an
    object without audio (400) unless it contains [body] or [audio], in
    which case one of the next accesses raises and the answer is 500. *)
Theorem non_object_events (event : value) (w : World) :
  (is_scalar event = true ->
   handler P event w
   = (failed (TypeError ("argument of type '" +:+ type_name event
                         +:+ "' is not iterable"))
        (received P event w),
      Return (error_response P
                (TypeError ("argument of type '" +:+ type_name event
                            +:+ "' is not iterable"))))) /\
  (is_sequence event = true ->
   contains "body" event = Return false ->
   contains "audio" event = Return false ->
   handler P event w = (received P event w, Return (no_audio P))) /\
  (is_sequence event = true ->
   contains "body" event = Return true \/
   contains "audio" event = Return true ->
   exists e,
     handler P event w
     = (failed e (received P event w), Return (error_response P e))).
Proof.
  rewrite handler_unfold. unfold handler_try, read_request.
  split; [|split].
  - destruct event; try discriminate; intros _; reflexivity.
  - destruct event; try discriminate; intros _ Hbody Haudio;
      rewrite run_bind, run_lift_bind, Hbody, run_lift_bind, Haudio;
      reflexivity.
  - destruct event; try discriminate; intros _ Hin;
      rewrite run_bind, run_lift_bind;
      match goal with
      | |- context [contains "body" ?v] =>
          destruct (contains "body" v) as [[|]|] eqn:Hbody;
            [ eexists; reflexivity
            | destruct Hin as [Hin | Hin]; [discriminate Hin|];
              rewrite run_lift_bind, Hin; eexists; reflexivity
            | discriminate Hbody ]
      end.
Qed.

(** X10. When the event has a [body] field that is not a string (as when
    a gateway passes a request without body on as null), the answer is
    500, with the [TypeError] of the base64 decoder when the event
    declares base64 and of the JSON parser otherwise; other fields of the
    event make no difference. *)
Theorem non_string_body_is_500 (d : list (string * value)) (raw : value)
    (w : World) :
  dict_lookup "body" d = Some raw ->
  is_str_value raw = false ->
  let e :=
    TypeError
      (if spec_declares_base64 d
       then "argument should be a bytes-like object or ASCII string, not '"
            +:+ type_name raw +:+ "'"
       else "the JSON object must be str, bytes or bytearray, not "
            +:+ type_name raw) in
  handler P (VDict d) w
  = (failed e (received P (VDict d) w), Return (error_response P e)).
Proof.
  intros Hraw Hstr e.
  rewrite handler_unfold, handler_try_dict, run_lift_bind.
  unfold spec_logical_body. rewrite Hraw. subst e.
  destruct (spec_declares_base64 d);
    destruct raw; try discriminate Hstr; reflexivity.
Qed.

(** X11. The audio comes through unchanged: when the logical body holds
    the base64 encoding of the bytes [B], the bytes that reading the
    request hands on are [B]. *)
Theorem encoded_audio_is_recovered (d b : list (string * value))
    (B : list byte) (w : World) :
  spec_logical_body P d = Return (VDict b) ->
  dict_lookup "audio" b = Some (VStr (Base64.b64encode B)) ->
  exists content_type filename,
    read_request P (VDict d) w = (w, Return (inr (B, content_type, filename))).
Proof.
  intros Hbody Haudio. rewrite read_request_dict, Hbody, bind_Return.
  rewrite (spec_audio_of_present P _ _ B Haudio (b64decode_b64encode B)).
  eauto.
Qed.

End WrongTypes.

Lemma non_object_events_witness :
  handler Demo.platform (VInt 5) Demo.start
  = (failed (TypeError "argument of type 'int' is not iterable")
       (received Demo.platform (VInt 5) Demo.start),
     Return (error_response Demo.platform
               (TypeError "argument of type 'int' is not iterable"))) /\
  handler Demo.platform (VList [VStr "speech"]) Demo.start
  = (received Demo.platform (VList [VStr "speech"]) Demo.start,
     Return (no_audio Demo.platform)) /\
  exists e,
    handler Demo.platform (VList [VStr "audio"]) Demo.start
    = (failed e (received Demo.platform (VList [VStr "audio"]) Demo.start),
       Return (error_response Demo.platform e)).
Proof.
  split; [|split].
  - apply (proj1 (non_object_events Demo.platform (VInt 5) Demo.start)).
    reflexivity.
  - apply (proj1 (proj2 (non_object_events Demo.platform
                           (VList [VStr "speech"]) Demo.start)));
      reflexivity.
  - apply (proj2 (proj2 (non_object_events Demo.platform
                           (VList [VStr "audio"]) Demo.start)));
      [reflexivity | right; reflexivity].
Defined.

Lemma non_string_body_is_500_witness :
  let event := [("body", VNone); ("audio", VStr Demo.riff)] in
  let e := TypeError
             "the JSON object must be str, bytes or bytearray, not NoneType" in
  handler Demo.platform (VDict event) Demo.start
  = (failed e (received Demo.platform (VDict event) Demo.start),
     Return (error_response Demo.platform e)).
Proof.
  intros event e.
  exact (non_string_body_is_500 Demo.platform event VNone Demo.start
           eq_refl eq_refl).
Defined.

Lemma encoded_audio_is_recovered_witness :
  let B := ["R"%byte; "I"%byte; "F"%byte; "F"%byte; "$"%byte] in
  let event := [("audio", VStr (Base64.b64encode B))] in
  exists content_type filename,
    read_request Demo.platform (VDict event) Demo.start
    = (Demo.start, Return (inr (B, content_type, filename))).
Proof.
  intros B event.
  apply (encoded_audio_is_recovered Demo.platform event event B Demo.start);
    reflexivity.
Defined.

(** ** More on base64 *)

Lemma a2b_loop_skipped (c : ascii) (rest : string) (quad_pos leftchar pads : N)
    (out : list byte) :
  skipped_char c = true ->
  Base64.a2b_loop (String c rest) quad_pos leftchar pads out
  = Base64.a2b_loop rest quad_pos leftchar pads out.
Proof.
  unfold skipped_char. intros H.
  apply andb_prop in H. destruct H as [H Htable].
  apply andb_prop in H. destruct H as [_ Hpad].
  apply negb_true_iff in Hpad.
  cbn [Base64.a2b_loop]. rewrite Hpad.
  destruct (Base64.table_a2b_base64 c); [discriminate Htable | reflexivity].
Qed.

Lemma a2b_loop_skip_inside (s1 s2 : string) (c : ascii)
    (quad_pos leftchar pads : N) (out : list byte) :
  skipped_char c = true ->
  Base64.a2b_loop (s1 +:+ String c s2) quad_pos leftchar pads out
  = Base64.a2b_loop (s1 +:+ s2) quad_pos leftchar pads out.
Proof.
  intros Hc. revert quad_pos leftchar pads out.
  induction s1 as [|a s1 IH]; intros quad_pos leftchar pads out.
  - change (EmptyString +:+ String c s2) with (String c s2).
    change (EmptyString +:+ s2) with s2.
    apply a2b_loop_skipped. exact Hc.
  - change (String a s1 +:+ String c s2) with (String a (s1 +:+ String c s2)).
    change (String a s1 +:+ s2) with (String a (s1 +:+ s2)).
    cbn [Base64.a2b_loop].
    destruct (Ascii.eqb a Base64.BASE64_PAD).
    + destruct (_ && _); [reflexivity | apply IH].
    + destruct (Base64.table_a2b_base64 a) as [v|]; [|apply IH].
      destruct quad_pos as [|[p|[p|p|]|]]; apply IH.
Qed.

Lemma is_ascii_skip_inside (s1 s2 : string) (c : ascii) :
  skipped_char c = true ->
  Base64.is_ascii (s1 +:+ String c s2) = Base64.is_ascii (s1 +:+ s2).
Proof.
  unfold skipped_char. intros H.
  apply andb_prop in H. destruct H as [H _].
  apply andb_prop in H. destruct H as [Hc _].
  induction s1 as [|a s1 IH].
  - change (EmptyString +:+ String c s2) with (String c s2).
    change (EmptyString +:+ s2) with s2.
    cbn [Base64.is_ascii]. rewrite Hc. reflexivity.
  - change (String a s1 +:+ String c s2) with (String a (s1 +:+ String c s2)).
    change (String a s1 +:+ s2) with (String a (s1 +:+ s2)).
    cbn [Base64.is_ascii]. rewrite IH. reflexivity.
Qed.

(** X12. The decoder of the audio is lenient: an ASCII character that is
    neither of the base64 alphabet nor the padding (a line break, a blank)
    is passed over wherever it stands; the text decodes as it does without
    it. *)
Theorem b64decode_skips_foreign_characters (s1 s2 : string) (c : ascii) :
  skipped_char c = true ->
  Base64.b64decode (VStr (s1 +:+ String c s2))
  = Base64.b64decode (VStr (s1 +:+ s2)).
Proof.
  intros Hc. unfold Base64.b64decode, Base64.a2b_base64.
  rewrite (is_ascii_skip_inside _ _ _ Hc), (a2b_loop_skip_inside _ _ _ _ _ _ _ Hc).
  reflexivity.
Qed.

Lemma a2b_loop_length (data : string) (quad_pos leftchar pads : N)
    (out : list byte) (taken : nat) :
  4 * length out + in_hand quad_pos <= 3 * taken ->
  4 * length (snd (Base64.a2b_loop data quad_pos leftchar pads out))
  <= 3 * (taken + String.length data).
Proof.
  revert quad_pos leftchar pads out taken.
  induction data as [|c data IH]; intros quad_pos leftchar pads out taken H.
  - cbn. lia.
  - cbn [Base64.a2b_loop String.length].
    replace (taken + S (String.length data))
      with (S taken + String.length data) by lia.
    destruct (Ascii.eqb c Base64.BASE64_PAD).
    + destruct (_ && _); [cbn; lia | apply IH; lia].
    + destruct (Base64.table_a2b_base64 c) as [v|]; [|apply IH; lia].
      destruct quad_pos as [|[p|[p|p|]|]]; apply IH;
        rewrite ?length_app; cbn [length in_hand] in *; lia.
Qed.

(** What the decoder returns is at most three quarters as long as the
    text it was given. *)
Lemma b64decode_length (s : string) (B : list byte) :
  Base64.b64decode (VStr s) = Return B ->
  4 * length B <= 3 * String.length s.
Proof.
  unfold Base64.b64decode, Base64.a2b_base64.
  destruct (Base64.is_ascii s); [|discriminate].
  pose proof (a2b_loop_length s 0 0 0 [] 0 ltac:(cbn; lia)) as H.
  destruct (Base64.a2b_loop s 0 0 0 []) as [quad_pos out].
  cbn [snd] in H.
  destruct (quad_pos =? 0)%N; [|destruct (quad_pos =? 1)%N; discriminate].
  intros [= <-]. lia.
Qed.

Lemma b64decode_skips_foreign_characters_witness :
  Base64.b64decode (VStr ("UklG" +:+ String "010" "Rg=="))
  = Base64.b64decode (VStr ("UklG" +:+ "Rg==")).
Proof.
  apply (b64decode_skips_foreign_characters "UklG" "Rg==" "010").
  reflexivity.
Defined.

Section WrittenAudio.

Variable P : Platform.

(** X13. The only thing an invocation ever writes is the decoded audio
    of its own request: when the logical body holds the text [s] as
    [audio], whatever has been written to a file in that invocation is
    the base64 decoding of [s], and so at most three quarters as long as
    [s]. *)
Theorem written_audio_is_decoded (d b : list (string * value)) (s : string)
    (w : World) (name : string) (data : list byte) :
  spec_logical_body P d = Return (VDict b) ->
  dict_lookup "audio" b = Some (VStr s) ->
  In (Wrote name data) (added w (fst (handler P (VDict d) w))) ->
  Base64.b64decode (VStr s) = Return data /\
  4 * length data <= 3 * String.length s.
Proof.
  intros Hbody Haudio.
  rewrite handler_unfold, handler_try_dict, run_lift_bind, Hbody.
  unfold spec_process. rewrite run_lift_bind.
  destruct (Base64.b64decode (VStr s)) as [B|e] eqn:HB.
  - rewrite (spec_audio_of_present _ _ _ _ Haudio HB).
    set (ct := match dict_lookup "contentType" b with Some x => x | None => VNone end).
    set (fn := match dict_lookup "filename" b with Some x => x | None => VNone end).
    set (w0 := received P (VDict d) w).
    destruct (transcribe_request P B ct fn w0) as [w2 r2] eqn:Hrun.
    apply transcribe_request_staging in Hrun.
    inversion Hrun as
      [ w1 e Hw1
      | w1 ext stem e partial Hext Hfresh
      | w1 ext stem t' Hext Hfresh Hmodel
      | w1 ext stem e Hext Hfresh Hmodel
      | w1 ext stem t' e Hext Hfresh Hmodel
      | w1 ext stem e' e Hext Hfresh Hmodel ]; subst w2 r2;
      try (destruct (get_file_extension_run P _ _ _ _ _ Hext) as [Hw1 _]);
      (destruct Hw1 as [-> | ->]);
      unfold added, w0; cbn [fst trace failed received could_not_determine];
      rewrite <- ?app_assoc, drop_app_length; cbn [app In];
      intros Hin;
      repeat (destruct Hin as [Hin | Hin]; try discriminate Hin);
      try contradiction;
      injection Hin as <- <-;
      (split; [reflexivity | exact (b64decode_length s B HB)]).
  - unfold spec_audio_of. cbn [contains getitem get]. rewrite Haudio.
    rewrite !bind_Return, HB, bind_Raise.
    unfold added. cbn [fst trace failed received].
    rewrite <- ?app_assoc, drop_app_length. cbn [app In].
    intros Hin.
    repeat (destruct Hin as [Hin | Hin]; try discriminate Hin).
    contradiction.
Qed.

End WrittenAudio.

Lemma written_audio_is_decoded_witness :
  let event := [("audio", VStr Demo.riff)] in
  let B := ["R"%byte; "I"%byte; "F"%byte; "F"%byte] in
  Base64.b64decode (VStr Demo.riff) = Return B /\
  4 * length B <= 3 * String.length Demo.riff.
Proof.
  intros event B.
  apply (written_audio_is_decoded Demo.platform event event Demo.riff
           Demo.start (Demo.stem +:+ ".wav") B); try reflexivity.
  vm_compute. tauto.
Defined.

(** ** More on the extension *)

Lemma occurs_last_index (c : ascii) (s : string) :
  occurs c s = false <-> last_index c s = None.
Proof.
  induction s as [|a s IH]; cbn; [tauto|].
  destruct (last_index c s) as [n|].
  - split; [|discriminate]. intros H. apply orb_false_elim in H.
    destruct H as [_ H]. apply IH in H. discriminate H.
  - destruct (Ascii.eqb a c); cbn; [split; discriminate|].
    split; [reflexivity | intros _; apply IH; reflexivity].
Qed.

Lemma last_index_get (c : ascii) (s : string) (n : nat) :
  last_index c s = Some n -> String.get n s = Some c.
Proof.
  revert n. induction s as [|a s IH]; intros n H; [discriminate H|].
  cbn in H. destruct (last_index c s) as [m|].
  - injection H as <-. cbn. apply IH. reflexivity.
  - destruct (Ascii.eqb a c) eqn:E; [|discriminate H].
    injection H as <-. apply Ascii.eqb_eq in E. subst a. reflexivity.
Qed.

(** What [splitext] returns as extension is empty, or a dot followed by
    characters none of which is a dot or a separator. *)
Lemma splitext_ext_shape (p root ext : string) :
  PosixPath.splitext p = (root, ext) ->
  ext = EmptyString \/
  exists rest,
    ext = String "." rest /\ occurs "/" rest = false /\ occurs "." rest = false.
Proof.
  unfold PosixPath.splitext, PosixPath.rfind.
  rewrite !rfind_from_last_index. unfold PosixPath.sep, PosixPath.extsep.
  destruct (last_index "." p) as [n|] eqn:Hdot.
  - destruct (Z.gtb_spec (0 + Z.of_nat n)
                match last_index "/" p with
                | Some m => (0 + Z.of_nat m)%Z
                | None => (-1)%Z
                end) as [Hgt|_]; [|intros [= _ <-]; auto].
    destruct (PosixPath.skip_leading_dots _ _ _ _) as [[r e]|] eqn:E;
      [|intros [= _ <-]; auto].
    intros [= <- <-]. right. apply skip_leading_dots_ext in E.
    replace (Z.to_nat (0 + Z.of_nat n)) with n in E by lia. subst e.
    exists (PosixPath.drop (S n) p). split; [|split].
    + apply drop_S_get, last_index_get. exact Hdot.
    + apply occurs_last_index, last_index_drop_none.
      intros m Hm. rewrite Hm in Hgt. lia.
    + apply occurs_last_index, last_index_drop_none.
      intros m Hm. rewrite Hdot in Hm. injection Hm as <-. lia.
  - destruct (Z.gtb_spec (-1)
                match last_index "/" p with
                | Some m => (0 + Z.of_nat m)%Z
                | None => (-1)%Z
                end) as [Hgt|_]; [|intros [= _ <-]; auto].
    destruct (last_index "/" p); lia.
Qed.

Lemma MIME_TO_EXT_shape (content_type ext : string) :
  dict_lookup content_type MIME_TO_EXT = Some ext ->
  exists rest,
    ext = String "." rest /\ occurs "/" rest = false /\ occurs "." rest = false.
Proof.
  unfold MIME_TO_EXT. cbn [dict_lookup].
  repeat (destruct (String.eqb content_type _);
          [intros [= <-]; eexists; repeat split; reflexivity|]).
  discriminate.
Qed.

Section ExtensionShape.

Variable P : Platform.

(** The shape of what [get_file_extension] returns. *)
Lemma get_file_extension_shape (content_type filename : value)
    (w w1 : World) (file_ext : string) :
  get_file_extension P content_type filename w = (w1, Return file_ext) ->
  exists rest,
    file_ext = String "." rest /\
    occurs "/" rest = false /\ occurs "." rest = false.
Proof.
  unfold get_file_extension. rewrite run_bind.
  destruct (truthy content_type);
    [ unfold lift at 1;
      destruct (dict_find MIME_TO_EXT content_type) as [[ext|]|e] eqn:Hfind
    | rewrite run_ret ].
  1: { rewrite run_ret. intros [= <- <-].
       destruct content_type as [| | | |s| |]; cbn [dict_find] in Hfind;
         try discriminate Hfind.
       apply (MIME_TO_EXT_shape s). congruence. }
  2: { discriminate. }
  all: rewrite run_bind;
    destruct (truthy filename);
    [ rewrite run_lift_bind;
      destruct (UrlParse.unquote P filename) as [decoded|e];
      [ destruct (PosixPath.splitext decoded) as [root ext] eqn:Hsplit;
        rewrite run_ret;
        apply splitext_ext_shape in Hsplit;
        destruct Hsplit as [-> | (rest & -> & Hsep & Hdot)];
        [ cbn; intros [= <- <-]; eexists; repeat split; reflexivity
        | cbn; intros [= <- <-]; eauto ]
      | discriminate ]
    | rewrite run_ret; cbn; intros [= <- <-];
      eexists; repeat split; reflexivity ].
Qed.

(** X14. Whatever [get_file_extension] returns is a dot followed by
    characters none of which is a dot or a slash: neither the content type
    nor the filename of a request can put a path separator into the suffix
    of the temporary file. *)
Theorem extension_has_no_separator (content_type filename : value)
    (w w1 : World) (file_ext : string) :
  get_file_extension P content_type filename w = (w1, Return file_ext) ->
  exists rest,
    file_ext = String "." rest /\
    occurs "/" rest = false /\ occurs "." rest = false.
Proof. apply get_file_extension_shape. Qed.

(** X15. A content type that is falsy (null, false, zero, an empty
    string, array or object), a number, a boolean, or a string that is no
    key of the mapping counts for nothing: [get_file_extension] returns or
    raises what it does when the content type is absent. *)
Theorem unusable_content_types_are_alike (content_type filename : value)
    (w : World) :
  passed_over content_type = true ->
  snd (get_file_extension P content_type filename w)
  = snd (get_file_extension P VNone filename w) /\
  fs (fst (get_file_extension P content_type filename w)) = fs w.
Proof.
  intros Hct.
  assert (Hty : (if truthy content_type
                 then lift (dict_find MIME_TO_EXT content_type)
                 else mret None) w = (w, Return None)).
  { destruct content_type as [|b|n|f|s|l|d]; cbn [truthy dict_find].
    - reflexivity.
    - destruct b; reflexivity.
    - destruct (negb _); reflexivity.
    - destruct f; reflexivity.
    - unfold passed_over in Hct.
      destruct (dict_lookup s MIME_TO_EXT); [discriminate Hct|].
      destruct (negb _); reflexivity.
    - destruct l; [reflexivity | discriminate Hct].
    - destruct d; [reflexivity | discriminate Hct]. }
  unfold get_file_extension. rewrite !run_bind, Hty. cbn [truthy].
  rewrite run_ret, !run_bind.
  match goal with
  | |- context [(if truthy filename then ?a else ?b) w] =>
      destruct ((if truthy filename then a else b) w)
        as [w2 [[ext|]|e]] eqn:Hname
  end;
    apply by_name_run in Hname; destruct Hname as [-> _]; cbn; auto.
Qed.

(** X16. A content type that is a non-empty array or object cannot be
    looked up: [get_file_extension] raises [TypeError], whatever the
    filename, and an invocation whose logical body carries such a content
    type beside decodable audio is answered 500 before any file is
    created. *)
Theorem unhashable_content_type_is_500 (content_type filename : value)
    (w : World) :
  unhashable content_type = true ->
  let e := TypeError ("unhashable type: '" +:+ type_name content_type +:+ "'") in
  get_file_extension P content_type filename w = (w, Raise e) /\
  forall d b audio audio_data,
    spec_logical_body P d = Return (VDict b) ->
    dict_lookup "audio" b = Some audio ->
    Base64.b64decode audio = Return audio_data ->
    dict_lookup "contentType" b = Some content_type ->
    handler P (VDict d) w
    = (failed e (received P (VDict d) w), Return (error_response P e)).
Proof.
  intros Hct e.
  assert (Hraise : forall w0 fn,
    get_file_extension P content_type fn w0 = (w0, Raise e)).
  { intros w0 fn. subst e.
    destruct content_type as [| | | | |[|x l]|[|x l]]; try discriminate Hct;
      reflexivity. }
  split; [apply Hraise|].
  intros d b audio audio_data Hbody Haudio Hdec Htype.
  rewrite handler_unfold, handler_try_dict, run_lift_bind, Hbody.
  unfold spec_process.
  rewrite run_lift_bind, (spec_audio_of_present P _ _ _ Haudio Hdec), Htype.
  erewrite staging_no_extension by apply Hraise. reflexivity.
Qed.

End ExtensionShape.

Lemma extension_has_no_separator_witness :
  exists rest,
    ".sh" = String "." rest /\
    occurs "/" rest = false /\ occurs "." rest = false.
Proof.
  apply (extension_has_no_separator Demo.platform VNone
           (VStr "..%2F..%2Fetc/cron.d/job.sh") Demo.start Demo.start).
  reflexivity.
Defined.

Lemma unusable_content_types_are_alike_witness :
  snd (get_file_extension Demo.platform (VInt 7) (VStr "clip.ogg") Demo.start)
  = snd (get_file_extension Demo.platform VNone (VStr "clip.ogg") Demo.start) /\
  fs (fst (get_file_extension Demo.platform (VInt 7) (VStr "clip.ogg")
             Demo.start))
  = fs Demo.start.
Proof.
  apply (unusable_content_types_are_alike Demo.platform (VInt 7)
           (VStr "clip.ogg") Demo.start).
  reflexivity.
Defined.

Lemma unhashable_content_type_is_500_witness :
  let content_type := VList [VStr "audio/wav"] in
  let event := [("audio", VStr Demo.riff); ("contentType", content_type)] in
  let e := TypeError "unhashable type: 'list'" in
  get_file_extension Demo.platform content_type (VStr "clip.ogg") Demo.start
  = (Demo.start, Raise e) /\
  handler Demo.platform (VDict event) Demo.start
  = (failed e (received Demo.platform (VDict event) Demo.start),
     Return (error_response Demo.platform e)).
Proof.
  intros content_type event e.
  pose proof (unhashable_content_type_is_500 Demo.platform content_type
                (VStr "clip.ogg") Demo.start eq_refl) as [Hraise Hhandler].
  split; [exact Hraise|].
  apply (Hhandler event event (VStr Demo.riff)
           ["R"%byte; "I"%byte; "F"%byte; "F"%byte]);
    reflexivity.
Defined.

Section TemporaryFile.

Variable P : Platform.

(** X17. A request has no say in where its audio is put.  The name of
    a file created in an invocation is the stem that the platform's
    temporary-file facility chose, followed by a dot and characters none
    of which is a slash or a dot, and no file of that name was on the
    disk before. *)
Theorem temp_file_name_is_safe (event : value) (w : World) (name : string) :
  In (Created name) (added w (fst (handler P event w))) ->
  exists stem rest,
    name = stem +:+ String "." rest /\
    tmp_stem P (fs w) (String "." rest) = Return stem /\
    occurs "/" rest = false /\ occurs "." rest = false /\
    fs w !! name = None.
Proof.
  destruct (handler_invocation P event w) as (effects & disk' & r & -> & Hinv).
  cbn [fst]. rewrite added_app.
  inversion Hinv as
    [ | logged e Hl | logged ext stem e partial Hl Hres Hstem Hfresh
      | logged ext stem B t Hl Hres Hstem Hfresh
      | logged ext stem B e Hl Hres Hstem Hfresh
      | logged ext stem B t e Hl Hres Hstem Hfresh
      | logged ext stem B e' e Hl Hres Hstem Hfresh ]; subst;
    try (destruct Hl as [-> | (c & f & ->)]);
    cbn [In app]; intros Hin;
    repeat (destruct Hin as [Hin | Hin]; try discriminate Hin);
    try contradiction;
    injection Hin as <-;
    destruct Hres as (ct & fn & w0 & w1 & Hext);
    apply get_file_extension_shape in Hext;
    destruct Hext as (rest & -> & Hsep & Hdot);
    exists stem, rest; auto.
Qed.

End TemporaryFile.

Lemma temp_file_name_is_safe_witness :
  let event := VDict [("audio", VStr Demo.riff);
                      ("filename", VStr "../../var/task/app.py")] in
  exists stem rest,
    "/tmp/tmpq0f3k6zd.py" = stem +:+ String "." rest /\
    tmp_stem Demo.platform (fs Demo.start) (String "." rest) = Return stem /\
    occurs "/" rest = false /\ occurs "." rest = false /\
    fs Demo.start !! "/tmp/tmpq0f3k6zd.py" = None.
Proof.
  intros event.
  apply (temp_file_name_is_safe Demo.platform event Demo.start).
  vm_compute. tauto.
Defined.

(** ** The start of the process and the download script *)

Lemma endswith_sep_app (a b : string) :
  b <> EmptyString ->
  OsPath.endswith_sep (a +:+ b) = OsPath.endswith_sep b.
Proof.
  intros Hb. induction a as [|c a IH]; [reflexivity|].
  change (String c a +:+ b) with (String c (a +:+ b)).
  cbn [OsPath.endswith_sep]. rewrite IH.
  destruct (a +:+ b) eqn:E; [|reflexivity].
  destruct a; [cbn in E; contradiction | discriminate E].
Qed.

Lemma rstrip_sep_no_trailing (s : string) :
  OsPath.endswith_sep (OsPath.rstrip_sep s) = false.
Proof.
  induction s as [|c s IH]; [reflexivity|].
  cbn [OsPath.rstrip_sep].
  destruct (OsPath.rstrip_sep s) as [|c' r] eqn:E.
  - destruct (Ascii.eqb c PosixPath.sep) eqn:Hc; [reflexivity|].
    cbn. exact Hc.
  - exact IH.
Qed.

Lemma join_plain (a b : string) :
  a <> EmptyString ->
  OsPath.endswith_sep a = false ->
  OsPath.startswith_sep b = false ->
  OsPath.join a b = a +:+ String "/" b.
Proof.
  intros Ha Hend Hstart. unfold OsPath.join. rewrite Hstart, Hend.
  destruct a; [contradiction | reflexivity].
Qed.

Lemma append_not_empty (a b : string) :
  b <> EmptyString -> a +:+ b <> EmptyString.
Proof. intros Hb. destruct a; [exact Hb | discriminate]. Qed.

(** [os.path.join(os.path.expanduser("~"), ".cache")] when [HOME] is
    set. *)
Lemma default_cache_of_home (environ : gmap string string)
    (pw_dir : option string) (pw_name_dir : string -> option string)
    (home : string) :
  environ !! "HOME" = Some home ->
  OsPath.join (OsPath.expanduser environ pw_dir pw_name_dir "~") ".cache"
  = OsPath.rstrip_sep home +:+ "/.cache".
Proof.
  intros Hhome. unfold OsPath.expanduser. cbn [OsPath.split_at_sep String.eqb].
  rewrite Hhome.
  replace (OsPath.rstrip_sep home +:+ EmptyString) with (OsPath.rstrip_sep home).
  2: { induction (OsPath.rstrip_sep home) as [|c s IH]; [reflexivity|].
       change (String c s = String c (s +:+ EmptyString)). now rewrite <- IH. }
  destruct (OsPath.rstrip_sep home) as [|c r] eqn:E; [reflexivity|].
  rewrite <- E. apply join_plain.
  - rewrite E. discriminate.
  - apply rstrip_sep_no_trailing.
  - reflexivity.
Qed.

Lemma startswith_sep_app (a b : string) :
  OsPath.startswith_sep a = false -> b = ".pt" ->
  OsPath.startswith_sep (a +:+ b) = false.
Proof. intros Ha ->. destruct a; [reflexivity | exact Ha]. Qed.

(** X18. Where the process looks for the model at its start.  With
    [XDG_CACHE_HOME] set to a non-empty path without trailing slash it is
    that path, then [/whisper/], the model size and [.pt], and the home
    directory plays no part; without [XDG_CACHE_HOME] it is the home
    directory given by [HOME], its trailing slashes removed, then
    [/.cache/whisper/], the model size and [.pt]. *)
Theorem model_file_location (proc : AppModule.Process) :
  OsPath.startswith_sep (AppModule.MODEL_SIZE proc) = false ->
  (forall cache,
      AppModule.environ proc !! "XDG_CACHE_HOME" = Some cache ->
      cache <> EmptyString ->
      OsPath.endswith_sep cache = false ->
      AppModule.model_file proc
      = cache +:+ "/whisper/" +:+ AppModule.MODEL_SIZE proc +:+ ".pt") /\
  (forall home,
      AppModule.environ proc !! "XDG_CACHE_HOME" = None ->
      AppModule.environ proc !! "HOME" = Some home ->
      AppModule.model_file proc
      = OsPath.rstrip_sep home +:+ "/.cache/whisper/"
        +:+ AppModule.MODEL_SIZE proc +:+ ".pt").
Proof.
  intros Hsize.
  assert (Hfile : forall dir,
    OsPath.endswith_sep dir = false -> dir <> EmptyString ->
    OsPath.join (OsPath.join dir "whisper") (AppModule.MODEL_SIZE proc +:+ ".pt")
    = dir +:+ "/whisper/" +:+ AppModule.MODEL_SIZE proc +:+ ".pt").
  { intros dir Hend Hdir.
    rewrite (join_plain dir "whisper") by (assumption || reflexivity).
    rewrite join_plain.
    - rewrite append_assoc. reflexivity.
    - apply append_not_empty. discriminate.
    - rewrite endswith_sep_app by discriminate. reflexivity.
    - apply startswith_sep_app; [exact Hsize | reflexivity]. }
  unfold AppModule.model_file, AppModule.whisper_cache, AppModule.cache_dir,
    AppModule.getenv.
  split.
  - intros cache -> Hne Hend. apply Hfile; assumption.
  - intros home -> Hhome. rewrite (default_cache_of_home _ _ _ _ Hhome).
    rewrite Hfile.
    + rewrite append_assoc. reflexivity.
    + rewrite endswith_sep_app by discriminate. reflexivity.
    + apply append_not_empty. discriminate.
Qed.

Lemma model_file_location_witness :
  AppModule.model_file Deploy.process
  = "/opt/whisper-cache/whisper/tiny.en.pt" /\
  AppModule.model_file Deploy.at_home
  = "/home/sbx_user/.cache/whisper/tiny.en.pt".
Proof.
  split.
  - apply (proj1 (model_file_location Deploy.process eq_refl)
             "/opt/whisper-cache"); [reflexivity | discriminate | reflexivity].
  - apply (proj2 (model_file_location Deploy.at_home eq_refl)
             "/home/sbx_user/"); reflexivity.
Defined.

(** With the same cache and home settings, the directory the process
    logs is the one the script downloads to. *)
Lemma whisper_cache_is_download_root (b : DownloadModel.Build)
    (proc : AppModule.Process) :
  AppModule.environ proc !! "XDG_CACHE_HOME"
  = DownloadModel.environ b !! "XDG_CACHE_HOME" ->
  AppModule.environ proc !! "HOME" = DownloadModel.environ b !! "HOME" ->
  AppModule.pw_dir proc = DownloadModel.pw_dir b ->
  AppModule.whisper_cache proc = DownloadModel.download_root b.
Proof.
  intros Hxdg Hhome Hpw.
  unfold AppModule.whisper_cache, DownloadModel.download_root,
    AppModule.cache_dir, DownloadModel.default_cache,
    AppModule.getenv, DownloadModel.getenv.
  rewrite Hxdg, Hpw.
  destruct (DownloadModel.environ b !! "XDG_CACHE_HOME"); [reflexivity|].
  unfold OsPath.expanduser. cbn [OsPath.split_at_sep String.eqb].
  rewrite Hhome. reflexivity.
Qed.

Lemma append_inv_head (a x y : string) : a +:+ x = a +:+ y -> x = y.
Proof.
  induction a as [|c a IH]; [exact (fun H => H)|].
  change (String c a +:+ x) with (String c (a +:+ x)).
  change (String c a +:+ y) with (String c (a +:+ y)).
  intros [= H]. exact (IH H).
Qed.

Lemma append_length (x y : string) :
  String.length (x +:+ y) = String.length x + String.length y.
Proof.
  induction x as [|c x IH]; [reflexivity|].
  change (String c x +:+ y) with (String c (x +:+ y)).
  cbn [String.length]. rewrite IH. reflexivity.
Qed.

Lemma append_inv_tail (x y s : string) : x +:+ s = y +:+ s -> x = y.
Proof.
  revert y. induction x as [|c x IH]; intros [|c' y] H.
  - reflexivity.
  - apply (f_equal String.length) in H.
    change (EmptyString +:+ s) with s in H.
    rewrite append_length in H. cbn [String.length] in H. lia.
  - apply (f_equal String.length) in H.
    change (EmptyString +:+ s) with s in H.
    rewrite append_length in H. cbn [String.length] in H. lia.
  - change (String c x +:+ s) with (String c (x +:+ s)) in H.
    change (String c' y +:+ s) with (String c' (y +:+ s)) in H.
    injection H as -> H. f_equal. exact (IH _ H).
Qed.

Lemma join_inv (a x y : string) :
  OsPath.startswith_sep x = false ->
  OsPath.startswith_sep y = false ->
  OsPath.join a x = OsPath.join a y -> x = y.
Proof.
  intros Hx Hy. unfold OsPath.join. rewrite Hx, Hy.
  destruct (String.eqb a EmptyString || OsPath.endswith_sep a); intros H.
  - exact (append_inv_head _ _ _ H).
  - apply append_inv_head in H. congruence.
Qed.

(** X19. The download script and the process agree on the place of the
    model.  If the script ran to its end, and the process starts on the
    disk it left, with the same cache and home settings and with
    [MODEL_SIZE] unset or equal to the script's model name, then the file
    the process looks for is the one whose size the script has printed;
    and if loading the model does not remove it, the process logs that it
    found the model, not the warning, and has the model. *)
Theorem provisioned_model_is_found (b : DownloadModel.Build)
    (proc : AppModule.Process)
    (disk0 disk1 disk2 : gmap string (list byte))
    (printed : list DownloadModel.line)
    (model : gmap string (list byte) -> string -> result transcript) :
  DownloadModel.main b disk0 = (disk1, printed, Return tt) ->
  AppModule.environ proc !! "XDG_CACHE_HOME"
  = DownloadModel.environ b !! "XDG_CACHE_HOME" ->
  AppModule.environ proc !! "HOME" = DownloadModel.environ b !! "HOME" ->
  AppModule.pw_dir proc = DownloadModel.pw_dir b ->
  AppModule.environ proc !! "MODEL_SIZE" = None \/
  AppModule.environ proc !! "MODEL_SIZE" = Some DownloadModel.MODEL_NAME ->
  AppModule.load_model proc disk1 (AppModule.MODEL_SIZE proc)
  = (disk2, Return model) ->
  (is_Some (disk1 !! AppModule.model_file proc) ->
   is_Some (disk2 !! AppModule.model_file proc)) ->
  AppModule.model_file proc = DownloadModel.model_file b /\
  (exists content,
      disk1 !! AppModule.model_file proc = Some content /\
      In (DownloadModel.Model_file_size (length content)) printed) /\
  AppModule.init proc disk1
  = (disk2,
     [(AppModule.info, AppModule.Loading_model DownloadModel.MODEL_NAME);
      (AppModule.info,
       AppModule.Using_cache_directory (AppModule.whisper_cache proc));
      (AppModule.info, AppModule.Found_model (AppModule.model_file proc))],
     Return model).
Proof.
  intros Hmain Hxdg Hhome Hpw Hsize Hload Hkept.
  assert (Hname : AppModule.MODEL_SIZE proc = DownloadModel.MODEL_NAME).
  { unfold AppModule.MODEL_SIZE, AppModule.getenv.
    destruct Hsize as [-> | ->]; reflexivity. }
  assert (Hfile : AppModule.model_file proc = DownloadModel.model_file b).
  { unfold AppModule.model_file, DownloadModel.model_file.
    rewrite Hname, (whisper_cache_is_download_root b proc Hxdg Hhome Hpw).
    reflexivity. }
  assert (Hthere : exists content,
    disk1 !! DownloadModel.model_file b = Some content /\
    In (DownloadModel.Model_file_size (length content)) printed).
  { revert Hmain. unfold DownloadModel.main.
    destruct (if DownloadModel.cuda_is_available b then _ else _)
      as [lines|e]; [|discriminate].
    destruct (DownloadModel.makedirs_fault b disk0 _); [discriminate|].
    destruct (DownloadModel.load_model b disk0 _) as [disk' [[]|e]];
      [|discriminate].
    destruct (disk' !! DownloadModel.model_file b) as [content|] eqn:E;
      [|discriminate].
    intros [= <- <-]. exists content. split; [exact E|].
    right. apply in_or_app. right. left. reflexivity. }
  rewrite <- Hfile in Hthere.
  split; [exact Hfile|]. split; [exact Hthere|].
  unfold AppModule.init. rewrite Hload, Hname.
  rewrite bool_decide_eq_true_2; [reflexivity|].
  apply Hkept. destruct Hthere as (content & -> & _). eauto.
Qed.

Lemma provisioned_model_is_found_witness :
  let disk1 := Deploy.fetch ∅ "tiny.en" in
  AppModule.model_file Deploy.process
  = DownloadModel.model_file Deploy.build /\
  (exists content,
      disk1 !! AppModule.model_file Deploy.process = Some content /\
      In (DownloadModel.Model_file_size (length content))
        (snd (fst (DownloadModel.main Deploy.build ∅)))) /\
  AppModule.init Deploy.process disk1
  = (disk1,
     [(AppModule.info, AppModule.Loading_model DownloadModel.MODEL_NAME);
      (AppModule.info,
       AppModule.Using_cache_directory (AppModule.whisper_cache Deploy.process));
      (AppModule.info,
       AppModule.Found_model (AppModule.model_file Deploy.process))],
     Return Demo.hello).
Proof.
  intros disk1.
  apply (provisioned_model_is_found Deploy.build Deploy.process ∅ disk1 disk1
           (snd (fst (DownloadModel.main Deploy.build ∅))) Demo.hello);
    try reflexivity.
  - left. reflexivity.
  - intros H. exact H.
Defined.

(** X20. The process finds what the script downloaded only under the
    script's model name.  With the same cache and home settings, and a
    [MODEL_SIZE] that does not begin with a slash, the file the process
    looks for at its start is the file the script has verified exactly
    when [MODEL_SIZE] is unset or [tiny.en]; with any other model size
    the process looks for another file. *)
Theorem model_found_only_under_script_name (b : DownloadModel.Build)
    (proc : AppModule.Process) :
  AppModule.environ proc !! "XDG_CACHE_HOME"
  = DownloadModel.environ b !! "XDG_CACHE_HOME" ->
  AppModule.environ proc !! "HOME" = DownloadModel.environ b !! "HOME" ->
  AppModule.pw_dir proc = DownloadModel.pw_dir b ->
  OsPath.startswith_sep (AppModule.MODEL_SIZE proc) = false ->
  AppModule.model_file proc = DownloadModel.model_file b <->
  (AppModule.environ proc !! "MODEL_SIZE" = None \/
   AppModule.environ proc !! "MODEL_SIZE" = Some DownloadModel.MODEL_NAME).
Proof.
  intros Hxdg Hhome Hpw Hsize.
  unfold AppModule.model_file, DownloadModel.model_file.
  rewrite (whisper_cache_is_download_root b proc Hxdg Hhome Hpw).
  split.
  - intros H. apply join_inv in H.
    + apply append_inv_tail in H. revert H.
      unfold AppModule.MODEL_SIZE, AppModule.getenv.
      destruct (AppModule.environ proc !! "MODEL_SIZE");
        [intros ->; right; reflexivity | left; reflexivity].
    + apply startswith_sep_app; [exact Hsize | reflexivity].
    + reflexivity.
  - intros H.
    replace (AppModule.MODEL_SIZE proc) with DownloadModel.MODEL_NAME;
      [reflexivity|].
    unfold AppModule.MODEL_SIZE, AppModule.getenv.
    destruct H as [-> | ->]; reflexivity.
Qed.

Lemma model_found_only_under_script_name_witness :
  AppModule.model_file Deploy.process = DownloadModel.model_file Deploy.build /\
  AppModule.model_file Deploy.base_size <> DownloadModel.model_file Deploy.build.
Proof.
  split.
  - apply (proj2 (model_found_only_under_script_name Deploy.build
                    Deploy.process eq_refl eq_refl eq_refl eq_refl)).
    left. reflexivity.
  - intros Hsame.
    apply (proj1 (model_found_only_under_script_name Deploy.build
                    Deploy.base_size eq_refl eq_refl eq_refl eq_refl)) in Hsame.
    destruct Hsame as [Hsize | Hsize]; vm_compute in Hsize; discriminate Hsize.
Defined.
